(** * Credit-risk decision and metrics engine

    Shallow embedding of
      - [src/api/app/services/data_service.py]  (class [DataService]),
      - [src/api/app/services/model_service.py] ([ModelService._get_recommendation]),
      - [src/scripts/classify_risk_BACEN.py]    ([classify_risk_bacen]).

    Conventions of the embedding.
      - A Python [float] is an exact rational [Q]; the special values the
        code can produce ([float("-inf")], the [nan] mean of an empty
        column) are kept apart in [pyfloat].  Python [int]s and numpy
        integer counts are [Z].
      - A pandas [DataFrame] is the list of its rows, a column is the [map]
        of a field over the rows, a boolean [Series] is a [list bool].
      - [DataService] is an object with mutable attributes: its methods are
        computations in a state-and-exception monad [M].
      - [time.time()] is an oracle: the n-th call returns [time_time n].
        [np.argsort] (unstable for equal keys) is an oracle as well. *)

From Stdlib Require Import QArith Qround Qabs Lia Lqa ZArith Sorted.
From stdpp Require Import base option list sorting gmap strings.

Local Open Scope Q_scope.

(* ------------------------------------------------------------------ *)
(** ** Numbers *)

Inductive pyfloat : Type :=
  | PyFin (q : Q)
  | PyNegInf
  | PyNaN.

(** [value > best_value] for a finite left operand. *)
Definition gt_pyfloat (v : Q) (b : pyfloat) : bool :=
  match b with
  | PyFin q => if Qlt_le_dec q v then true else false
  | PyNegInf => true
  | PyNaN => false
  end.

(** Round half to even, the rule of Python's [round]. *)
Definition round_half_even (x : Q) : Z :=
  let f := Qfloor x in
  match Qcompare (x - inject_Z f) (1 # 2) with
  | Lt => f
  | Gt => (f + 1)%Z
  | Eq => if Z.even f then f else (f + 1)%Z
  end.

Definition pow10 (ndigits : nat) : Q := inject_Z (10 ^ Z.of_nat ndigits).

(** [round(x, ndigits)] *)
Definition py_round (x : Q) (ndigits : nat) : Q :=
  inject_Z (round_half_even (x * pow10 ndigits)) / pow10 ndigits.

Fixpoint sum_Z (l : list Z) : Z :=
  match l with
  | [] => 0%Z
  | x :: l' => (x + sum_Z l')%Z
  end.

Fixpoint sum_Q (l : list Q) : Q :=
  match l with
  | [] => 0
  | x :: l' => x + sum_Q l'
  end.

(** [np.linspace(start, stop, num)]: [start + i * step], the last point
    being [stop] itself. *)
Definition np_linspace (start stop : Q) (num : nat) : list Q :=
  match num with
  | O => []
  | S O => [start]
  | S n =>
      let step := (stop - start) / inject_Z (Z.of_nat n) in
      map (fun i => start + inject_Z (Z.of_nat i) * step) (seq 0 n) ++ [stop]
  end.

(** [np.trapz(y, x)] *)
Fixpoint np_trapz (y x : list Q) : Q :=
  match y, x with
  | y0 :: ((y1 :: _) as y'), x0 :: ((x1 :: _) as x') =>
      (x1 - x0) * (y0 + y1) / 2 + np_trapz y' x'
  | _, _ => 0
  end.

(* ------------------------------------------------------------------ *)
(** ** Exceptions *)

Inductive exn : Type :=
  | ZeroDivisionError
  | IndexError
  | AttributeError (attr : string).

Inductive Result (A : Type) : Type :=
  | Ok (a : A)
  | Raise (e : exn).
Arguments Ok {A} a.
Arguments Raise {A} e.

#[global] Instance result_ret : MRet Result := fun A a => Ok a.
#[global] Instance result_bind : MBind Result :=
  fun A B f m => match m with Ok a => f a | Raise e => Raise e end.

(** [a / b] on numbers: raises on a zero divisor. *)
Definition truediv (a b : Q) : Result Q :=
  if Qeq_bool b 0 then Raise ZeroDivisionError else Ok (a / b).

(* ------------------------------------------------------------------ *)
(** ** The population table *)

(** A row of the parquet file: columns [score], [inadimplente], [ticket]. *)
Record RawRow : Type := mkRawRow {
  raw_score : Q;
  raw_inadimplente : Z;
  raw_ticket : Q
}.

(** A row of [df_preprocessed]: the copy, plus [score_normalizado]. *)
Record Row : Type := mkRow {
  score : Q;
  inadimplente : Z;
  ticket : Q;
  score_normalizado : Q
}.

Definition Mask : Type := list bool.

(** [col >= x], [col < x], [col == v] *)
Definition col_ge (col : list Q) (x : Q) : Mask :=
  map (fun v => Qle_bool x v) col.
Definition col_lt (col : list Q) (x : Q) : Mask :=
  map (fun v => if Qlt_le_dec v x then true else false) col.
Definition col_eq (col : list Z) (v : Z) : Mask :=
  map (fun x => Z.eqb x v) col.

(** [a & b], [~a], [a.sum()] *)
Definition mask_and (a b : Mask) : Mask := zip_with andb a b.
Definition mask_not (a : Mask) : Mask := map negb a.
Definition mask_sum (a : Mask) : Z :=
  sum_Z (map (fun b : bool => if b then 1%Z else 0%Z) a).

(** [df.loc[mask, column]] *)
Fixpoint loc {A : Type} (mask : Mask) (col : list A) : list A :=
  match mask, col with
  | b :: mask', x :: col' => if b then x :: loc mask' col' else loc mask' col'
  | _, _ => []
  end.

Definition len {A : Type} (l : list A) : Z := Z.of_nat (length l).

(** [column.mean()]: [nan] on an empty column. *)
Definition mean (col : list Q) : pyfloat :=
  match col with
  | [] => PyNaN
  | _ => PyFin (sum_Q col / inject_Z (len col))
  end.

(* ------------------------------------------------------------------ *)
(** ** Result dictionaries *)

(** The dictionary built by [get_metrics]. *)
Record Metrics : Type := mkMetrics {
  saldoLiquido : Q;
  taxaAprovacao : Q;
  taxaInadimplencia : Q;
  totalClientes : Z;
  clientesAprovados : Z;
  clientesRejeitados : Z;
  receitaTotal : Q;
  perdasInadimplencia : Q;
  oportunidadesPerdidas : Q;
  perdasEvitadas : Q;
  valorMedio : pyfloat;
  threshold : Q
}.

Definition _get_empty_metrics : Metrics :=
  {| saldoLiquido := 0;
     taxaAprovacao := 0;
     taxaInadimplencia := 0;
     totalClientes := 0;
     clientesAprovados := 0;
     clientesRejeitados := 0;
     receitaTotal := 0;
     perdasInadimplencia := 0;
     oportunidadesPerdidas := 0;
     perdasEvitadas := 0;
     valorMedio := PyFin 0;
     threshold := 1 # 2 |}.

(** Lines 107-155 of [get_metrics]: the computation on a non-empty table,
    with the attributes [self.total_clientes] and [self.valor_medio]
    already read. *)
Definition compute_metrics (df : list Row) (total_clientes : Z)
    (valor_medio : pyfloat) (threshold : Q) : Result Metrics :=
  let aprovado_mask := col_ge (map score_normalizado df) threshold in
  let clientes_aprovados := mask_sum aprovado_mask in
  let clientes_rejeitados := (total_clientes - clientes_aprovados)%Z in
  taxa_aprovacao ←
    (if (0 <? total_clientes)%Z
     then q ← truediv (inject_Z clientes_aprovados) (inject_Z total_clientes);
          mret (q * 100)
     else mret 0);
  taxa_inadimplencia ←
    (if (0 <? clientes_aprovados)%Z
     then
       let inadimplentes_aprovados :=
         sum_Z (loc aprovado_mask (map inadimplente df)) in
       q ← truediv (inject_Z inadimplentes_aprovados)
                   (inject_Z clientes_aprovados);
       mret (q * 100)
     else mret 0);
  let receita_aprovados :=
    if (0 <? clientes_aprovados)%Z
    then sum_Q (loc aprovado_mask (map ticket df)) else 0 in
  let inadimplentes_aprovados_mask :=
    mask_and aprovado_mask (col_eq (map inadimplente df) 1) in
  let perdas_inadimplentes :=
    sum_Q (loc inadimplentes_aprovados_mask (map ticket df)) in
  let saldo_liquido := receita_aprovados - perdas_inadimplentes in
  let rejeitados_bons_mask :=
    mask_and (mask_not aprovado_mask) (col_eq (map inadimplente df) 0) in
  let oportunidades_perdidas :=
    sum_Q (loc rejeitados_bons_mask (map ticket df)) in
  let rejeitados_maus_mask :=
    mask_and (mask_not aprovado_mask) (col_eq (map inadimplente df) 1) in
  let perdas_evitadas :=
    sum_Q (loc rejeitados_maus_mask (map ticket df)) in
  mret {| saldoLiquido := saldo_liquido;
          taxaAprovacao := py_round taxa_aprovacao 1;
          taxaInadimplencia := py_round taxa_inadimplencia 1;
          totalClientes := total_clientes;
          clientesAprovados := clientes_aprovados;
          clientesRejeitados := clientes_rejeitados;
          receitaTotal := receita_aprovados;
          perdasInadimplencia := perdas_inadimplentes;
          oportunidadesPerdidas := oportunidades_perdidas;
          perdasEvitadas := perdas_evitadas;
          valorMedio := valor_medio;
          threshold := threshold |}.

(** The dictionary built by [get_confusion_matrix]; the reply for a missing
    table has the four cells only ([cm_rates = None]). *)
Record ConfusionRates : Type := mkConfusionRates {
  accuracy : Q;
  precision : Q;
  recall : Q;
  f1_score : Q;
  cm_threshold : Q
}.

Record Confusion : Type := mkConfusion {
  tp : Z;
  fp : Z;
  tn : Z;
  fn : Z;
  cm_rates : option ConfusionRates
}.

(** Lines 265-296 of [get_confusion_matrix]. *)
Definition compute_confusion_matrix (df : list Row) (threshold : Q)
    : Result Confusion :=
  let aprovado_mask := col_ge (map score_normalizado df) threshold in
  let rejeitado_mask := mask_not aprovado_mask in
  let inadimplente_mask := col_eq (map inadimplente df) 1 in
  let adimplente_mask := col_eq (map inadimplente df) 0 in
  let tp := mask_sum (mask_and rejeitado_mask inadimplente_mask) in
  let fp := mask_sum (mask_and rejeitado_mask adimplente_mask) in
  let tn := mask_sum (mask_and aprovado_mask adimplente_mask) in
  let fn := mask_sum (mask_and aprovado_mask inadimplente_mask) in
  let total := (tp + fp + tn + fn)%Z in
  accuracy ←
    (if (0 <? total)%Z
     then truediv (inject_Z (tp + tn)) (inject_Z total) else mret 0);
  precision ←
    (if (0 <? tp + fp)%Z
     then truediv (inject_Z tp) (inject_Z (tp + fp)) else mret 0);
  recall ←
    (if (0 <? tp + fn)%Z
     then truediv (inject_Z tp) (inject_Z (tp + fn)) else mret 0);
  f1_score ←
    (if Qlt_le_dec 0 (precision + recall)
     then truediv (2 * (precision * recall)) (precision + recall)
     else mret 0);
  mret {| tp := tp; fp := fp; tn := tn; fn := fn;
          cm_rates := Some {| accuracy := py_round (accuracy * 100) 2;
                              precision := py_round (precision * 100) 2;
                              recall := py_round (recall * 100) 2;
                              f1_score := py_round (f1_score * 100) 2;
                              cm_threshold := threshold |} |}.

(** The dictionary built by [get_roc_curve_data]. *)
Record RocCurve : Type := mkRocCurve {
  roc_fpr : list Q;
  roc_tpr : list Q;
  roc_thresholds : list Q;
  roc_auc : Q
}.

(** The counts [tp] and [fp] of one turn of the ROC loop (lines 217-222). *)
Definition roc_counts (df : list Row) (inadimplente_mask adimplente_mask : Mask)
    (threshold : Q) : Z * Z :=
  let rejeitado_mask := col_lt (map score_normalizado df) threshold in
  let tp := mask_sum (mask_and rejeitado_mask inadimplente_mask) in
  let fp := mask_sum (mask_and rejeitado_mask adimplente_mask) in
  (tp, fp).

(** One turn of the ROC loop (lines 215-231): the pair appended to
    [fpr_list] and [tpr_list]. *)
Definition roc_point (df : list Row) (inadimplente_mask adimplente_mask : Mask)
    (total_inadimplentes total_adimplentes : Z) (threshold : Q)
    : Result (Q * Q) :=
  let '(tp, fp) := roc_counts df inadimplente_mask adimplente_mask threshold in
  tpr ←
    (if (0 <? total_inadimplentes)%Z
     then truediv (inject_Z tp) (inject_Z total_inadimplentes) else mret 0);
  fpr ←
    (if (0 <? total_adimplentes)%Z
     then truediv (inject_Z fp) (inject_Z total_adimplentes) else mret 0);
  mret (fpr, tpr).

(** [[l[i] for i in indices]] *)
Definition take_indices (l : list Q) (indices : list nat) : Result (list Q) :=
  mapM (fun i => match l !! i with
                 | Some x => Ok x
                 | None => Raise IndexError
                 end) indices.

(** One row of the table of [get_threshold_sensitivity]. *)
Record SensitivityRow : Type := mkSensitivityRow {
  sens_threshold : Q;
  sens_taxaAprovacao : Q;
  sens_taxaInadimplencia : Q;
  sens_saldoLiquido : Q;
  sens_perdasEvitadas : Q;
  sens_oportunidadesPerdidas : Q
}.

Inductive Sensitivity : Type :=
  | SensUnavailable                        (* {"thresholds": [], "metrics": []} *)
  | SensData (data : list SensitivityRow). (* {"data": results} *)

(** One entry of [all_results] in [optimize_threshold]. *)
Record OptPoint : Type := mkOptPoint {
  op_threshold : Q;
  op_value : Q;
  op_metrics : Metrics
}.

(** The two dictionaries [optimize_threshold] can return. *)
Inductive OptimizeResult : Type :=
  | OptUnavailable (optimal_threshold : Q) (objective : string)
  | OptFull (optimal_threshold : Q) (objective : string)
      (best_value : pyfloat) (metrics : Metrics) (all_results : list OptPoint).

(** The keys of the returned dictionary. *)
Definition keys (r : OptimizeResult) : list string :=
  match r with
  | OptUnavailable _ _ => ["optimal_threshold"; "objective"]
  | OptFull _ _ _ _ _ =>
      ["optimal_threshold"; "objective"; "best_value"; "metrics"; "all_results"]
  end.

Definition optimal_threshold (r : OptimizeResult) : Q :=
  match r with
  | OptUnavailable t _ | OptFull t _ _ _ _ => t
  end.

Definition objective (r : OptimizeResult) : string :=
  match r with
  | OptUnavailable _ o | OptFull _ o _ _ _ => o
  end.

Definition best_value (r : OptimizeResult) : option pyfloat :=
  match r with
  | OptUnavailable _ _ => None
  | OptFull _ _ v _ _ => Some v
  end.

Definition metrics (r : OptimizeResult) : option Metrics :=
  match r with
  | OptUnavailable _ _ => None
  | OptFull _ _ _ m _ => Some m
  end.

Definition all_results (r : OptimizeResult) : option (list OptPoint) :=
  match r with
  | OptUnavailable _ _ => None
  | OptFull _ _ _ _ l => Some l
  end.

(** The value of a grid point under an objective (lines 353-360). *)
Definition objective_value (objective : string) (metrics : Metrics) : Q :=
  if String.eqb objective "profit" then saldoLiquido metrics
  else if String.eqb objective "risk" then - taxaInadimplencia metrics
  else if String.eqb objective "balanced"
       then taxaAprovacao metrics - taxaInadimplencia metrics * 10
  else saldoLiquido metrics.

(* ------------------------------------------------------------------ *)
(** ** The service object *)

(** The attributes of a [DataService].  [_metrics_cache] is one Python
    dictionary keyed by the MD5 digest of the method name and its rounded
    parameters; digests of distinct (method, parameters) pairs are taken
    to be distinct, so the dictionary is kept as one typed table per
    method: [metrics_cache] and [confusion_cache] are indexed by
    [round(threshold, 2)] in hundredths, the two parameterless methods
    have one slot each.  An entry is the pair (data, timestamp).
    [total_clientes] and [valor_medio] exist only once [_preprocess_data]
    has assigned them.  [roc_lru] is the one-entry [lru_cache] wrapped
    around [get_roc_curve_data]; [time_calls] counts the readings of the
    clock. *)
Record DataService : Type := mkDataService {
  df : option (list RawRow);
  df_preprocessed : option (list Row);
  total_clientes : option Z;
  valor_medio : option pyfloat;
  metrics_cache : gmap Z (Metrics * Q);
  confusion_cache : gmap Z (Confusion * Q);
  roc_cache : option (RocCurve * Q);
  sensitivity_cache : option (Sensitivity * Q);
  roc_lru : option RocCurve;
  time_calls : nat
}.

Definition _cache_ttl : Q := 300.

Definition set_metrics_cache (c : gmap Z (Metrics * Q)) (s : DataService)
    : DataService :=
  mkDataService (df s) (df_preprocessed s) (total_clientes s) (valor_medio s)
    c (confusion_cache s) (roc_cache s) (sensitivity_cache s) (roc_lru s)
    (time_calls s).

Definition set_confusion_cache (c : gmap Z (Confusion * Q)) (s : DataService)
    : DataService :=
  mkDataService (df s) (df_preprocessed s) (total_clientes s) (valor_medio s)
    (metrics_cache s) c (roc_cache s) (sensitivity_cache s) (roc_lru s)
    (time_calls s).

Definition set_roc_cache (c : option (RocCurve * Q)) (s : DataService)
    : DataService :=
  mkDataService (df s) (df_preprocessed s) (total_clientes s) (valor_medio s)
    (metrics_cache s) (confusion_cache s) c (sensitivity_cache s) (roc_lru s)
    (time_calls s).

Definition set_sensitivity_cache (c : option (Sensitivity * Q))
    (s : DataService) : DataService :=
  mkDataService (df s) (df_preprocessed s) (total_clientes s) (valor_medio s)
    (metrics_cache s) (confusion_cache s) (roc_cache s) c (roc_lru s)
    (time_calls s).

Definition set_roc_lru (c : option RocCurve) (s : DataService) : DataService :=
  mkDataService (df s) (df_preprocessed s) (total_clientes s) (valor_medio s)
    (metrics_cache s) (confusion_cache s) (roc_cache s) (sensitivity_cache s)
    c (time_calls s).

Definition set_time_calls (n : nat) (s : DataService) : DataService :=
  mkDataService (df s) (df_preprocessed s) (total_clientes s) (valor_medio s)
    (metrics_cache s) (confusion_cache s) (roc_cache s) (sensitivity_cache s)
    (roc_lru s) n.

(** [_preprocess_data] on one row. *)
Definition preprocess_row (r : RawRow) : Row :=
  {| score := raw_score r;
     inadimplente := raw_inadimplente r;
     ticket := raw_ticket r;
     score_normalizado := (raw_score r - 300) / (950 - 300) |}.

(** [_preprocess_data]: the copy of the table with its normalized score,
    then the attributes that do not depend on the threshold. *)
Definition _preprocess_data (s : DataService) : DataService :=
  match df s with
  | None => s
  | Some rows =>
      let df_preprocessed := map preprocess_row rows in
      mkDataService (df s) (Some df_preprocessed)
        (Some (len df_preprocessed))
        (Some (mean (map ticket df_preprocessed)))
        (metrics_cache s) (confusion_cache s) (roc_cache s)
        (sensitivity_cache s) (roc_lru s) (time_calls s)
  end.

(** [load_data].  [file] is what reading the parquet file gives: [None]
    when the file is missing or the read raises, which leaves [df] at
    [None]. *)
Definition load_data (file : option (list RawRow)) (s : DataService)
    : DataService :=
  match file with
  | None =>
      mkDataService None (df_preprocessed s) (total_clientes s) (valor_medio s)
        (metrics_cache s) (confusion_cache s) (roc_cache s)
        (sensitivity_cache s) (roc_lru s) (time_calls s)
  | Some rows =>
      _preprocess_data
        (mkDataService (Some rows) (df_preprocessed s) (total_clientes s)
           (valor_medio s) (metrics_cache s) (confusion_cache s) (roc_cache s)
           (sensitivity_cache s) (roc_lru s) (time_calls s))
  end.

(** [DataService()]: the attributes set by [__init__], then [load_data]. *)
Definition DataService_init (file : option (list RawRow)) : DataService :=
  load_data file (mkDataService None None None None ∅ ∅ None None None O).

(** Methods: state passing, with the exception or the value returned. *)
Definition M (A : Type) : Type := DataService → Result A * DataService.

#[global] Instance M_ret : MRet M := fun A a s => (Ok a, s).
#[global] Instance M_bind : MBind M :=
  fun A B f m s =>
    match m s with
    | (Ok a, s') => f a s'
    | (Raise e, s') => (Raise e, s')
    end.

Definition get_self : M DataService := fun s => (Ok s, s).
Definition modify_self (f : DataService → DataService) : M unit :=
  fun s => (Ok tt, f s).
Definition raise {A : Type} (e : exn) : M A := fun s => (Raise e, s).
Definition lift_result {A : Type} (r : Result A) : M A := fun s => (r, s).

(** [round(threshold, 2)] as a cache key: the rounded value in hundredths. *)
Definition round_key (threshold : Q) : Z := round_half_even (threshold * 100).

(** The methods proper.  What [key in d] and [d[key]] give for a table or
    a slot is the [option] found there. *)
Section Oracles.

Variable time_time : nat → Q.
Variable np_argsort : list Q → list nat.

(** [time.time()] *)
Definition time_time_call : M Q :=
  fun s => (Ok (time_time (time_calls s)), set_time_calls (S (time_calls s)) s).

(** [_get_from_cache], given what the dictionary holds under the key. *)
Definition _get_from_cache {V : Type} (entry : option (V * Q)) : M (option V) :=
  match entry with
  | Some (cached_data, timestamp) =>
      now ← time_time_call;
      if Qlt_le_dec (now - timestamp) _cache_ttl
      then mret (Some cached_data)
      else mret None
  | None => mret None
  end.

(** [_save_to_cache] into each of the four tables. *)
Definition _save_to_cache_metrics (key : Z) (data : Metrics) : M unit :=
  now ← time_time_call;
  modify_self (fun s => set_metrics_cache (<[key := (data, now)]> (metrics_cache s)) s).

Definition _save_to_cache_confusion (key : Z) (data : Confusion) : M unit :=
  now ← time_time_call;
  modify_self (fun s =>
    set_confusion_cache (<[key := (data, now)]> (confusion_cache s)) s).

Definition _save_to_cache_roc (data : RocCurve) : M unit :=
  now ← time_time_call;
  modify_self (set_roc_cache (Some (data, now))).

Definition _save_to_cache_sensitivity (data : Sensitivity) : M unit :=
  now ← time_time_call;
  modify_self (set_sensitivity_cache (Some (data, now))).

Definition getattr_total_clientes : M Z :=
  s ← get_self;
  match total_clientes s with
  | Some n => mret n
  | None => raise (AttributeError "total_clientes")
  end.

Definition getattr_valor_medio : M pyfloat :=
  s ← get_self;
  match valor_medio s with
  | Some v => mret v
  | None => raise (AttributeError "valor_medio")
  end.

Definition get_metrics (threshold : Q) : M Metrics :=
  let cache_key := round_key threshold in
  self ← get_self;
  cached ← _get_from_cache (metrics_cache self !! cache_key);
  match cached with
  | Some m => mret m
  | None =>
      match df_preprocessed self with
      | None => mret _get_empty_metrics
      | Some df =>
          if (len df =? 0)%Z then mret _get_empty_metrics
          else
            total_clientes ← getattr_total_clientes;
            valor_medio ← getattr_valor_medio;
            result ← lift_result
                       (compute_metrics df total_clientes valor_medio threshold);
            _save_to_cache_metrics cache_key result;;
            mret result
      end
  end.

Definition get_confusion_matrix (threshold : Q) : M Confusion :=
  let cache_key := round_key threshold in
  self ← get_self;
  cached ← _get_from_cache (confusion_cache self !! cache_key);
  match cached with
  | Some c => mret c
  | None =>
      match df_preprocessed self with
      | None => mret {| tp := 0; fp := 0; tn := 0; fn := 0; cm_rates := None |}
      | Some df =>
          result ← lift_result (compute_confusion_matrix df threshold);
          _save_to_cache_confusion cache_key result;;
          mret result
      end
  end.

(** The body of [get_roc_curve_data], under its [lru_cache]. *)
Definition get_roc_curve_data_body : M RocCurve :=
  self ← get_self;
  cached ← _get_from_cache (roc_cache self);
  match cached with
  | Some r => mret r
  | None =>
      match df_preprocessed self with
      | None =>
          mret {| roc_fpr := []; roc_tpr := []; roc_thresholds := [];
                  roc_auc := 0 |}
      | Some df =>
          let thresholds := np_linspace 0 1 50 in
          let inadimplente_mask := col_eq (map inadimplente df) 1 in
          let adimplente_mask := col_eq (map inadimplente df) 0 in
          let total_inadimplentes := mask_sum inadimplente_mask in
          let total_adimplentes := mask_sum adimplente_mask in
          points ← lift_result
            (mapM (roc_point df inadimplente_mask adimplente_mask
                     total_inadimplentes total_adimplentes) thresholds);
          let fpr_list := map fst points in
          let tpr_list := map snd points in
          let sorted_indices := np_argsort fpr_list in
          fpr_sorted ← lift_result (take_indices fpr_list sorted_indices);
          tpr_sorted ← lift_result (take_indices tpr_list sorted_indices);
          let auc := np_trapz tpr_sorted fpr_sorted in
          let result := {| roc_fpr := fpr_list; roc_tpr := tpr_list;
                           roc_thresholds := thresholds;
                           roc_auc := Qabs auc |} in
          _save_to_cache_roc result;;
          mret result
      end
  end.

Definition get_roc_curve_data : M RocCurve :=
  self ← get_self;
  match roc_lru self with
  | Some r => mret r
  | None =>
      r ← get_roc_curve_data_body;
      modify_self (set_roc_lru (Some r));;
      mret r
  end.

(** The loop of [get_threshold_sensitivity] (lines 318-329). *)
Fixpoint sensitivity_loop (thresholds : list Q) (results : list SensitivityRow)
    : M (list SensitivityRow) :=
  match thresholds with
  | [] => mret results
  | threshold :: rest =>
      metrics ← get_metrics threshold;
      sensitivity_loop rest
        (results ++
           [ {| sens_threshold := py_round threshold 2;
                sens_taxaAprovacao := taxaAprovacao metrics;
                sens_taxaInadimplencia := taxaInadimplencia metrics;
                sens_saldoLiquido := saldoLiquido metrics;
                sens_perdasEvitadas := perdasEvitadas metrics;
                sens_oportunidadesPerdidas := oportunidadesPerdidas metrics |} ])
  end.

Definition get_threshold_sensitivity : M Sensitivity :=
  self ← get_self;
  cached ← _get_from_cache (sensitivity_cache self);
  match cached with
  | Some r => mret r
  | None =>
      match df_preprocessed self with
      | None => mret SensUnavailable
      | Some _ =>
          let thresholds := np_linspace (1 # 10) (9 # 10) 9 in
          results ← sensitivity_loop thresholds [];
          let result := SensData results in
          _save_to_cache_sensitivity result;;
          mret result
      end
  end.

(** The loop of [optimize_threshold] (lines 350-366), on the thresholds
    still to visit. *)
Fixpoint optimize_loop (objective : string) (thresholds : list Q)
    (best_threshold : Q) (best_value : pyfloat) (results : list OptPoint)
    : M (Q * pyfloat * list OptPoint) :=
  match thresholds with
  | [] => mret (best_threshold, best_value, results)
  | threshold :: rest =>
      metrics ← get_metrics threshold;
      let value := objective_value objective metrics in
      let results :=
        results ++ [ {| op_threshold := py_round threshold 2;
                        op_value := value;
                        op_metrics := metrics |} ] in
      if gt_pyfloat value best_value
      then optimize_loop objective rest threshold (PyFin value) results
      else optimize_loop objective rest best_threshold best_value results
  end.

Definition optimize_threshold (objective : string) : M OptimizeResult :=
  self ← get_self;
  match df_preprocessed self with
  | None => mret (OptUnavailable (1 # 2) objective)
  | Some _ =>
      let thresholds := np_linspace (1 # 10) (9 # 10) 9 in
      '(best_threshold, best_value, results) ←
        optimize_loop objective thresholds (1 # 2) PyNegInf [];
      best_metrics ← get_metrics best_threshold;
      mret (OptFull (py_round best_threshold 2) objective best_value
              best_metrics results)
  end.

Definition clear_cache : M unit :=
  modify_self (fun s =>
    set_sensitivity_cache None
      (set_roc_cache None (set_confusion_cache ∅ (set_metrics_cache ∅ s)))).

(** The states a service can be in: a fresh object, then any sequence of
    calls of its methods. *)
Inductive reachable : DataService → Prop :=
  | reach_init file :
      reachable (DataService_init file)
  | reach_get_metrics s threshold :
      reachable s → reachable (get_metrics threshold s).2
  | reach_get_confusion_matrix s threshold :
      reachable s → reachable (get_confusion_matrix threshold s).2
  | reach_get_roc_curve_data s :
      reachable s → reachable (get_roc_curve_data s).2
  | reach_get_threshold_sensitivity s :
      reachable s → reachable (get_threshold_sensitivity s).2
  | reach_optimize_threshold s objective :
      reachable s → reachable (optimize_threshold objective s).2
  | reach_clear_cache s :
      reachable s → reachable (clear_cache s).2.

End Oracles.

(* ------------------------------------------------------------------ *)
(** ** Threshold policy *)

(** The dictionary returned by [classify_risk_bacen]. *)
Record RiskClass : Type := mkRiskClass {
  nivel_bacen : string;
  classificacao : string;
  decisao : string;
  provisao : Q;
  cor : string;
  descricao : string
}.

Definition Qleb (x y : Q) : bool := Qle_bool x y.

(** [classify_risk_bacen] of [src/scripts/classify_risk_BACEN.py]. *)
Definition classify_risk_bacen (probability : Q) : RiskClass :=
  let prob_percent := probability * 100 in
  if Qleb prob_percent (5 # 10) then
    {| nivel_bacen := "AA"; classificacao := "Risco Mínimo";
       decisao := "Aprovar"; provisao := 0; cor := "verde";
       descricao := "Excelente perfil de crédito" |}
  else if Qleb prob_percent 1 then
    {| nivel_bacen := "A"; classificacao := "Risco Baixo";
       decisao := "Aprovar"; provisao := 5 # 10; cor := "verde";
       descricao := "Ótimo perfil de crédito" |}
  else if Qleb prob_percent 3 then
    {| nivel_bacen := "B"; classificacao := "Risco Moderado";
       decisao := "Aprovar"; provisao := 1; cor := "verde";
       descricao := "Bom perfil de crédito" |}
  else if Qleb prob_percent 10 then
    {| nivel_bacen := "C"; classificacao := "Risco Médio";
       decisao := "Revisar"; provisao := 3; cor := "amarelo";
       descricao := "Análise criteriosa necessária" |}
  else if Qleb prob_percent 30 then
    {| nivel_bacen := "D"; classificacao := "Risco Alto";
       decisao := "Revisar com Restrições"; provisao := 10; cor := "laranja";
       descricao := "Exigir garantias adicionais" |}
  else if Qleb prob_percent 50 then
    {| nivel_bacen := "E"; classificacao := "Risco Elevado";
       decisao := "Negar"; provisao := 30; cor := "vermelho";
       descricao := "Risco inaceitável" |}
  else if Qleb prob_percent 70 then
    {| nivel_bacen := "F"; classificacao := "Risco Muito Elevado";
       decisao := "Negar"; provisao := 50; cor := "vermelho";
       descricao := "Risco crítico" |}
  else if Qleb prob_percent 100 then
    {| nivel_bacen := "G"; classificacao := "Risco Crítico";
       decisao := "Negar"; provisao := 70; cor := "vermelho";
       descricao := "Inadimplência provável" |}
  else
    {| nivel_bacen := "H"; classificacao := "Perda";
       decisao := "Negar"; provisao := 100; cor := "vermelho";
       descricao := "Inadimplência confirmada" |}.

(** [ModelService._get_recommendation] *)
Definition _get_recommendation (probability : Q) : string :=
  if Qleb probability (10 # 100) then "Aprovar"
  else if Qleb probability (30 # 100) then "Revisar"
  else "Negar".



(* ------------------------------------------------------------------ *)
(** ** Worked populations *)

(** The four records of the specification's example: normalized scores
    0.2, 0.5, 0.7, 0.9 (bureau scores 430, 625, 755, 885), outcomes
    True, False, False, True, exposures 100 to 400. *)
Definition example_file : list RawRow :=
  [ mkRawRow 430 1 100; mkRawRow 625 0 200;
    mkRawRow 755 0 300; mkRawRow 885 1 400 ].

Definition example_population : list Row := map preprocess_row example_file.

(** Two records: a good payer with a low score, a defaulter with a high
    one. *)
Definition inverted_file : list RawRow :=
  [ mkRawRow 430 0 100; mkRawRow 885 1 100 ].

(** A clock that advances one second per reading, and an [argsort]
    (a stable one) to run the service with. *)
Definition ticking_clock : nat → Q := fun n => inject_Z (Z.of_nat n).

#[global] Instance Qle_fst_dec (a b : Q * nat) : Decision (a.1 <= b.1).
Proof.
  destruct (Qlt_le_dec b.1 a.1) as [Hlt|Hle].
  - right. intros Hle. exact (Qlt_not_le _ _ Hlt Hle).
  - left. exact Hle.
Defined.

Definition stable_argsort (l : list Q) : list nat :=
  map snd (merge_sort (fun a b : Q * nat => a.1 <= b.1)
             (zip l (seq 0 (length l)))).



(* ------------------------------------------------------------------ *)
(** ** Further functions of the threshold policy *)

(** [classify_risk_simple] of [src/scripts/classify_risk_BACEN.py]. *)
Definition classify_risk_simple (probability : Q) : string :=
  let prob_percent := probability * 100 in
  if Qleb prob_percent 10 then "Aprovado - Baixo Risco"
  else if Qleb prob_percent 30 then "Atenção - Risco Moderado"
  else "Reprovado - Alto Risco".

(** [ModelService._calculate_risk_score] *)
Definition _calculate_risk_score (probability : Q) : Q := probability * 100.

(** [min(a, b)] of Python: [b] when it is strictly smaller, else [a]. *)
Definition py_min (a b : Q) : Q := if Qlt_le_dec b a then b else a.

(** [ModelService._calculate_confidence] *)
Definition _calculate_confidence (probability : Q) : Q :=
  let confidence :=
    if Qlt_le_dec probability (20 # 100)
    then (80 # 100) + ((20 # 100) - probability)
    else if Qlt_le_dec (50 # 100) probability
         then (80 # 100) + (probability - (50 # 100))
         else (60 # 100) + Qabs (probability - (35 # 100)) * (5 # 10) in
  py_min confidence 1.

(* ------------------------------------------------------------------ *)
(** ** Sequences of calls to the service *)

(** A call of one public method of [DataService]. *)
Inductive Call : Type :=
  | CallGetMetrics (threshold : Q)
  | CallGetConfusionMatrix (threshold : Q)
  | CallGetRocCurveData
  | CallGetThresholdSensitivity
  | CallOptimizeThreshold (objective : string)
  | CallClearCache.

Section Calls.

Variable time_time : nat → Q.
Variable np_argsort : list Q → list nat.

(** The state a call leaves behind. *)
Definition run_call (c : Call) (s : DataService) : DataService :=
  match c with
  | CallGetMetrics t => (get_metrics time_time t s).2
  | CallGetConfusionMatrix t => (get_confusion_matrix time_time t s).2
  | CallGetRocCurveData => (get_roc_curve_data time_time np_argsort s).2
  | CallGetThresholdSensitivity => (get_threshold_sensitivity time_time s).2
  | CallOptimizeThreshold o => (optimize_threshold time_time o s).2
  | CallClearCache => (clear_cache s).2
  end.

Definition run_calls (cs : list Call) (s : DataService) : DataService :=
  fold_left (fun s c => run_call c s) cs s.

End Calls.
From Stdlib Require Import Qpower.

(* ------------------------------------------------------------------ *)
(** ** The prediction service

    [src/api/app/services/model_service.py] (class [ModelService]) with
    the request and response models of
    [src/api/app/models/schemas_fixed.py].  The pickled model is an
    oracle: [predict_proba] stands for
    [float(model.predict_proba(features_df)[0][1])].  A Python [str] is
    the string of its UTF-8 bytes. *)

(** Exceptions of the prediction path: those of [exn] and the further
    ones the service raises or catches. *)
Inductive exception : Type :=
  | Builtin (e : exn)
  | RuntimeError
  | FileNotFoundError
  | KeyError (key : string)
  | TypeError
  | ValueError
  | ValidationError (fields : list string).

Inductive Outcome (A : Type) : Type :=
  | Return (a : A)
  | Throw (e : exception).
Arguments Return {A} a.
Arguments Throw {A} e.

#[global] Instance outcome_ret : MRet Outcome := fun A a => Return a.
#[global] Instance outcome_bind : MBind Outcome :=
  fun A B f m => match m with Return a => f a | Throw e => Throw e end.

Definition from_result {A : Type} (r : Result A) : Outcome A :=
  match r with
  | Ok a => Return a
  | Raise e => Throw (Builtin e)
  end.

(** The enumerations of [schemas_fixed.py] and the [.value] of their
    members. *)
Inductive TipoProduto : Type :=
  | TipoProduto_CDC
  | TipoProduto_IMOBILIARIO
  | TipoProduto_CARTAO
  | TipoProduto_PESSOAL.

Definition TipoProduto_value (e : TipoProduto) : string :=
  match e with
  | TipoProduto_CDC => "CDC"
  | TipoProduto_IMOBILIARIO => "Imobiliario"
  | TipoProduto_CARTAO => "Cartao"
  | TipoProduto_PESSOAL => "Pessoal"
  end.

Inductive CanalAquisicao : Type :=
  | CanalAquisicao_APP
  | CanalAquisicao_AGENCIA
  | CanalAquisicao_PARCEIRO
  | CanalAquisicao_INTERNET_BANKING.

Inductive Regiao : Type :=
  | Regiao_SUDESTE
  | Regiao_SUL
  | Regiao_NORDESTE
  | Regiao_CENTRO_OESTE
  | Regiao_NORTE.

Definition Regiao_value (e : Regiao) : string :=
  match e with
  | Regiao_SUDESTE => "Sudeste"
  | Regiao_SUL => "Sul"
  | Regiao_NORDESTE => "Nordeste"
  | Regiao_CENTRO_OESTE => "Centro-Oeste"
  | Regiao_NORTE => "Norte"
  end.

Inductive Genero : Type :=
  | Genero_MASCULINO
  | Genero_FEMININO
  | Genero_OUTRO.

Definition Genero_value (e : Genero) : string :=
  match e with
  | Genero_MASCULINO => "Masculino"
  | Genero_FEMININO => "Feminino"
  | Genero_OUTRO => "Outro"
  end.

Inductive EstadoCivil : Type :=
  | EstadoCivil_SOLTEIRO
  | EstadoCivil_CASADO
  | EstadoCivil_DIVORCIADO
  | EstadoCivil_VIUVO.

Definition EstadoCivil_value (e : EstadoCivil) : string :=
  match e with
  | EstadoCivil_SOLTEIRO => "Solteiro"
  | EstadoCivil_CASADO => "Casado"
  | EstadoCivil_DIVORCIADO => "Divorciado"
  | EstadoCivil_VIUVO => "Viúvo"
  end.

Inductive Escolaridade : Type :=
  | Escolaridade_FUNDAMENTAL
  | Escolaridade_MEDIO
  | Escolaridade_SUPERIOR
  | Escolaridade_POS_GRADUACAO.

Definition Escolaridade_value (e : Escolaridade) : string :=
  match e with
  | Escolaridade_FUNDAMENTAL => "Fundamental"
  | Escolaridade_MEDIO => "Médio"
  | Escolaridade_SUPERIOR => "Superior"
  | Escolaridade_POS_GRADUACAO => "Pós-Graduação"
  end.

Inductive PorteMunicipio : Type :=
  | PorteMunicipio_PEQUENO
  | PorteMunicipio_MEDIO
  | PorteMunicipio_GRANDE
  | PorteMunicipio_METROPOLE.

Definition PorteMunicipio_value (e : PorteMunicipio) : string :=
  match e with
  | PorteMunicipio_PEQUENO => "Pequeno"
  | PorteMunicipio_MEDIO => "Médio"
  | PorteMunicipio_GRANDE => "Grande"
  | PorteMunicipio_METROPOLE => "Metrópole"
  end.

(** [PredictRequest].  [req_score] and [req_ticket] are its fields
    [score] and [ticket]. *)
Record PredictRequest : Type := mkPredictRequest {
  cliente_id : option string;
  idade : Z;
  renda : Q;
  req_score : Z;
  req_ticket : Q;
  prazo_meses : Z;
  taxa_juros_aa : Q;
  tempo_cliente_meses : Z;
  qtd_produtos : Z;
  qtd_atrasos_12m : Z;
  genero : Genero;
  estado_civil : EstadoCivil;
  escolaridade : Escolaridade;
  regiao : Regiao;
  uf : string;
  porte_municipio : PorteMunicipio;
  tipo_credito : TipoProduto;
  canal_aquisicao : option CanalAquisicao
}.

(** The [Field] constraints of [PredictRequest] on the numbers the
    derived features use. *)
Definition request_valid (request : PredictRequest) : Prop :=
  (18 <= idade request <= 100)%Z
  ∧ (0 < renda request ∧ renda request <= 1000000)
  ∧ (300 <= req_score request <= 950)%Z
  ∧ (0 < req_ticket request ∧ req_ticket request <= 1000000)
  ∧ (1 <= prazo_meses request <= 360)%Z
  ∧ (0 <= taxa_juros_aa request ∧ taxa_juros_aa request <= 100).

(** [PredictResponse].  [resp_cliente_id] and [resp_threshold] are its
    fields [cliente_id] and [threshold]; [timestamp] is what
    [datetime.utcnow()] returned. *)
Record PredictResponse : Type := mkPredictResponse {
  resp_cliente_id : option string;
  prediction : Z;
  probability : Q;
  risk_score : Q;
  recommendation : string;
  confidence : Q;
  resp_threshold : Q;
  resp_model_version : string;
  timestamp : Z;
  explainability : option (gmap string Q)
}.

(** The constraints [ge] and [le] of the fields of [PredictResponse]:
    the names of the fields that violate theirs. *)
Definition PredictResponse_errors (r : PredictResponse) : list string :=
  (if Qleb 0 (probability r) && Qleb (probability r) 1
   then [] else ["probability"])
  ++ (if Qleb 0 (risk_score r) && Qleb (risk_score r) 100
      then [] else ["risk_score"])
  ++ (if Qleb 0 (confidence r) && Qleb (confidence r) 1
      then [] else ["confidence"]).

(** The construction [PredictResponse(...)], which validates. *)
Definition PredictResponse_new (r : PredictResponse) : Outcome PredictResponse :=
  match PredictResponse_errors r with
  | [] => Return r
  | fields => Throw (ValidationError fields)
  end.

(** [str.replace(old, new)] for a pattern [old] that is not empty: the
    occurrences of [old] are replaced from left to right, without
    overlap.  [skip] counts the characters of a replaced occurrence that
    are still to be passed over. *)
Fixpoint replace_from (old new : string) (skip : nat) (s : string) : string :=
  match s with
  | EmptyString => EmptyString
  | String c s' =>
      match skip with
      | S k => replace_from old new k s'
      | O =>
          if String.prefix old s
          then new +:+ replace_from old new (String.length old - 1) s'
          else String c (replace_from old new 0 s')
      end
  end.

Definition str_replace (old new s : string) : string :=
  replace_from old new 0 s.

(** The replacements of [_encode_categorical], in the order they are
    applied. *)
Definition accent_replacements : list (string * string) :=
  [ ("á", "a"); ("ã", "a"); ("â", "a");
    ("é", "e"); ("ê", "e");
    ("í", "i");
    ("ó", "o"); ("õ", "o"); ("ô", "o");
    ("ú", "u");
    ("Á", "A"); ("Ã", "A"); ("Â", "A");
    ("É", "E"); ("Ê", "E");
    ("Í", "I");
    ("Ó", "O"); ("Õ", "O"); ("Ô", "O");
    ("Ú", "U") ].

Definition normalize_accents (value : string) : string :=
  fold_left (fun value r => str_replace r.1 r.2 value)
    accent_replacements value.

(** What [_encode_categorical] is given: a member of a [str] [Enum],
    which has an attribute [value], or a plain [str]. *)
Inductive pyvalue : Type :=
  | PyEnum (value : string)
  | PyStr (s : string).

(** An encoder: a dictionary, or an object with a method [transform]
    (a fitted [LabelEncoder]); [transform v] stands for
    [int(encoder.transform([v])[0])]. *)
Inductive Encoder : Type :=
  | DictEncoder (d : gmap string Z)
  | LabelEncoder (transform : string → Outcome Z).

(** [ModelService._encode_categorical] *)
Definition _encode_categorical (encoder : Encoder) (value : pyvalue)
    : Outcome Z :=
  let value := match value with PyEnum v => v | PyStr s => s end in
  let value := normalize_accents value in
  let encoded :=
    match encoder with
    | LabelEncoder transform => transform value
    | DictEncoder d => Return (default 0%Z (d !! value))
    end in
  match encoded with
  | Throw (KeyError _) | Throw (Builtin (AttributeError _))
  | Throw TypeError | Throw ValueError => Return 0%Z
  | _ => encoded
  end.

(** The dictionary [_calculate_derived_features] returns. *)
Record Derived : Type := mkDerived {
  parcela_mensal : Q;
  perc_comprometimento_renda : Q;
  alto_comprometimento : Z;
  fator_risco : Q;
  faixa_etaria : string
}.

(** [ModelService._calculate_derived_features] *)
Definition _calculate_derived_features (request : PredictRequest)
    : Outcome Derived :=
  let taxa_mensal := taxa_juros_aa request / 12 / 100 in
  parcela_mensal ←
    (if Qlt_le_dec 0 taxa_mensal
     then from_result
            (truediv
               (req_ticket request
                * (taxa_mensal * (1 + taxa_mensal) ^ prazo_meses request))
               ((1 + taxa_mensal) ^ prazo_meses request - 1))
     else from_result
            (truediv (req_ticket request) (inject_Z (prazo_meses request))));
  ratio ← from_result (truediv parcela_mensal (renda request));
  let perc_comprometimento_renda := ratio * 100 in
  let alto_comprometimento :=
    if Qlt_le_dec 30 perc_comprometimento_renda then 1%Z else 0%Z in
  let fator_risco := inject_Z (950 - req_score request) / 650 in
  let faixa_etaria :=
    if (idade request <=? 25)%Z then "18-25"
    else if (idade request <=? 35)%Z then "26-35"
    else if (idade request <=? 45)%Z then "36-45"
    else if (idade request <=? 55)%Z then "46-55"
    else if (idade request <=? 65)%Z then "56-65"
    else "66+" in
  mret {| parcela_mensal := parcela_mensal;
          perc_comprometimento_renda := perc_comprometimento_renda;
          alto_comprometimento := alto_comprometimento;
          fator_risco := fator_risco;
          faixa_etaria := faixa_etaria |}.

(** The pickled classifier: what the service uses of it. *)
Record Model : Type := mkModel {
  predict_proba : list (string * Q) → Outcome Q;
  n_features_in_ : option nat
}.

(** The dictionary of [metricas_modelo.pkl]: its key
    ["feature_importance"], when it has one, holds the list of the pairs
    ([feature], [importance]). *)
Record Metricas : Type := mkMetricas {
  feature_importance : option (list (string * Q))
}.

(** The attributes of a [ModelService]; [ms_threshold] is its attribute
    [threshold]. *)
Record ModelService : Type := mkModelService {
  model : option Model;
  label_encoders : option (gmap string Encoder);
  feature_cols : option (list string);
  metricas : option Metricas;
  model_version : string;
  ms_threshold : Q;
  model_loaded : bool
}.

(** [ModelService.__init__] *)
Definition ModelService_init : ModelService :=
  {| model := None; label_encoders := None; feature_cols := None;
     metricas := None; model_version := "1.0.0-lgbm";
     ms_threshold := 50 # 100; model_loaded := false |}.

(** The dictionary [_create_default_encoders] installs. *)
Definition default_encoders : gmap string Encoder :=
  list_to_map
    [ ("faixa_etaria",
       DictEncoder (list_to_map
         [ ("18-25", 0%Z); ("26-35", 1%Z); ("36-45", 2%Z);
           ("46-55", 3%Z); ("56-65", 4%Z); ("66+", 5%Z) ]));
      ("genero",
       DictEncoder (list_to_map
         [ ("Masculino", 0%Z); ("Feminino", 1%Z); ("Outro", 2%Z) ]));
      ("estado_civil",
       DictEncoder (list_to_map
         [ ("Solteiro", 0%Z); ("Casado", 1%Z); ("Divorciado", 2%Z);
           ("Viúvo", 3%Z) ]));
      ("escolaridade",
       DictEncoder (list_to_map
         [ ("Fundamental", 0%Z); ("Médio", 1%Z); ("Superior", 2%Z);
           ("Pós-Graduação", 3%Z) ]));
      ("regiao",
       DictEncoder (list_to_map
         [ ("Sudeste", 0%Z); ("Sul", 1%Z); ("Nordeste", 2%Z);
           ("Centro-Oeste", 3%Z); ("Norte", 4%Z) ]));
      ("uf",
       DictEncoder (list_to_map
         [ ("SP", 0%Z); ("RJ", 1%Z); ("MG", 2%Z); ("ES", 3%Z);
           ("PR", 4%Z); ("SC", 5%Z); ("RS", 6%Z); ("BA", 7%Z);
           ("CE", 8%Z); ("PE", 9%Z); ("AL", 10%Z); ("PB", 11%Z);
           ("RN", 12%Z); ("SE", 13%Z); ("MA", 14%Z); ("PI", 15%Z);
           ("GO", 16%Z); ("MT", 17%Z); ("MS", 18%Z); ("DF", 19%Z);
           ("AM", 20%Z); ("PA", 21%Z); ("RO", 22%Z); ("AC", 23%Z);
           ("RR", 24%Z); ("AP", 25%Z); ("TO", 26%Z) ]));
      ("porte_municipio",
       DictEncoder (list_to_map
         [ ("Pequeno", 0%Z); ("Médio", 1%Z); ("Grande", 2%Z);
           ("Metrópole", 3%Z) ]));
      ("tipo_credito",
       DictEncoder (list_to_map
         [ ("CDC", 0%Z); ("Imobiliário", 1%Z); ("Cartão", 2%Z);
           ("Pessoal", 3%Z) ])) ].

(** [ModelService._create_default_encoders] *)
Definition _create_default_encoders (self : ModelService) : ModelService :=
  mkModelService (model self) (Some default_encoders) (feature_cols self)
    (metricas self) (model_version self) (ms_threshold self)
    (model_loaded self).

(** [ModelService._get_default_features] *)
Definition _get_default_features : list string :=
  [ "idade"; "renda"; "score"; "ticket"; "prazo_meses"; "taxa_juros_aa";
    "parcela_mensal"; "tempo_cliente_meses"; "qtd_produtos";
    "qtd_atrasos_12m"; "perc_comprometimento_renda";
    "alto_comprometimento"; "fator_risco"; "faixa_etaria_encoded";
    "genero_encoded"; "estado_civil_encoded"; "escolaridade_encoded";
    "regiao_encoded"; "uf_encoded"; "porte_municipio_encoded";
    "tipo_credito_encoded" ].

(** The files [load_model] looks for beside the application: [None] for
    a file that does not exist, else what [joblib.load] gives. *)
Record ModelFiles : Type := mkModelFiles {
  modelo_lgbm_pkl : option Model;
  label_encoders_pkl : option (gmap string Encoder);
  feature_cols_pkl : option (list string);
  metricas_modelo_pkl : option Metricas
}.

(** [ModelService.load_model]: what the call raises or returns, and the
    attributes it leaves. *)
Definition load_model (files : ModelFiles) (self : ModelService)
    : Outcome unit * ModelService :=
  match modelo_lgbm_pkl files with
  | None => (Throw FileNotFoundError, self)
  | Some m =>
      let self :=
        mkModelService (Some m) (label_encoders self) (feature_cols self)
          (metricas self) (model_version self) (ms_threshold self)
          (model_loaded self) in
      let self :=
        match label_encoders_pkl files with
        | Some encoders =>
            mkModelService (model self) (Some encoders) (feature_cols self)
              (metricas self) (model_version self) (ms_threshold self)
              (model_loaded self)
        | None => _create_default_encoders self
        end in
      let cols :=
        match feature_cols_pkl files with
        | Some cols => cols
        | None => _get_default_features
        end in
      let self :=
        mkModelService (model self) (label_encoders self) (Some cols)
          (metricas self) (model_version self) (ms_threshold self)
          (model_loaded self) in
      let self :=
        match metricas_modelo_pkl files with
        | Some loaded =>
            mkModelService (model self) (label_encoders self)
              (feature_cols self) (Some loaded) (model_version self)
              (ms_threshold self) (model_loaded self)
        | None => self
        end in
      match n_features_in_ m with
      | Some expected_features =>
          if decide (length cols = expected_features)
          then (Return (),
                mkModelService (model self) (label_encoders self)
                  (feature_cols self) (metricas self) (model_version self)
                  (ms_threshold self) true)
          else (Throw ValueError, self)
      | None =>
          (Return (),
           mkModelService (model self) (label_encoders self)
             (feature_cols self) (metricas self) (model_version self)
             (ms_threshold self) true)
      end
  end.

(** [self.label_encoders[key]] *)
Definition getitem_label_encoders (self : ModelService) (key : string)
    : Outcome Encoder :=
  match label_encoders self with
  | None => Throw TypeError
  | Some encoders =>
      match encoders !! key with
      | Some encoder => Return encoder
      | None => Throw (KeyError key)
      end
  end.

(** [df[cols]] on the one-row frame made from [features_dict]: the
    columns in the order asked for; a name that is no column raises. *)
Fixpoint select_columns (features_dict : list (string * Q))
    (cols : list string) : Outcome (list (string * Q)) :=
  match cols with
  | [] => Return []
  | col :: rest =>
      match list_find (fun kv => bool_decide (kv.1 = col)) features_dict with
      | Some (_, kv) =>
          selected ← select_columns features_dict rest;
          mret ((col, kv.2) :: selected)
      | None => Throw (KeyError col)
      end
  end.

(** [ModelService._prepare_features].  With [feature_cols] still [None]
    the selection [df[None]] raises [KeyError]. *)
Definition _prepare_features (self : ModelService) (request : PredictRequest)
    : Outcome (list (string * Q)) :=
  derived ← _calculate_derived_features request;
  encoder ← getitem_label_encoders self "faixa_etaria";
  faixa_etaria_encoded ←
    _encode_categorical encoder (PyStr (faixa_etaria derived));
  encoder ← getitem_label_encoders self "genero";
  genero_encoded ←
    _encode_categorical encoder (PyEnum (Genero_value (genero request)));
  encoder ← getitem_label_encoders self "estado_civil";
  estado_civil_encoded ←
    _encode_categorical encoder
      (PyEnum (EstadoCivil_value (estado_civil request)));
  encoder ← getitem_label_encoders self "escolaridade";
  escolaridade_encoded ←
    _encode_categorical encoder
      (PyEnum (Escolaridade_value (escolaridade request)));
  encoder ← getitem_label_encoders self "regiao";
  regiao_encoded ←
    _encode_categorical encoder (PyEnum (Regiao_value (regiao request)));
  encoder ← getitem_label_encoders self "uf";
  uf_encoded ← _encode_categorical encoder (PyStr (uf request));
  encoder ← getitem_label_encoders self "porte_municipio";
  porte_municipio_encoded ←
    _encode_categorical encoder
      (PyEnum (PorteMunicipio_value (porte_municipio request)));
  encoder ← getitem_label_encoders self "tipo_credito";
  tipo_credito_encoded ←
    _encode_categorical encoder
      (PyEnum (TipoProduto_value (tipo_credito request)));
  let features_dict :=
    [ ("idade", inject_Z (idade request));
      ("renda", renda request);
      ("score", inject_Z (req_score request));
      ("ticket", req_ticket request);
      ("prazo_meses", inject_Z (prazo_meses request));
      ("taxa_juros_aa", taxa_juros_aa request);
      ("parcela_mensal", parcela_mensal derived);
      ("tempo_cliente_meses", inject_Z (tempo_cliente_meses request));
      ("qtd_produtos", inject_Z (qtd_produtos request));
      ("qtd_atrasos_12m", inject_Z (qtd_atrasos_12m request));
      ("perc_comprometimento_renda", perc_comprometimento_renda derived);
      ("alto_comprometimento", inject_Z (alto_comprometimento derived));
      ("fator_risco", fator_risco derived);
      ("faixa_etaria_encoded", inject_Z faixa_etaria_encoded);
      ("genero_encoded", inject_Z genero_encoded);
      ("estado_civil_encoded", inject_Z estado_civil_encoded);
      ("escolaridade_encoded", inject_Z escolaridade_encoded);
      ("regiao_encoded", inject_Z regiao_encoded);
      ("uf_encoded", inject_Z uf_encoded);
      ("porte_municipio_encoded", inject_Z porte_municipio_encoded);
      ("tipo_credito_encoded", inject_Z tipo_credito_encoded) ] in
  match feature_cols self with
  | Some cols => select_columns features_dict cols
  | None => Throw (KeyError "None")
  end.

(** [ModelService._get_feature_importance]: the ten first entries as a
    dictionary; a later entry of a feature replaces an earlier one. *)
Definition _get_feature_importance (self : ModelService) : gmap string Q :=
  match metricas self with
  | Some m =>
      match feature_importance m with
      | Some l =>
          let importance_list := take 10 l in
          fold_left (fun d item => <[item.1 := item.2]> d) importance_list ∅
      | None => ∅
      end
  | None => ∅
  end.

Section Predict.

(** [settings.FEATURE_EXPLAINABILITY], and what [datetime.utcnow()]
    returns during the call. *)
Variable FEATURE_EXPLAINABILITY : bool.
Variable utcnow : Z.

(** [ModelService.predict] *)
Definition predict (self : ModelService) (request : PredictRequest)
    : Outcome PredictResponse :=
  match model_loaded self, model self with
  | true, Some m =>
      features_df ← _prepare_features self request;
      probability ← predict_proba m features_df;
      let prediction :=
        if Qleb (ms_threshold self) probability then 1%Z else 0%Z in
      let risk_score := _calculate_risk_score probability in
      let recommendation := _get_recommendation probability in
      let confidence := _calculate_confidence probability in
      let explainability :=
        if FEATURE_EXPLAINABILITY
        then Some (_get_feature_importance self) else None in
      PredictResponse_new
        {| resp_cliente_id := cliente_id request;
           prediction := prediction;
           probability := py_round probability 4;
           risk_score := py_round risk_score 2;
           recommendation := recommendation;
           confidence := py_round confidence 4;
           resp_threshold := ms_threshold self;
           resp_model_version := model_version self;
           timestamp := utcnow;
           explainability := explainability |}
  | _, _ => Throw RuntimeError
  end.

End Predict.

(** The states of a [ModelService]: the new object, and what a call of
    [load_model] leaves, whether it returns or raises. *)
Inductive ms_reachable : ModelService → Prop :=
  | ms_reach_init : ms_reachable ModelService_init
  | ms_reach_load_model files self :
      ms_reachable self → ms_reachable (load_model files self).2.

(** ** A worked service

    A model that answers the probability [p] for every applicant and
    expects the twenty-one default columns, no other file beside it, and
    the request of the schema's example. *)
Definition constant_model (p : Q) : Model :=
  {| predict_proba := fun _ => Return p; n_features_in_ := Some 21%nat |}.

Definition model_only (m : Model) : ModelFiles :=
  {| modelo_lgbm_pkl := Some m; label_encoders_pkl := None;
     feature_cols_pkl := None; metricas_modelo_pkl := None |}.

Definition no_files : ModelFiles :=
  {| modelo_lgbm_pkl := None; label_encoders_pkl := None;
     feature_cols_pkl := None; metricas_modelo_pkl := None |}.

Definition example_request : PredictRequest :=
  {| cliente_id := Some "12345678901";
     idade := 35; renda := 5000; req_score := 650; req_ticket := 15000;
     prazo_meses := 24; taxa_juros_aa := 125 # 10;
     tempo_cliente_meses := 24; qtd_produtos := 2; qtd_atrasos_12m := 0;
     genero := Genero_MASCULINO; estado_civil := EstadoCivil_CASADO;
     escolaridade := Escolaridade_SUPERIOR; regiao := Regiao_SUDESTE;
     uf := "SP"; porte_municipio := PorteMunicipio_METROPOLE;
     tipo_credito := TipoProduto_CDC;
     canal_aquisicao := Some CanalAquisicao_APP |}.
(** The rate [clientes_aprovados / total_clientes * 100] before rounding. *)
Definition approval_rate (df : list Row) (total : Z) (t : Q) : Q :=
  inject_Z (mask_sum (col_ge (map score_normalizado df) t)) / inject_Z total
  * 100.

(* ------------------------------------------------------------------ *)
(** ** Vocabulary of the proofs *)

(** What [get_metrics] computes on the table [df_preprocessed = df], the
    attributes being those [_preprocess_data] assigned. *)
Definition metrics_at (df : list Row) (t : Q) : Result Metrics :=
  compute_metrics df (len df) (mean (map ticket df)) t.

(** A snapshot that [get_metrics] may give for threshold [t] on the table
    [d]: the empty one when there is no row, otherwise the computation at
    a threshold that rounds to the same cache key as [t]. *)
Definition metrics_result (d : option (list Row)) (t : Q) (m : Metrics) : Prop :=
  match d with
  | None | Some [] => m = _get_empty_metrics
  | Some df => ∃ t', round_key t' = round_key t ∧ metrics_at df t' = Ok m
  end.

(** What holds of every reachable service whose table is [d]. *)
Record Inv (d : option (list Row)) (s : DataService) : Prop := mkInv {
  inv_df : df_preprocessed s = d;
  inv_attrs : ∀ df, d = Some df →
    total_clientes s = Some (len df)
    ∧ valor_medio s = Some (mean (map ticket df));
  inv_metrics : ∀ k m ts, metrics_cache s !! k = Some (m, ts) →
    ∃ df t, d = Some df ∧ df ≠ [] ∧ round_key t = k ∧ metrics_at df t = Ok m;
  inv_confusion : ∀ k c ts, confusion_cache s !! k = Some (c, ts) →
    ∃ df t, d = Some df ∧ round_key t = k
            ∧ compute_confusion_matrix df t = Ok c
}.

(** The method returns without raising, in a state where [Post] holds. *)
Definition hoare {A : Type} (Pre : DataService → Prop) (m : M A)
    (Post : A → DataService → Prop) : Prop :=
  ∀ s, Pre s → ∃ a s', m s = (Ok a, s') ∧ Post a s'.

(** The entry [_get_from_cache] would hand out in state [s]: the data
    stored, unless [_cache_ttl] seconds have passed at the next reading of
    the clock. *)
Definition live_entry (time_time : nat → Q) {V : Type}
    (entry : option (V * Q)) (s : DataService) : option V :=
  match entry with
  | Some (cached_data, timestamp) =>
      if Qlt_le_dec (time_time (time_calls s) - timestamp) _cache_ttl
      then Some cached_data else None
  | None => None
  end.

(** A reply that [get_confusion_matrix] may give for threshold [t]. *)
Definition confusion_result (d : option (list Row)) (t : Q) (c : Confusion)
    : Prop :=
  match d with
  | None => c = {| tp := 0; fp := 0; tn := 0; fn := 0; cm_rates := None |}
  | Some df =>
      ∃ t', round_key t' = round_key t ∧ compute_confusion_matrix df t' = Ok c
  end.

(** The state of the scan of [optimize_threshold]: nothing visited yet, or
    the incumbent is the first entry of the table that reaches the best
    value (every entry before it is strictly worse, none after it is
    better). *)
Definition scan_state (best_threshold : Q) (best_value : pyfloat)
    (results : list OptPoint) : Prop :=
  (best_value = PyNegInf ∧ results = [])
  ∨ ∃ v pre e post,
      best_value = PyFin v
      ∧ results = pre ++ e :: post
      ∧ op_threshold e = py_round best_threshold 2
      ∧ op_value e = v
      ∧ Forall (fun e' => op_value e' < v) pre
      ∧ Forall (fun e' => op_value e' <= v) post.

(** An entry of [all_results] made at grid point [t]. *)
Definition entry_ok (d : option (list Row)) (objective : string) (t : Q)
    (e : OptPoint) : Prop :=
  op_threshold e = py_round t 2
  ∧ op_value e = objective_value objective (op_metrics e)
  ∧ metrics_result d t (op_metrics e).

(** The nine grid points of the optimizer, as they appear in its table. *)
Definition optimizer_grid : list Q :=
  map (fun t => py_round t 2) (np_linspace (1 # 10) (9 # 10) 9).

(** The attributes the invariant speaks of. *)
Definition same_core (s s' : DataService) : Prop :=
  df_preprocessed s' = df_preprocessed s
  ∧ total_clientes s' = total_clientes s
  ∧ valor_medio s' = valor_medio s
  ∧ metrics_cache s' = metrics_cache s
  ∧ confusion_cache s' = confusion_cache s.

Definition core_stable {A : Type} (m : M A) : Prop :=
  ∀ s, same_core s (m s).2.


(* ------------------------------------------------------------------ *)
(** ** Vocabulary of the further proofs *)

(** Every outcome of the table is 0 or 1. *)
Definition binary_outcomes (df : list Row) : Prop :=
  Forall (fun r => inadimplente r = 0%Z ∨ inadimplente r = 1%Z) df.

(** No exposure is negative. *)
Definition nonneg_tickets (df : list Row) : Prop :=
  Forall (fun r => 0 <= ticket r) df.

(** The rate [inadimplentes_aprovados / clientes_aprovados * 100] before
    rounding, 0 when nobody is approved. *)
Definition default_rate (df : list Row) (t : Q) : Q :=
  let aprovado_mask := col_ge (map score_normalizado df) t in
  if (0 <? mask_sum aprovado_mask)%Z
  then inject_Z (sum_Z (loc aprovado_mask (map inadimplente df)))
       / inject_Z (mask_sum aprovado_mask) * 100
  else 0.

(** The computation of [get_roc_curve_data] on the table [df] (lines
    201-245), cache and memo apart. *)
Definition roc_curve_at (np_argsort : list Q → list nat) (df : list Row)
    : Result RocCurve :=
  let thresholds := np_linspace 0 1 50 in
  let inadimplente_mask := col_eq (map inadimplente df) 1 in
  let adimplente_mask := col_eq (map inadimplente df) 0 in
  let total_inadimplentes := mask_sum inadimplente_mask in
  let total_adimplentes := mask_sum adimplente_mask in
  points ← mapM (roc_point df inadimplente_mask adimplente_mask
                   total_inadimplentes total_adimplentes) thresholds;
  let fpr_list := map fst points in
  let tpr_list := map snd points in
  let sorted_indices := np_argsort fpr_list in
  fpr_sorted ← take_indices fpr_list sorted_indices;
  tpr_sorted ← take_indices tpr_list sorted_indices;
  mret {| roc_fpr := fpr_list; roc_tpr := tpr_list;
          roc_thresholds := thresholds;
          roc_auc := Qabs (np_trapz tpr_sorted fpr_sorted) |}.

(** The reply of [get_roc_curve_data] for a missing table. *)
Definition empty_curve : RocCurve :=
  {| roc_fpr := []; roc_tpr := []; roc_thresholds := []; roc_auc := 0 |}.

(** A curve the service may hold for the table [d]. *)
Definition roc_ok (np_argsort : list Q → list nat) (d : option (list Row))
    (r : RocCurve) : Prop :=
  match d with
  | None => r = empty_curve
  | Some df => roc_curve_at np_argsort df = Ok r
  end.

(** What the memo and the cache slot of the ROC curve hold. *)
Definition Inv_roc (np_argsort : list Q → list nat) (d : option (list Row))
    (s : DataService) : Prop :=
  (∀ r, roc_lru s = Some r → roc_ok np_argsort d r)
  ∧ (∀ r ts, roc_cache s = Some (r, ts) → roc_ok np_argsort d r).

(** The method leaves the attribute [proj] as it found it, also when it
    raises. *)
Definition stable {B A : Type} (proj : DataService → B) (m : M A) : Prop :=
  ∀ s, proj (m s).2 = proj s.

(** [np.argsort] returns positions of its argument, in an order that
    sorts it. *)
Definition argsort_sorts (np_argsort : list Q → list nat) : Prop :=
  ∀ l, ∃ sorted,
    take_indices l (np_argsort l) = Ok sorted
    ∧ length (np_argsort l) = length l
    ∧ Sorted Qle sorted.

(** [count / total if total > 0 else 0], the rates of the ROC loop. *)
Definition roc_rate (count total : Z) : Q :=
  if (0 <? total)%Z then inject_Z count / inject_Z total else 0.

(** The pair ([fpr], [tpr]) the ROC loop appends at threshold [t]. *)
Definition roc_pair (df : list Row) (t : Q) : Q * Q :=
  let inadimplente_mask := col_eq (map inadimplente df) 1 in
  let adimplente_mask := col_eq (map inadimplente df) 0 in
  let counts := roc_counts df inadimplente_mask adimplente_mask t in
  (roc_rate counts.2 (mask_sum adimplente_mask),
   roc_rate counts.1 (mask_sum inadimplente_mask)).

Definition in_unit_interval (x : Q) : Prop := 0 <= x ∧ x <= 1.

(** A row of the sensitivity table made at grid point [t]: the five
    figures copied from a snapshot of [get_metrics] for [t]. *)
Definition sens_row_ok (d : option (list Row)) (t : Q) (row : SensitivityRow)
    : Prop :=
  sens_threshold row = py_round t 2
  ∧ ∃ m, metrics_result d t m
         ∧ sens_taxaAprovacao row = taxaAprovacao m
         ∧ sens_taxaInadimplencia row = taxaInadimplencia m
         ∧ sens_saldoLiquido row = saldoLiquido m
         ∧ sens_perdasEvitadas row = perdasEvitadas m
         ∧ sens_oportunidadesPerdidas row = oportunidadesPerdidas m.

(** A reply of [get_threshold_sensitivity] for the table [d]. *)
Definition sens_ok (d : option (list Row)) (r : Sensitivity) : Prop :=
  match d with
  | None => r = SensUnavailable
  | Some _ =>
      ∃ rows, r = SensData rows
              ∧ Forall2 (sens_row_ok d) (np_linspace (1 # 10) (9 # 10) 9) rows
  end.

(** What the cache slot of the sensitivity table holds. *)
Definition Inv_sens (d : option (list Row)) (s : DataService) : Prop :=
  ∀ r ts, sensitivity_cache s = Some (r, ts) → sens_ok d r.

(** The reply of [optimize_threshold] under another objective name. *)
Definition with_objective (objective : string) (r : OptimizeResult)
    : OptimizeResult :=
  match r with
  | OptUnavailable t _ => OptUnavailable t objective
  | OptFull t _ v m l => OptFull t objective v m l
  end.

(** ** Vocabulary of the proofs about the prediction service *)

(** [self._encode_categorical(self.label_encoders[key], value)], as
    [_prepare_features] writes it for each categorical feature. *)
Definition encoded_with (self : ModelService) (key : string) (value : pyvalue)
    : Outcome Z :=
  encoder ← getitem_label_encoders self key;
  _encode_categorical encoder value.

(** [old in s] *)
Definition str_contains (old s : string) : Prop :=
  ∃ u w, s = u +:+ old +:+ w.

(** The two bytes [a], [b] occur next to each other in [s]. *)
Fixpoint has_pair (a b : Ascii.ascii) (s : string) : bool :=
  match s with
  | EmptyString => false
  | String x t =>
      match t with
      | EmptyString => false
      | String y _ => (Ascii.eqb x a && Ascii.eqb y b) || has_pair a b t
      end
  end.

(** A replacement of a two-byte letter by one byte that is neither [a]
    nor [b]. *)
Definition spares_pair (a b : Ascii.ascii) (r : string * string) : bool :=
  match r with
  | (String _ (String _ EmptyString), String c EmptyString) =>
      negb (Ascii.eqb c a) && negb (Ascii.eqb c b)
  | _ => false
  end.
(* ------------------------------------------------------------------ *)
(** * Properties *)

(** ** Rounding *)

Lemma round_half_even_comp (x y : Q) :
  x == y → round_half_even x = round_half_even y.
Proof.
  intros Hxy. unfold round_half_even.
  rewrite (Qfloor_comp _ _ Hxy).
  assert (Hc : Qcompare (x - inject_Z (Qfloor y)) (1 # 2)
               = Qcompare (y - inject_Z (Qfloor y)) (1 # 2)).
  { apply Qcompare_comp; [rewrite Hxy|]; reflexivity. }
  now rewrite Hc.
Qed.

Lemma round_half_even_near (x : Q) :
  inject_Z (round_half_even x) - (1 # 2) <= x
  ∧ x <= inject_Z (round_half_even x) + (1 # 2).
Proof.
  unfold round_half_even.
  pose proof (Qfloor_le x) as Hlo.
  pose proof (Qlt_floor x) as Hhi.
  rewrite inject_Z_plus in Hhi. change (inject_Z 1) with 1 in Hhi.
  destruct (Qcompare (x - inject_Z (Qfloor x)) (1 # 2)) eqn:Hc.
  - apply Qeq_alt in Hc.
    destruct (Z.even (Qfloor x)).
    + split; lra.
    + rewrite inject_Z_plus. change (inject_Z 1) with 1. split; lra.
  - apply Qlt_alt in Hc. split; lra.
  - apply Qgt_alt in Hc. rewrite inject_Z_plus. change (inject_Z 1) with 1.
    split; lra.
Qed.

Lemma round_half_even_mono (x y : Q) :
  x <= y → (round_half_even x <= round_half_even y)%Z.
Proof.
  intros Hxy.
  destruct (Z_le_gt_dec (round_half_even x) (round_half_even y)) as [|Hgt];
    [assumption|exfalso].
  destruct (round_half_even_near x) as [Hx _].
  destruct (round_half_even_near y) as [_ Hy].
  assert (Hz : inject_Z (round_half_even y) + 1 <= inject_Z (round_half_even x)).
  { change 1 with (inject_Z 1). rewrite <- inject_Z_plus.
    rewrite <- Zle_Qle. lia. }
  assert (Heq : x == y) by lra.
  apply round_half_even_comp in Heq. lia.
Qed.

Lemma pow10_pos (n : nat) : 0 < pow10 n.
Proof.
  unfold pow10. change 0 with (inject_Z 0). rewrite <- Zlt_Qlt.
  apply Z.pow_pos_nonneg; lia.
Qed.

Lemma py_round_mono (x y : Q) (n : nat) :
  x <= y → py_round x n <= py_round y n.
Proof.
  intros Hxy. unfold py_round.
  pose proof (pow10_pos n) as Hp.
  apply Qmult_le_compat_r.
  - rewrite <- Zle_Qle. apply round_half_even_mono.
    apply Qmult_le_compat_r; [assumption|lra].
  - apply Qlt_le_weak, Qinv_lt_0_compat, Hp.
Qed.

Lemma round_key_mono (t1 t2 : Q) :
  t1 <= t2 → (round_key t1 <= round_key t2)%Z.
Proof.
  intros H. unfold round_key. apply round_half_even_mono. lra.
Qed.

(** ** Masks and counts *)

Lemma col_ge_anti (col : list Q) (t1 t2 : Q) :
  t1 <= t2 → (mask_sum (col_ge col t2) <= mask_sum (col_ge col t1))%Z.
Proof.
  intros Ht. unfold mask_sum, col_ge.
  induction col as [|v col IH]; simpl; [lia|].
  destruct (Qle_bool t2 v) eqn:H2.
  - apply Qle_bool_iff in H2.
    assert (H1 : Qle_bool t1 v = true) by (apply Qle_bool_iff; lra).
    rewrite H1. lia.
  - destruct (Qle_bool t1 v); lia.
Qed.

Lemma col_lt_is_not_ge (col : list Q) (t : Q) :
  col_lt col t = mask_not (col_ge col t).
Proof.
  unfold col_lt, col_ge, mask_not. rewrite map_map.
  apply map_ext. intros v.
  destruct (Qlt_le_dec v t) as [Hlt|Hle].
  - destruct (Qle_bool t v) eqn:E; [|reflexivity].
    apply Qle_bool_iff in E. lra.
  - apply Qle_bool_iff in Hle. now rewrite Hle.
Qed.

Lemma confusion_cells_total (df : list Row) (t : Q) :
  Forall (fun r => inadimplente r = 0%Z ∨ inadimplente r = 1%Z) df →
  let aprovado_mask := col_ge (map score_normalizado df) t in
  let rejeitado_mask := mask_not aprovado_mask in
  let inadimplente_mask := col_eq (map inadimplente df) 1 in
  let adimplente_mask := col_eq (map inadimplente df) 0 in
  (mask_sum (mask_and rejeitado_mask inadimplente_mask)
   + mask_sum (mask_and rejeitado_mask adimplente_mask)
   + mask_sum (mask_and aprovado_mask adimplente_mask)
   + mask_sum (mask_and aprovado_mask inadimplente_mask) = len df)%Z.
Proof.
  intros Hdf. cbv zeta.
  unfold mask_sum, mask_and, mask_not, col_ge, col_eq, len.
  induction Hdf as [|r df Hr Hdf IH]; [reflexivity|].
  cbn [map zip_with sum_Z length].
  rewrite Nat2Z.inj_succ.
  destruct (Qle_bool t (score_normalizado r));
    destruct Hr as [Hr|Hr]; rewrite Hr; cbn [Z.eqb Pos.eqb negb andb];
    cbn [map zip_with sum_Z] in IH; lia.
Qed.

(** ** The metrics computation *)

Lemma truediv_ok (a b : Q) : ¬ b == 0 → truediv a b = Ok (a / b).
Proof.
  intros Hb. unfold truediv.
  destruct (Qeq_bool b 0) eqn:E; [|reflexivity].
  apply Qeq_bool_iff in E. contradiction.
Qed.

Lemma inject_Z_nonzero (z : Z) : (0 < z)%Z → ¬ inject_Z z == 0.
Proof.
  intros Hz Heq. unfold Qeq in Heq. simpl in Heq. lia.
Qed.

Lemma compute_metrics_ok (df : list Row) (total : Z) (vm : pyfloat) (t : Q) :
  (0 < total)%Z →
  ∃ m, compute_metrics df total vm t = Ok m
       ∧ clientesAprovados m = mask_sum (col_ge (map score_normalizado df) t)
       ∧ clientesRejeitados m = (total - clientesAprovados m)%Z
       ∧ totalClientes m = total
       ∧ taxaAprovacao m = py_round (approval_rate df total t) 1
       ∧ threshold m = t.
Proof.
  intros Htot. unfold compute_metrics.
  assert (Hlt : (0 <? total)%Z = true) by (apply Z.ltb_lt; assumption).
  rewrite Hlt, (truediv_ok _ _ (inject_Z_nonzero _ Htot)).
  cbn [mbind result_bind mret result_ret].
  destruct (0 <? mask_sum (col_ge (map score_normalizado df) t))%Z eqn:Hap.
  - apply Z.ltb_lt in Hap.
    rewrite (truediv_ok _ _ (inject_Z_nonzero _ Hap)).
    cbn [mbind result_bind mret result_ret].
    eexists. split; [reflexivity|]. cbn. repeat split; reflexivity.
  - cbn [mbind result_bind mret result_ret].
    eexists. split; [reflexivity|]. cbn. repeat split; reflexivity.
Qed.

Lemma approval_rate_anti (df : list Row) (total : Z) (t1 t2 : Q) :
  (0 < total)%Z → t1 <= t2 →
  approval_rate df total t2 <= approval_rate df total t1.
Proof.
  intros Htot Ht. unfold approval_rate.
  apply Qmult_le_compat_r; [|lra].
  apply Qmult_le_compat_r.
  - rewrite <- Zle_Qle. apply col_ge_anti, Ht.
  - apply Qlt_le_weak, Qinv_lt_0_compat.
    change 0 with (inject_Z 0). rewrite <- Zlt_Qlt. assumption.
Qed.

(** ** The service *)

Section ServiceProofs.

Variable time_time : nat → Q.
Variable np_argsort : list Q → list nat.

Lemma bind_run {A B : Type} (m : M A) (f : A → M B) (s s' : DataService) (a : A) :
  m s = (Ok a, s') → (m ≫= f) s = f a s'.
Proof. intros H. unfold mbind, M_bind. now rewrite H. Qed.

Lemma hoare_bind {A B : Type} (Pre : DataService → Prop) (m : M A)
    (Mid : A → DataService → Prop) (f : A → M B)
    (Post : B → DataService → Prop) :
  hoare Pre m Mid → (∀ a, hoare (Mid a) (f a) Post) → hoare Pre (m ≫= f) Post.
Proof.
  intros Hm Hf s Hs.
  destruct (Hm s Hs) as (a & s1 & Hrun & Hmid).
  destruct (Hf a s1 Hmid) as (b & s2 & Hrun2 & Hpost).
  exists b, s2. split; [|assumption].
  rewrite (bind_run _ _ _ _ _ Hrun). assumption.
Qed.

Lemma hoare_ret {A : Type} (Pre : DataService → Prop) (a : A)
    (Post : A → DataService → Prop) :
  (∀ s, Pre s → Post a s) → hoare Pre (mret a) Post.
Proof. intros H s Hs. exists a, s. split; [reflexivity|auto]. Qed.

Lemma hoare_weaken {A : Type} (Pre Pre' : DataService → Prop) (m : M A)
    (Post Post' : A → DataService → Prop) :
  hoare Pre' m Post' → (∀ s, Pre s → Pre' s) →
  (∀ a s, Post' a s → Post a s) → hoare Pre m Post.
Proof.
  intros Hm Hpre Hpost s Hs.
  destruct (Hm s (Hpre s Hs)) as (a & s' & Hrun & Hp).
  exists a, s'. auto.
Qed.

(** Reading the clock leaves the invariant alone. *)
Lemma Inv_set_time_calls (d : option (list Row)) (n : nat) (s : DataService) :
  Inv d s → Inv d (set_time_calls n s).
Proof. intros [H1 H2 H3 H4]. constructor; assumption. Qed.

Lemma get_from_cache_run {V : Type} (entry : option (V * Q)) (s : DataService) :
  ∃ s', _get_from_cache time_time entry s = (Ok (live_entry time_time entry s), s')
        ∧ (s' = s ∨ s' = set_time_calls (S (time_calls s)) s).
Proof.
  destruct entry as [[data ts]|]; cbn.
  - unfold mbind, M_bind, time_time_call.
    destruct (Qlt_le_dec (time_time (time_calls s) - ts) _cache_ttl);
      eexists; (split; [reflexivity|right; reflexivity]).
  - eexists. split; [reflexivity|left; reflexivity].
Qed.

Lemma Inv_save_metrics (d : option (list Row)) (df : list Row) (t now : Q)
    (m : Metrics) (s : DataService) :
  Inv d s → d = Some df → df ≠ [] → metrics_at df t = Ok m →
  Inv d (set_metrics_cache (<[round_key t := (m, now)]> (metrics_cache s)) s).
Proof.
  intros [H1 H2 H3 H4] Hd Hne Hm. constructor; try assumption.
  cbn. intros k m' ts Hk.
  destruct (decide (round_key t = k)) as [<-|Hneq].
  - rewrite lookup_insert_eq in Hk. inversion Hk; subst m' ts.
    exists df, t. auto.
  - rewrite lookup_insert_ne in Hk by assumption. eauto.
Qed.

Lemma len_pos {A : Type} (l : list A) : l ≠ [] → (0 < len l)%Z.
Proof. destruct l; [congruence|]. intros _. unfold len. simpl. lia. Qed.

Lemma metrics_at_ok (df : list Row) (t : Q) :
  df ≠ [] → ∃ m, metrics_at df t = Ok m.
Proof.
  intros Hne.
  destruct (compute_metrics_ok df (len df) (mean (map ticket df)) t
              (len_pos _ Hne)) as (m & Hm & _).
  exists m. exact Hm.
Qed.

(** The part of [get_metrics] after the cache lookup, on a table with rows. *)
Lemma get_metrics_compute (df : list Row) (t : Q) (s : DataService) :
  Inv (Some df) s → df ≠ [] →
  ∃ m s',
    (total_clientes ← getattr_total_clientes;
     valor_medio ← getattr_valor_medio;
     result ← lift_result (compute_metrics df total_clientes valor_medio t);
     _save_to_cache_metrics time_time (round_key t) result;;
     mret result) s = (Ok m, s')
    ∧ Inv (Some df) s' ∧ metrics_at df t = Ok m.
Proof.
  intros HI Hne.
  destruct (inv_attrs _ _ HI df eq_refl) as [Htot Hvm].
  destruct (metrics_at_ok df t Hne) as (m & Hm).
  pose (s1 := set_time_calls (S (time_calls s)) s).
  exists m,
    (set_metrics_cache
       (<[round_key t := (m, time_time (time_calls s))]> (metrics_cache s1)) s1).
  split; [|split; [|exact Hm]].
  - unfold getattr_total_clientes, getattr_valor_medio,
      _save_to_cache_metrics, time_time_call, modify_self, lift_result.
    unfold mbind, M_bind, get_self, mret, M_ret.
    rewrite Htot. cbn. rewrite Hvm. cbn.
    unfold metrics_at in Hm. rewrite Hm. cbn. reflexivity.
  - apply Inv_save_metrics with (df := df); auto.
    apply Inv_set_time_calls. assumption.
Qed.

Lemma live_entry_lookup {V : Type} (entry : option (V * Q)) (s : DataService)
    (v : V) :
  live_entry time_time entry s = Some v → ∃ ts, entry = Some (v, ts).
Proof.
  destruct entry as [[data ts]|]; cbn; [|discriminate].
  destruct (Qlt_le_dec _ _); [|discriminate].
  intros [= ->]. eauto.
Qed.

Lemma len_eqb_cons {A : Type} (x : A) (l : list A) : (len (x :: l) =? 0)%Z = false.
Proof. apply Z.eqb_neq. unfold len. simpl. lia. Qed.

(** [get_metrics] never raises in a reachable state, keeps the invariant,
    and what it returns is a snapshot for the cache key of its threshold. *)
Lemma get_metrics_hoare (d : option (list Row)) (t : Q) :
  hoare (Inv d) (get_metrics time_time t)
        (fun m s' => Inv d s' ∧ metrics_result d t m).
Proof.
  intros s HI. unfold get_metrics.
  destruct (get_from_cache_run (metrics_cache s !! round_key t) s)
    as (s1 & Hrun & Hs1).
  assert (HI1 : Inv d s1).
  { destruct Hs1; subst s1; [assumption|apply Inv_set_time_calls, HI]. }
  unfold mbind at 1, M_bind at 1, get_self.
  rewrite (bind_run _ _ _ _ _ Hrun).
  destruct (live_entry time_time (metrics_cache s !! round_key t) s)
    as [m|] eqn:Hlive.
  - exists m, s1. split; [reflexivity|]. split; [assumption|].
    destruct (live_entry_lookup _ _ _ Hlive) as (ts & Hentry).
    destruct (inv_metrics _ _ HI _ _ _ Hentry) as (df & t' & -> & Hne & Hk & Hm).
    destruct df as [|r df]; [congruence|]. cbn. eauto.
  - rewrite (inv_df _ _ HI). destruct d as [[|r df]|].
    + exists _get_empty_metrics, s1. cbn. auto.
    + rewrite len_eqb_cons.
      destruct (get_metrics_compute (r :: df) t s1 HI1) as (m & s2 & Hrun2 & HI2 & Hm);
        [congruence|].
      exists m, s2. split; [exact Hrun2|]. split; [assumption|].
      cbn. eauto.
    + exists _get_empty_metrics, s1. cbn. auto.
Qed.

(** What [get_metrics] returns on a table with rows: the live cache entry
    when there is one, the computation at [t] itself otherwise. *)
Lemma get_metrics_eval (df : list Row) (t : Q) (s : DataService) :
  Inv (Some df) s → df ≠ [] →
  (get_metrics time_time t s).1 =
    match live_entry time_time (metrics_cache s !! round_key t) s with
    | Some m => Ok m
    | None => metrics_at df t
    end.
Proof.
  intros HI Hne. unfold get_metrics.
  destruct (get_from_cache_run (metrics_cache s !! round_key t) s)
    as (s1 & Hrun & Hs1).
  assert (HI1 : Inv (Some df) s1).
  { destruct Hs1; subst s1; [assumption|apply Inv_set_time_calls, HI]. }
  unfold mbind at 1, M_bind at 1, get_self.
  rewrite (bind_run _ _ _ _ _ Hrun).
  destruct (live_entry time_time (metrics_cache s !! round_key t) s)
    as [m|] eqn:Hlive; [reflexivity|].
  rewrite (inv_df _ _ HI).
  destruct df as [|r df]; [congruence|]. rewrite len_eqb_cons.
  destruct (get_metrics_compute (r :: df) t s1 HI1) as (m & s2 & Hrun2 & HI2 & Hm);
    [congruence|].
  rewrite Hrun2, Hm. reflexivity.
Qed.

(** ** The confusion matrix *)

Lemma compute_confusion_matrix_ok (df : list Row) (t : Q) :
  ∃ c, compute_confusion_matrix df t = Ok c
       ∧ let aprovado_mask := col_ge (map score_normalizado df) t in
         let rejeitado_mask := mask_not aprovado_mask in
         let inadimplente_mask := col_eq (map inadimplente df) 1 in
         let adimplente_mask := col_eq (map inadimplente df) 0 in
         tp c = mask_sum (mask_and rejeitado_mask inadimplente_mask)
         ∧ fp c = mask_sum (mask_and rejeitado_mask adimplente_mask)
         ∧ tn c = mask_sum (mask_and aprovado_mask adimplente_mask)
         ∧ fn c = mask_sum (mask_and aprovado_mask inadimplente_mask).
Proof.
  unfold compute_confusion_matrix. cbv zeta.
  set (TP := mask_sum (mask_and (mask_not _) (col_eq _ 1))).
  set (FP := mask_sum (mask_and (mask_not _) (col_eq _ 0))).
  set (TN := mask_sum (mask_and (col_ge _ _) (col_eq _ 0))).
  set (FN := mask_sum (mask_and (col_ge _ _) (col_eq _ 1))).
  assert (Hdiv : ∀ a b : Z, ∃ q,
             (if (0 <? b)%Z then truediv (inject_Z a) (inject_Z b) else mret 0)
             = Ok q).
  { intros a b. destruct (0 <? b)%Z eqn:Hb.
    - apply Z.ltb_lt in Hb.
      rewrite (truediv_ok _ _ (inject_Z_nonzero _ Hb)). eauto.
    - eauto. }
  destruct (Hdiv (TP + TN)%Z (TP + FP + TN + FN)%Z) as (acc & ->).
  destruct (Hdiv TP (TP + FP)%Z) as (prec & ->).
  destruct (Hdiv TP (TP + FN)%Z) as (rec & ->).
  cbn [mbind result_bind].
  destruct (Qlt_le_dec 0 (prec + rec)) as [Hpos|Hle].
  - rewrite truediv_ok by lra. cbn [mbind result_bind mret result_ret].
    eexists. split; [reflexivity|]. cbn. auto.
  - cbn [mbind result_bind mret result_ret].
    eexists. split; [reflexivity|]. cbn. auto.
Qed.

Lemma Inv_save_confusion (d : option (list Row)) (df : list Row) (t now : Q)
    (c : Confusion) (s : DataService) :
  Inv d s → d = Some df → compute_confusion_matrix df t = Ok c →
  Inv d (set_confusion_cache (<[round_key t := (c, now)]> (confusion_cache s)) s).
Proof.
  intros [H1 H2 H3 H4] Hd Hc. constructor; try assumption.
  cbn. intros k c' ts Hk.
  destruct (decide (round_key t = k)) as [<-|Hneq].
  - rewrite lookup_insert_eq in Hk. inversion Hk; subst c' ts.
    exists df, t. auto.
  - rewrite lookup_insert_ne in Hk by assumption. eauto.
Qed.

Lemma get_confusion_matrix_hoare (d : option (list Row)) (t : Q) :
  hoare (Inv d) (get_confusion_matrix time_time t)
        (fun c s' => Inv d s' ∧ confusion_result d t c).
Proof.
  intros s HI. unfold get_confusion_matrix.
  destruct (get_from_cache_run (confusion_cache s !! round_key t) s)
    as (s1 & Hrun & Hs1).
  assert (HI1 : Inv d s1).
  { destruct Hs1; subst s1; [assumption|apply Inv_set_time_calls, HI]. }
  unfold mbind at 1, M_bind at 1, get_self.
  rewrite (bind_run _ _ _ _ _ Hrun).
  destruct (live_entry time_time (confusion_cache s !! round_key t) s)
    as [c|] eqn:Hlive.
  - exists c, s1. split; [reflexivity|]. split; [assumption|].
    destruct (live_entry_lookup _ _ _ Hlive) as (ts & Hentry).
    destruct (inv_confusion _ _ HI _ _ _ Hentry) as (df & t' & -> & Hk & Hc).
    cbn. eauto.
  - rewrite (inv_df _ _ HI). destruct d as [df|].
    + destruct (compute_confusion_matrix_ok df t) as (c & Hc & _).
      pose (s2 := set_time_calls (S (time_calls s1)) s1).
      exists c,
        (set_confusion_cache
           (<[round_key t := (c, time_time (time_calls s1))]> (confusion_cache s2))
           s2).
      split; [|split].
      * unfold _save_to_cache_confusion, time_time_call, modify_self, lift_result.
        unfold mbind, M_bind, mret, M_ret. rewrite Hc. reflexivity.
      * apply Inv_save_confusion with (df := df); auto.
        apply Inv_set_time_calls. assumption.
      * cbn. eauto.
    + exists {| tp := 0; fp := 0; tn := 0; fn := 0; cm_rates := None |}, s1.
      cbn. auto.
Qed.

(** ** The grid loops *)

Lemma sensitivity_loop_hoare (d : option (list Row)) (thresholds : list Q) :
  ∀ results,
    hoare (Inv d) (sensitivity_loop time_time thresholds results)
          (fun _ s' => Inv d s').
Proof.
  induction thresholds as [|t rest IH]; intros results; cbn [sensitivity_loop].
  - apply hoare_ret. auto.
  - eapply hoare_bind; [apply get_metrics_hoare|].
    intros m. eapply hoare_weaken; [apply IH| |]; cbn; tauto.
Qed.

Lemma Inv_set_sensitivity_cache (d : option (list Row))
    (c : option (Sensitivity * Q)) (s : DataService) :
  Inv d s → Inv d (set_sensitivity_cache c s).
Proof. intros [H1 H2 H3 H4]. constructor; assumption. Qed.

Lemma get_threshold_sensitivity_hoare (d : option (list Row)) :
  hoare (Inv d) (get_threshold_sensitivity time_time) (fun _ s' => Inv d s').
Proof.
  intros s HI. unfold get_threshold_sensitivity.
  destruct (get_from_cache_run (sensitivity_cache s) s) as (s1 & Hrun & Hs1).
  assert (HI1 : Inv d s1).
  { destruct Hs1; subst s1; [assumption|apply Inv_set_time_calls, HI]. }
  unfold mbind at 1, M_bind at 1, get_self.
  rewrite (bind_run _ _ _ _ _ Hrun).
  destruct (live_entry time_time (sensitivity_cache s) s) as [r|].
  - exists r, s1. auto.
  - destruct (df_preprocessed s).
    + destruct (sensitivity_loop_hoare d (np_linspace (1 # 10) (9 # 10) 9) [] s1 HI1)
        as (rows & s2 & Hloop & HI2).
      rewrite (bind_run _ _ _ _ _ Hloop).
      eexists. eexists. split.
      * unfold _save_to_cache_sensitivity, time_time_call, modify_self.
        unfold mbind, M_bind, mret, M_ret. reflexivity.
      * apply Inv_set_sensitivity_cache, Inv_set_time_calls, HI2.
    + exists SensUnavailable, s1. auto.
Qed.

Lemma scan_state_step (objective : string) (t bt : Q) (bv : pyfloat)
    (results : list OptPoint) (m : Metrics) :
  scan_state bt bv results →
  let value := objective_value objective m in
  let results' :=
    results ++ [ {| op_threshold := py_round t 2; op_value := value;
                    op_metrics := m |} ] in
  if gt_pyfloat value bv
  then scan_state t (PyFin value) results'
  else scan_state bt bv results'.
Proof.
  intros Hscan. cbv zeta.
  set (value := objective_value objective m).
  set (new := {| op_threshold := py_round t 2; op_value := value;
                 op_metrics := m |}).
  destruct Hscan as [[-> ->]|(v & pre & e & post & -> & -> & Ht & Hv & Hpre & Hpost)].
  - cbn. right. exists value, [], new, [].
    cbn. repeat split; auto.
  - unfold gt_pyfloat. destruct (Qlt_le_dec v value) as [Hlt|Hle].
    + right. exists value, (pre ++ e :: post), new, [].
      repeat split; auto.
      apply Forall_app. split.
      * eapply Forall_impl; [exact Hpre|]. cbn. intros x Hx. lra.
      * constructor; [rewrite Hv; exact Hlt|].
        eapply Forall_impl; [exact Hpost|]. cbn. intros x Hx. lra.
    + right. exists v, pre, e, (post ++ [new]).
      repeat split; auto.
      * now rewrite <- app_assoc.
      * apply Forall_app. split; [assumption|]. constructor; [|constructor].
        cbn. assumption.
Qed.

Lemma optimize_loop_hoare (d : option (list Row)) (objective : string)
    (thresholds : list Q) :
  ∀ bt bv results,
    scan_state bt bv results →
    hoare (Inv d) (optimize_loop time_time objective thresholds bt bv results)
      (fun r s' =>
         Inv d s'
         ∧ scan_state r.1.1 r.1.2 r.2
         ∧ ∃ new, r.2 = results ++ new
                  ∧ Forall2 (entry_ok d objective) thresholds new).
Proof.
  induction thresholds as [|t rest IH]; intros bt bv results Hscan;
    cbn [optimize_loop].
  - apply hoare_ret. intros s HI. cbn. split; [exact HI|split; [exact Hscan|]].
    exists []. rewrite app_nil_r. split; [reflexivity|constructor].
  - eapply hoare_bind; [apply get_metrics_hoare|].
    intros m. cbv zeta.
    pose proof (scan_state_step objective t bt bv results m Hscan) as Hstep.
    cbv zeta in Hstep.
    set (new := {| op_threshold := py_round t 2;
                   op_value := objective_value objective m;
                   op_metrics := m |}) in *.
    assert (Hpost : ∀ (r : Q * pyfloat * list OptPoint) (s : DataService)
                      (Hm : metrics_result d t m),
               (Inv d s ∧ scan_state r.1.1 r.1.2 r.2
                ∧ ∃ l, r.2 = (results ++ [new]) ++ l
                       ∧ Forall2 (entry_ok d objective) rest l) →
               Inv d s ∧ scan_state r.1.1 r.1.2 r.2
               ∧ ∃ l, r.2 = results ++ l
                      ∧ Forall2 (entry_ok d objective) (t :: rest) l).
    { intros r s Hm (HI & Hs & l & Hl & Hall).
      split; [exact HI|split; [exact Hs|]].
      exists (new :: l). split.
      - rewrite Hl, <- app_assoc. reflexivity.
      - constructor; [|exact Hall]. repeat split. exact Hm. }
    intros s [HI Hm].
    destruct (gt_pyfloat (objective_value objective m) bv).
    + destruct (IH _ _ _ Hstep s HI) as (r & s' & Hrun & Hr).
      exists r, s'. split; [exact Hrun|]. apply Hpost; assumption.
    + destruct (IH _ _ _ Hstep s HI) as (r & s' & Hrun & Hr).
      exists r, s'. split; [exact Hrun|]. apply Hpost; assumption.
Qed.

Lemma entry_ok_thresholds (d : option (list Row)) (objective : string)
    (thresholds : list Q) (table : list OptPoint) :
  Forall2 (entry_ok d objective) thresholds table →
  map op_threshold table = map (fun t => py_round t 2) thresholds.
Proof.
  induction 1 as [|t e ts es (Ht & _) _ IH]; [reflexivity|].
  cbn. now rewrite Ht, IH.
Qed.

(** [optimize_threshold] never raises in a reachable state; its reply is
    the short dictionary when the table is missing, the full one
    otherwise. *)
Lemma optimize_threshold_hoare (d : option (list Row)) (objective : string) :
  hoare (Inv d) (optimize_threshold time_time objective)
    (fun r s' =>
       Inv d s'
       ∧ match d with
         | None => r = OptUnavailable (1 # 2) objective
         | Some _ =>
             ∃ bt v m table,
               r = OptFull (py_round bt 2) objective (PyFin v) m table
               ∧ scan_state bt (PyFin v) table
               ∧ Forall2 (entry_ok d objective)
                   (np_linspace (1 # 10) (9 # 10) 9) table
               ∧ metrics_result d bt m
         end).
Proof.
  intros s HI. unfold optimize_threshold.
  unfold mbind at 1, M_bind at 1, get_self.
  rewrite (inv_df _ _ HI). destruct d as [df|].
  - assert (Hinit : scan_state (1 # 2) PyNegInf []) by (left; auto).
    destruct (optimize_loop_hoare (Some df) objective
                (np_linspace (1 # 10) (9 # 10) 9) _ _ _ Hinit s HI)
      as ([[bt bv] table] & s1 & Hloop & HI1 & Hscan & new & Hnew & Hall).
    cbn in Hscan, Hnew. subst new.
    rewrite (bind_run _ _ _ _ _ Hloop).
    destruct (get_metrics_hoare (Some df) bt s1 HI1) as (m & s2 & Hrun & HI2 & Hm).
    rewrite (bind_run _ _ _ _ _ Hrun).
    destruct Hscan as [[-> ->]|(v & pre & e & post & -> & Htab & Hrest)].
    + apply Forall2_length in Hall. discriminate Hall.
    + eexists. exists s2. split; [reflexivity|]. split; [assumption|].
      exists bt, v, m, table. repeat split; auto.
      right. exists v, pre, e, post. auto.
  - eexists. exists s. split; [reflexivity|]. auto.
Qed.

(** ** The ROC method leaves the metrics tables alone *)

Lemma same_core_refl (s : DataService) : same_core s s.
Proof. unfold same_core. auto. Qed.

Lemma same_core_trans (s1 s2 s3 : DataService) :
  same_core s1 s2 → same_core s2 s3 → same_core s1 s3.
Proof.
  unfold same_core. intros (A1 & A2 & A3 & A4 & A5) (B1 & B2 & B3 & B4 & B5).
  repeat split; congruence.
Qed.

Lemma Inv_same_core (d : option (list Row)) (s s' : DataService) :
  Inv d s → same_core s s' → Inv d s'.
Proof.
  intros [H1 H2 H3 H4] (A1 & A2 & A3 & A4 & A5).
  constructor; rewrite ?A1, ?A2, ?A3, ?A4, ?A5; assumption.
Qed.

Lemma core_stable_ret {A : Type} (a : A) : core_stable (mret a : M A).
Proof. intros s. apply same_core_refl. Qed.

Lemma core_stable_lift {A : Type} (r : Result A) : core_stable (lift_result r).
Proof. intros s. apply same_core_refl. Qed.

Lemma core_stable_get_self : core_stable get_self.
Proof. intros s. apply same_core_refl. Qed.

Lemma core_stable_bind {A B : Type} (m : M A) (f : A → M B) :
  core_stable m → (∀ a, core_stable (f a)) → core_stable (m ≫= f).
Proof.
  intros Hm Hf s. unfold mbind, M_bind.
  specialize (Hm s). destruct (m s) as [[a|e] s1]; cbn in Hm.
  - eapply same_core_trans; [exact Hm|apply Hf].
  - exact Hm.
Qed.

Lemma core_stable_time : core_stable (time_time_call time_time).
Proof. intros s. cbn. unfold same_core. auto. Qed.

Lemma core_stable_get_from_cache {V : Type} (entry : option (V * Q)) :
  core_stable (_get_from_cache time_time entry).
Proof.
  destruct entry as [[data ts]|]; cbn [_get_from_cache].
  - apply core_stable_bind; [apply core_stable_time|].
    intros now. destruct (Qlt_le_dec _ _); apply core_stable_ret.
  - apply core_stable_ret.
Qed.

Lemma core_stable_modify (f : DataService → DataService) :
  (∀ s, same_core s (f s)) → core_stable (modify_self f).
Proof. intros Hf s. apply Hf. Qed.

Lemma core_stable_roc_body :
  core_stable (get_roc_curve_data_body time_time np_argsort).
Proof.
  unfold get_roc_curve_data_body.
  apply core_stable_bind; [apply core_stable_get_self|]. intros self.
  apply core_stable_bind; [apply core_stable_get_from_cache|]. intros [r|].
  { apply core_stable_ret. }
  destruct (df_preprocessed self); [|apply core_stable_ret].
  apply core_stable_bind; [apply core_stable_lift|]. intros points.
  apply core_stable_bind; [apply core_stable_lift|]. intros fpr_sorted.
  apply core_stable_bind; [apply core_stable_lift|]. intros tpr_sorted.
  apply core_stable_bind; [|intros; apply core_stable_ret].
  unfold _save_to_cache_roc.
  apply core_stable_bind; [apply core_stable_time|]. intros now.
  apply core_stable_modify. intros s. unfold same_core. cbn. auto.
Qed.

Lemma core_stable_roc : core_stable (get_roc_curve_data time_time np_argsort).
Proof.
  unfold get_roc_curve_data.
  apply core_stable_bind; [apply core_stable_get_self|]. intros self.
  destruct (roc_lru self); [apply core_stable_ret|].
  apply core_stable_bind; [apply core_stable_roc_body|]. intros r.
  apply core_stable_bind; [|intros; apply core_stable_ret].
  apply core_stable_modify. intros s. unfold same_core. cbn. auto.
Qed.

(** ** Every reachable state satisfies the invariant *)

Lemma Inv_init (file : option (list RawRow)) :
  Inv (df_preprocessed (DataService_init file)) (DataService_init file).
Proof.
  destruct file as [rows|]; cbn.
  - constructor; cbn; try (intros; rewrite lookup_empty in *; discriminate).
    + reflexivity.
    + intros df [= <-]. auto.
  - constructor; cbn; try (intros; rewrite lookup_empty in *; discriminate).
    + reflexivity.
    + intros df [=].
Qed.

Lemma Inv_clear_cache (d : option (list Row)) (s : DataService) :
  Inv d s → Inv d (clear_cache s).2.
Proof.
  intros [H1 H2 H3 H4].
  constructor; cbn; try assumption;
    intros; rewrite lookup_empty in *; discriminate.
Qed.

Lemma hoare_state {A : Type} (d : option (list Row)) (m : M A)
    (Post : A → DataService → Prop) (s : DataService) :
  hoare (Inv d) m (fun a s' => Inv d s' ∧ Post a s') →
  Inv d s → Inv d (m s).2.
Proof.
  intros Hm HI. destruct (Hm s HI) as (a & s' & Hrun & HI' & _).
  rewrite Hrun. exact HI'.
Qed.

Lemma reachable_Inv (s : DataService) :
  reachable time_time np_argsort s → Inv (df_preprocessed s) s.
Proof.
  induction 1 as [file|s t _ IH|s t _ IH|s _ IH|s _ IH|s o _ IH|s _ IH].
  - apply Inv_init.
  - pose proof (hoare_state _ _ _ s (get_metrics_hoare _ t) IH) as HI.
    rewrite (inv_df _ _ HI). exact HI.
  - pose proof (hoare_state _ _ _ s (get_confusion_matrix_hoare _ t) IH) as HI.
    rewrite (inv_df _ _ HI). exact HI.
  - pose proof (Inv_same_core _ _ _ IH (core_stable_roc s)) as HI.
    rewrite (inv_df _ _ HI). exact HI.
  - assert (HI : Inv (df_preprocessed s) (get_threshold_sensitivity time_time s).2).
    { destruct (get_threshold_sensitivity_hoare _ s IH) as (a & s' & Hrun & HI').
      rewrite Hrun. exact HI'. }
    rewrite (inv_df _ _ HI). exact HI.
  - pose proof (hoare_state _ _ _ s (optimize_threshold_hoare _ o) IH) as HI.
    rewrite (inv_df _ _ HI). exact HI.
  - pose proof (Inv_clear_cache _ _ IH) as HI.
    rewrite (inv_df _ _ HI). exact HI.
Qed.

(** ** Claims about the metrics engine *)

Lemma metrics_at_fields (df : list Row) (t : Q) (m : Metrics) :
  df ≠ [] → metrics_at df t = Ok m →
  clientesAprovados m = mask_sum (col_ge (map score_normalizado df) t)
  ∧ clientesRejeitados m = (len df - clientesAprovados m)%Z
  ∧ totalClientes m = len df
  ∧ taxaAprovacao m = py_round (approval_rate df (len df) t) 1
  ∧ threshold m = t.
Proof.
  intros Hne Hm.
  destruct (compute_metrics_ok df (len df) (mean (map ticket df)) t
              (len_pos _ Hne)) as (m' & Hm' & Hfields).
  unfold metrics_at in Hm. rewrite Hm in Hm'. injection Hm' as <-.
  exact Hfields.
Qed.

(** C1: on the four-record population (normalized scores 0.2, 0.5, 0.7, 0.9,
    outcomes True, False, False, True, exposures 100, 200, 300, 400), a call
    [get_metrics(0.5)] that is not answered from the cache approves
    exactly the records 1, 2, 3, and returns 3 approved, 1 rejected, one
    defaulter among the three approved (33.3 %), revenue 900, default
    losses 400, net balance 500, missed opportunity 0 and avoided losses
    100. *)
Theorem get_metrics_worked_example (s : DataService) :
  reachable time_time np_argsort s →
  df_preprocessed s = Some example_population →
  live_entry time_time (metrics_cache s !! round_key (1 # 2)) s = None →
  let aprovado_mask := col_ge (map score_normalizado example_population) (1 # 2) in
  aprovado_mask = [false; true; true; true]
  ∧ sum_Z (loc aprovado_mask (map inadimplente example_population)) = 1%Z
  ∧ ∃ m s',
      get_metrics time_time (1 # 2) s = (Ok m, s')
      ∧ clientesAprovados m = 3%Z
      ∧ clientesRejeitados m = 1%Z
      ∧ taxaInadimplencia m == 333 # 10
      ∧ receitaTotal m == 900
      ∧ perdasInadimplencia m == 400
      ∧ saldoLiquido m == 500
      ∧ oportunidadesPerdidas m == 0
      ∧ perdasEvitadas m == 100.
Proof.
  intros Hreach Hdf Hmiss. cbv zeta.
  split; [reflexivity|]. split; [reflexivity|].
  pose proof (reachable_Inv s Hreach) as HI. rewrite Hdf in HI.
  destruct (get_metrics_hoare _ (1 # 2) s HI) as (m & s' & Hrun & _).
  exists m, s'. split; [exact Hrun|].
  assert (Hne : example_population ≠ []) by discriminate.
  pose proof (get_metrics_eval _ (1 # 2) s HI Hne) as Heval.
  rewrite Hrun, Hmiss in Heval. cbn [fst] in Heval.
  assert (Hval : metrics_at example_population (1 # 2)
                 = Ok {| saldoLiquido := 500;
                         taxaAprovacao := 750 # 10;
                         taxaInadimplencia := 333 # 10;
                         totalClientes := 4;
                         clientesAprovados := 3;
                         clientesRejeitados := 1;
                         receitaTotal := 900;
                         perdasInadimplencia := 400;
                         oportunidadesPerdidas := 0;
                         perdasEvitadas := 100;
                         valorMedio := PyFin (1000 # 4);
                         threshold := 1 # 2 |}) by (vm_compute; reflexivity).
  rewrite Hval in Heval. injection Heval as ->. cbn.
  repeat split; reflexivity.
Qed.

Lemma metrics_result_rate (df : list Row) (t : Q) (m : Metrics) :
  df ≠ [] → metrics_result (Some df) t m →
  ∃ t', round_key t' = round_key t
        ∧ taxaAprovacao m = py_round (approval_rate df (len df) t') 1.
Proof.
  intros Hne Hm. destruct df as [|r df]; [congruence|].
  destruct Hm as (t' & Hk & Hm). exists t'. split; [exact Hk|].
  apply (metrics_at_fields _ _ _ Hne Hm).
Qed.

(** C2 (amended): in any reachable state of the service, the
    [taxaAprovacao] that [get_metrics] returns is non-increasing in the
    threshold; nothing of the kind is claimed of [taxaInadimplencia]. *)
Theorem approval_rate_non_increasing (s : DataService) (t1 t2 : Q) :
  reachable time_time np_argsort s →
  t1 <= t2 →
  ∃ m1 m2 s1 s2,
    get_metrics time_time t1 s = (Ok m1, s1)
    ∧ get_metrics time_time t2 s = (Ok m2, s2)
    ∧ taxaAprovacao m2 <= taxaAprovacao m1.
Proof.
  intros Hreach Ht.
  pose proof (reachable_Inv s Hreach) as HI.
  destruct (get_metrics_hoare _ t1 s HI) as (m1 & s1 & Hrun1 & _ & Hm1).
  destruct (get_metrics_hoare _ t2 s HI) as (m2 & s2 & Hrun2 & _ & Hm2).
  exists m1, m2, s1, s2. split; [exact Hrun1|]. split; [exact Hrun2|].
  destruct (df_preprocessed s) as [df|] eqn:Hdf.
  2:{ cbn in Hm1, Hm2. subst. cbn. lra. }
  destruct (decide (df = [])) as [->|Hne].
  { cbn in Hm1, Hm2. subst. cbn. lra. }
  assert (Htot : (0 < len df)%Z) by (apply len_pos, Hne).
  destruct (decide (round_key t1 = round_key t2)) as [Hk|Hk].
  - pose proof (get_metrics_eval df t1 s HI Hne) as E1.
    pose proof (get_metrics_eval df t2 s HI Hne) as E2.
    rewrite Hrun1 in E1. rewrite Hrun2 in E2. cbn [fst] in E1, E2.
    rewrite Hk in E1.
    destruct (live_entry time_time (metrics_cache s !! round_key t2) s) as [m|].
    + injection E1 as ->. injection E2 as ->. lra.
    + symmetry in E1, E2.
      destruct (metrics_at_fields _ _ _ Hne E1) as (_ & _ & _ & -> & _).
      destruct (metrics_at_fields _ _ _ Hne E2) as (_ & _ & _ & -> & _).
      apply py_round_mono, approval_rate_anti; assumption.
  - destruct (metrics_result_rate _ _ _ Hne Hm1) as (t1' & Hk1 & ->).
    destruct (metrics_result_rate _ _ _ Hne Hm2) as (t2' & Hk2 & ->).
    apply py_round_mono, approval_rate_anti; [assumption|].
    destruct (Qlt_le_dec t2' t1') as [Hlt|Hle]; [exfalso|exact Hle].
    pose proof (round_key_mono t1 t2 Ht).
    pose proof (round_key_mono t2' t1' (Qlt_le_weak _ _ Hlt)).
    lia.
Qed.

(** C3: for a loaded table whose [inadimplente] column holds only 0 and 1,
    in any reachable state and at any threshold, [get_metrics] returns
    [clientesAprovados + clientesRejeitados] equal to the number of rows,
    and [get_confusion_matrix] returns [tp + fp + tn + fn] equal to the
    number of rows. *)
Theorem partition_completeness (s : DataService) (df : list Row) (t : Q) :
  reachable time_time np_argsort s →
  df_preprocessed s = Some df →
  Forall (fun r => inadimplente r = 0%Z ∨ inadimplente r = 1%Z) df →
  (∃ m s', get_metrics time_time t s = (Ok m, s')
           ∧ (clientesAprovados m + clientesRejeitados m = len df)%Z
           ∧ totalClientes m = len df)
  ∧ (∃ c s', get_confusion_matrix time_time t s = (Ok c, s')
             ∧ (tp c + fp c + tn c + fn c = len df)%Z).
Proof.
  intros Hreach Hdf Hcol.
  pose proof (reachable_Inv s Hreach) as HI. rewrite Hdf in HI.
  split.
  - destruct (get_metrics_hoare _ t s HI) as (m & s' & Hrun & _ & Hm).
    exists m, s'. split; [exact Hrun|].
    destruct df as [|r df]; [cbn in Hm; subst m; cbn; auto|].
    destruct Hm as (t' & _ & Hm).
    assert (Hne : r :: df ≠ []) by discriminate.
    destruct (metrics_at_fields _ _ _ Hne Hm) as (_ & Hrej & Htot & _).
    rewrite Hrej, Htot. split; [lia|reflexivity].
  - destruct (get_confusion_matrix_hoare _ t s HI) as (c & s' & Hrun & _ & Hc).
    exists c, s'. split; [exact Hrun|].
    destruct Hc as (t' & _ & Hc).
    destruct (compute_confusion_matrix_ok df t') as (c' & Hc' & H1 & H2 & H3 & H4).
    rewrite Hc in Hc'. injection Hc' as <-.
    rewrite H1, H2, H3, H4. apply confusion_cells_total, Hcol.
Qed.

(** C5: in any reachable state whose population table failed to load or
    has no row, [get_metrics] at any threshold raises nothing and returns
    the empty snapshot: every count, rate and monetary aggregate is 0. *)
Theorem empty_population_metrics (s : DataService) (t : Q) :
  reachable time_time np_argsort s →
  df_preprocessed s = None ∨ df_preprocessed s = Some [] →
  ∃ m s',
    get_metrics time_time t s = (Ok m, s')
    ∧ m = _get_empty_metrics
    ∧ totalClientes m = 0%Z
    ∧ clientesAprovados m = 0%Z
    ∧ clientesRejeitados m = 0%Z
    ∧ taxaAprovacao m = 0
    ∧ taxaInadimplencia m = 0
    ∧ receitaTotal m = 0
    ∧ perdasInadimplencia m = 0
    ∧ saldoLiquido m = 0
    ∧ oportunidadesPerdidas m = 0
    ∧ perdasEvitadas m = 0
    ∧ valorMedio m = PyFin 0.
Proof.
  intros Hreach Hdf.
  pose proof (reachable_Inv s Hreach) as HI.
  destruct (get_metrics_hoare _ t s HI) as (m & s' & Hrun & _ & Hm).
  exists m, s'. split; [exact Hrun|].
  assert (Hempty : m = _get_empty_metrics).
  { destruct Hdf as [Hdf|Hdf]; rewrite Hdf in Hm; exact Hm. }
  subst m. cbn. repeat split; reflexivity.
Qed.

(** ** Claims about the optimizer *)

Lemma sorted_after {A : Type} (R : A → A → Prop) (l1 : list A) (x : A)
    (l2 : list A) :
  StronglySorted R (l1 ++ x :: l2) → Forall (R x) l2.
Proof.
  induction l1 as [|y l1 IH]; cbn; intros Hs.
  - apply StronglySorted_inv in Hs. tauto.
  - apply StronglySorted_inv in Hs. tauto.
Qed.

Lemma optimizer_grid_values :
  Forall2 Qeq optimizer_grid
    [1 # 10; 2 # 10; 3 # 10; 4 # 10; 5 # 10; 6 # 10; 7 # 10; 8 # 10; 9 # 10].
Proof. vm_compute. repeat constructor. Qed.

Lemma optimizer_grid_ascending : StronglySorted Qlt optimizer_grid.
Proof. vm_compute. repeat constructor. Qed.

(** C4: with the table loaded, [optimize_threshold] visits the nine grid
    points 0.1, 0.2, ..., 0.9 in ascending order and replaces the incumbent
    on strict improvement only: the threshold it returns reaches the
    largest value of the table, and whenever several grid points reach
    that value it is the lowest of them. *)
Theorem optimize_threshold_lowest_maximum (s : DataService) (df : list Row)
    (objective : string) :
  reachable time_time np_argsort s →
  df_preprocessed s = Some df →
  ∃ opt v m table s',
    optimize_threshold time_time objective s
      = (Ok (OptFull opt objective (PyFin v) m table), s')
    ∧ Forall2 Qeq (map op_threshold table)
        [1 # 10; 2 # 10; 3 # 10; 4 # 10; 5 # 10; 6 # 10; 7 # 10; 8 # 10; 9 # 10]
    ∧ (∃ e, e ∈ table ∧ op_threshold e = opt ∧ op_value e = v)
    ∧ (∀ e, e ∈ table → op_value e <= v)
    ∧ (∀ e, e ∈ table → op_value e == v → opt <= op_threshold e).
Proof.
  intros Hreach Hdf.
  pose proof (reachable_Inv s Hreach) as HI. rewrite Hdf in HI.
  destruct (optimize_threshold_hoare _ objective s HI)
    as (r & s' & Hrun & _ & bt & v & m & table & -> & Hscan & Hall & _).
  exists (py_round bt 2), v, m, table, s'. split; [exact Hrun|].
  pose proof (entry_ok_thresholds _ _ _ _ Hall) as Hgrid.
  fold optimizer_grid in Hgrid.
  split; [rewrite Hgrid; apply optimizer_grid_values|].
  destruct Hscan as [[Hbv _]|(v' & pre & e & post & Hbv & -> & Ht & Hv & Hpre & Hpost)];
    [discriminate|].
  injection Hbv as <-.
  rewrite Forall_forall in Hpre, Hpost.
  split; [|split].
  - exists e. split; [|auto]. apply elem_of_app. right. left.
  - intros e' He'. apply elem_of_app in He' as [Hin|Hin].
    + apply Qlt_le_weak, Hpre, Hin.
    + apply elem_of_cons in Hin as [->|Hin]; [rewrite Hv; lra|].
      apply Hpost, Hin.
  - intros e' He' Heq. apply elem_of_app in He' as [Hin|Hin].
    + specialize (Hpre _ Hin). cbn in Hpre. lra.
    + apply elem_of_cons in Hin as [->|Hin]; [rewrite Ht; lra|].
      pose proof optimizer_grid_ascending as Hsorted.
      rewrite <- Hgrid, map_app in Hsorted. cbn [map] in Hsorted.
      apply sorted_after in Hsorted. rewrite Forall_forall in Hsorted.
      rewrite <- Ht. apply Qlt_le_weak, Hsorted.
      apply list_elem_of_In, in_map, list_elem_of_In, Hin.
Qed.

(** C6 (amended): in any reachable state and for any objective string,
    [optimize_threshold] returns without raising.  With the table loaded
    the reply has the five fields: the optimal threshold rounded to two
    decimals (one of the table's grid points), the objective name, the
    best value, the snapshot of [get_metrics] at the optimal threshold
    and the table of the nine grid points.  With the table missing the
    reply has two fields only: [optimal_threshold = 0.5] and the
    objective name. *)
Theorem optimize_threshold_reply (s : DataService) (objective' : string) :
  reachable time_time np_argsort s →
  ∃ r s',
    optimize_threshold time_time objective' s = (Ok r, s')
    ∧ objective r = objective'
    ∧ match df_preprocessed s with
      | Some df =>
          keys r = ["optimal_threshold"; "objective"; "best_value";
                    "metrics"; "all_results"]
          ∧ ∃ bt v m table,
              optimal_threshold r = py_round bt 2
              ∧ best_value r = Some (PyFin v)
              ∧ metrics r = Some m
              ∧ metrics_result (Some df) bt m
              ∧ all_results r = Some table
              ∧ optimal_threshold r ∈ map op_threshold table
              ∧ Forall2 (entry_ok (Some df) objective')
                  (np_linspace (1 # 10) (9 # 10) 9) table
      | None =>
          r = OptUnavailable (1 # 2) objective'
          ∧ keys r = ["optimal_threshold"; "objective"]
      end.
Proof.
  intros Hreach.
  pose proof (reachable_Inv s Hreach) as HI.
  destruct (optimize_threshold_hoare _ objective' s HI)
    as (r & s' & Hrun & _ & Hr).
  exists r, s'. split; [exact Hrun|].
  destruct (df_preprocessed s) as [df|].
  - destruct Hr as (bt & v & m & table & -> & Hscan & Hall & Hm).
    split; [reflexivity|]. split; [reflexivity|].
    exists bt, v, m, table. cbn. repeat split; auto.
    destruct Hscan as [[Hbv _]|(v' & pre & e & post & _ & -> & Ht & _)];
      [discriminate|].
    rewrite <- Ht. apply list_elem_of_In, in_map, list_elem_of_In.
    apply elem_of_app. right. left.
  - subst r. cbn. auto.
Qed.

End ServiceProofs.

(** ** Claims about the ROC sweep *)

(** C7: at every threshold, the rejected mask of the ROC sweep
    ([score_normalizado < threshold]) is the complement of the approval
    mask of the metrics engine and of the confusion matrix
    ([score_normalizado >= threshold]); hence the counts [tp] and [fp] of
    one turn of the ROC loop are the cells [tp] and [fp] that
    [get_confusion_matrix] computes at that threshold. *)
Theorem roc_rejected_complements_approved (df : list Row) (t : Q) :
  let scores := map score_normalizado df in
  let inadimplente_mask := col_eq (map inadimplente df) 1 in
  let adimplente_mask := col_eq (map inadimplente df) 0 in
  col_lt scores t = mask_not (col_ge scores t)
  ∧ ∃ c, compute_confusion_matrix df t = Ok c
         ∧ roc_counts df inadimplente_mask adimplente_mask t = (tp c, fp c).
Proof.
  cbv zeta. split; [apply col_lt_is_not_ge|].
  destruct (compute_confusion_matrix_ok df t) as (c & Hc & Htp & Hfp & _).
  exists c. split; [exact Hc|].
  unfold roc_counts. rewrite col_lt_is_not_ge, Htp, Hfp. reflexivity.
Qed.

(** ** Claims about the threshold policy *)

Lemma Qleb_true (x y : Q) : Qleb x y = true ↔ x <= y.
Proof. apply Qle_bool_iff. Qed.

Lemma Qleb_false (x y : Q) : Qleb x y = false ↔ y < x.
Proof.
  unfold Qleb. split.
  - intros H. destruct (Qlt_le_dec y x) as [Hlt|Hle]; [exact Hlt|].
    apply Qle_bool_iff in Hle. congruence.
  - intros Hlt. destruct (Qle_bool x y) eqn:E; [|reflexivity].
    apply Qle_bool_iff in E. lra.
Qed.

Lemma Qleb_percent (p a b : Q) : a == b * 100 → Qleb (p * 100) a = Qleb p b.
Proof.
  intros Hab. destruct (Qleb p b) eqn:E.
  - apply Qleb_true in E. apply Qleb_true. lra.
  - apply Qleb_false in E. apply Qleb_false. lra.
Qed.

Ltac percent_tests p :=
  rewrite (Qleb_percent p (5 # 10) (5 # 1000)) by reflexivity;
  rewrite (Qleb_percent p 1 (1 # 100)) by reflexivity;
  rewrite (Qleb_percent p 3 (3 # 100)) by reflexivity;
  rewrite (Qleb_percent p 10 (10 # 100)) by reflexivity;
  rewrite (Qleb_percent p 30 (30 # 100)) by reflexivity;
  rewrite (Qleb_percent p 50 (50 # 100)) by reflexivity;
  rewrite (Qleb_percent p 70 (70 # 100)) by reflexivity;
  rewrite (Qleb_percent p 100 1) by reflexivity.

Ltac split_tests :=
  repeat match goal with
         | |- context [Qleb ?x ?y] =>
             let E := fresh "E" in
             destruct (Qleb x y) eqn:E;
             [apply Qleb_true in E|apply Qleb_false in E]
         end.


Lemma approve_band_iff (p : Q) :
  nivel_bacen (classify_risk_bacen p) ∈ ["AA"; "A"; "B"; "C"] ↔ p <= 10 # 100.
Proof.
  unfold classify_risk_bacen. percent_tests p.
  split_tests; cbn [nivel_bacen];
    (split; [intros Hin|intros Hle]);
    try lra; try (repeat constructor);
    repeat (apply elem_of_cons in Hin as [Hin|Hin]; [discriminate|]);
    apply elem_of_nil in Hin; contradiction.
Qed.

(** C9: the three-tier recommendation is ["Aprovar"] exactly when the
    nine-tier classification gives a tier of the band up to 10 %, that is
    AA, A, B or C; a probability of 0.05 is approved with such a tier, and
    ["Negar"] is never paired with tier AA. *)
Theorem recommendation_agrees_with_tier (p : Q) :
  (_get_recommendation p = "Aprovar"
   ↔ nivel_bacen (classify_risk_bacen p) ∈ ["AA"; "A"; "B"; "C"])
  ∧ (_get_recommendation (5 # 100) = "Aprovar"
     ∧ nivel_bacen (classify_risk_bacen (5 # 100)) ∈ ["AA"; "A"; "B"; "C"])
  ∧ ¬ (_get_recommendation p = "Negar"
       ∧ nivel_bacen (classify_risk_bacen p) = "AA").
Proof.
  split; [|split].
  - rewrite approve_band_iff. unfold _get_recommendation.
    split_tests; split; intros H; try lra; try reflexivity; discriminate.
  - split; [reflexivity|]. apply approve_band_iff. lra.
  - intros [Hneg Haa].
    assert (Hband : nivel_bacen (classify_risk_bacen p) ∈ ["AA"; "A"; "B"; "C"])
      by (rewrite Haa; left).
    apply approve_band_iff in Hband.
    unfold _get_recommendation in Hneg.
    apply Qleb_true in Hband. rewrite Hband in Hneg. discriminate.
Qed.

(** C10: for a probability between 0 and 1, [classify_risk_bacen] gives
    one of the tiers AA to G and never H; tier H is given exactly when
    the percentage exceeds 100. *)
Theorem classify_risk_bacen_never_H (p : Q) :
  0 <= p → p <= 1 →
  nivel_bacen (classify_risk_bacen p) ∈ ["AA"; "A"; "B"; "C"; "D"; "E"; "F"; "G"]
  ∧ nivel_bacen (classify_risk_bacen p) ≠ "H"
  ∧ ∀ q, nivel_bacen (classify_risk_bacen q) = "H" ↔ 100 < q * 100.
Proof.
  intros H0 H1. split; [|split].
  - unfold classify_risk_bacen. percent_tests p.
    split_tests; cbn [nivel_bacen]; try lra; repeat constructor.
  - unfold classify_risk_bacen. percent_tests p.
    split_tests; cbn [nivel_bacen]; try lra; discriminate.
  - intros q. unfold classify_risk_bacen.
    split_tests; cbn [nivel_bacen]; split; intros H; try lra;
      try discriminate; reflexivity.
Qed.

(** ** The claims on concrete services *)

(** The service right after loading the four-record example. *)
Lemma get_metrics_worked_example_witness :
  let s := DataService_init (Some example_file) in
  let aprovado_mask := col_ge (map score_normalizado example_population) (1 # 2) in
  reachable ticking_clock stable_argsort s
  ∧ df_preprocessed s = Some example_population
  ∧ live_entry ticking_clock (metrics_cache s !! round_key (1 # 2)) s = None
  ∧ aprovado_mask = [false; true; true; true]
  ∧ sum_Z (loc aprovado_mask (map inadimplente example_population)) = 1%Z
  ∧ ∃ m s',
      get_metrics ticking_clock (1 # 2) s = (Ok m, s')
      ∧ clientesAprovados m = 3%Z
      ∧ clientesRejeitados m = 1%Z
      ∧ taxaInadimplencia m == 333 # 10
      ∧ receitaTotal m == 900
      ∧ perdasInadimplencia m == 400
      ∧ saldoLiquido m == 500
      ∧ oportunidadesPerdidas m == 0
      ∧ perdasEvitadas m == 100.
Proof.
  cbv zeta.
  split; [apply reach_init|].
  split; [reflexivity|].
  split; [reflexivity|].
  apply (get_metrics_worked_example ticking_clock stable_argsort
           (DataService_init (Some example_file))).
  - apply reach_init.
  - reflexivity.
  - reflexivity.
Defined.

(** C2, as stated, fails on its second half: with a good payer at score
    0.2 and a defaulter at score 0.9, raising the threshold from 0.1 to
    0.5 raises [taxaInadimplencia] from 50 to 100. *)
Lemma default_rate_can_increase :
  ∃ m1 m2 s1 s2,
    get_metrics ticking_clock (1 # 10) (DataService_init (Some inverted_file))
      = (Ok m1, s1)
    ∧ get_metrics ticking_clock (1 # 2) (DataService_init (Some inverted_file))
      = (Ok m2, s2)
    ∧ 1 # 10 <= 1 # 2
    ∧ taxaInadimplencia m1 == 50
    ∧ taxaInadimplencia m2 == 100
    ∧ ¬ taxaInadimplencia m2 <= taxaInadimplencia m1.
Proof.
  do 4 eexists.
  split; [vm_compute; reflexivity|].
  split; [vm_compute; reflexivity|].
  cbn. repeat split; try reflexivity; try discriminate.
  intros H. vm_compute in H. apply H. reflexivity.
Qed.

(** A service whose cache the optimizer has filled: the nine grid points
    are answered from the cache. *)
Lemma approval_rate_non_increasing_witness :
  let s := (optimize_threshold ticking_clock "profit"
              (DataService_init (Some example_file))).2 in
  reachable ticking_clock stable_argsort s
  ∧ 3 # 10 <= 6 # 10
  ∧ ∃ m1 m2 s1 s2,
      get_metrics ticking_clock (3 # 10) s = (Ok m1, s1)
      ∧ get_metrics ticking_clock (6 # 10) s = (Ok m2, s2)
      ∧ taxaAprovacao m2 <= taxaAprovacao m1.
Proof.
  cbv zeta.
  split; [apply reach_optimize_threshold, reach_init|].
  split; [discriminate|].
  apply (approval_rate_non_increasing ticking_clock stable_argsort
           (optimize_threshold ticking_clock "profit"
              (DataService_init (Some example_file))).2 (3 # 10) (6 # 10)).
  - apply reach_optimize_threshold, reach_init.
  - discriminate.
Defined.

Lemma example_outcomes_binary :
  Forall (fun r => inadimplente r = 0%Z ∨ inadimplente r = 1%Z)
    example_population.
Proof.
  repeat constructor; (left; reflexivity) || (right; reflexivity).
Defined.

Lemma partition_completeness_witness :
  let s := (get_confusion_matrix ticking_clock (1 # 2)
              (get_metrics ticking_clock (503 # 1000)
                 (DataService_init (Some example_file))).2).2 in
  reachable ticking_clock stable_argsort s
  ∧ df_preprocessed s = Some example_population
  ∧ Forall (fun r => inadimplente r = 0%Z ∨ inadimplente r = 1%Z)
      example_population
  ∧ (∃ m s', get_metrics ticking_clock (1 # 2) s = (Ok m, s')
             ∧ (clientesAprovados m + clientesRejeitados m
                = len example_population)%Z
             ∧ totalClientes m = len example_population)
  ∧ (∃ c s', get_confusion_matrix ticking_clock (1 # 2) s = (Ok c, s')
             ∧ (tp c + fp c + tn c + fn c = len example_population)%Z).
Proof.
  cbv zeta.
  split; [apply reach_get_confusion_matrix, reach_get_metrics, reach_init|].
  split; [vm_compute; reflexivity|].
  split; [exact example_outcomes_binary|].
  apply (partition_completeness ticking_clock stable_argsort
           (get_confusion_matrix ticking_clock (1 # 2)
              (get_metrics ticking_clock (503 # 1000)
                 (DataService_init (Some example_file))).2).2
           example_population (1 # 2)).
  - apply reach_get_confusion_matrix, reach_get_metrics, reach_init.
  - vm_compute. reflexivity.
  - exact example_outcomes_binary.
Defined.

Lemma optimize_threshold_lowest_maximum_witness :
  let s := DataService_init (Some example_file) in
  reachable ticking_clock stable_argsort s
  ∧ df_preprocessed s = Some example_population
  ∧ ∃ opt v m table s',
      optimize_threshold ticking_clock "profit" s
        = (Ok (OptFull opt "profit" (PyFin v) m table), s')
      ∧ Forall2 Qeq (map op_threshold table)
          [1 # 10; 2 # 10; 3 # 10; 4 # 10; 5 # 10; 6 # 10; 7 # 10; 8 # 10; 9 # 10]
      ∧ (∃ e, e ∈ table ∧ op_threshold e = opt ∧ op_value e = v)
      ∧ (∀ e, e ∈ table → op_value e <= v)
      ∧ (∀ e, e ∈ table → op_value e == v → opt <= op_threshold e).
Proof.
  cbv zeta.
  split; [apply reach_init|].
  split; [reflexivity|].
  apply (optimize_threshold_lowest_maximum ticking_clock stable_argsort
           (DataService_init (Some example_file)) example_population "profit").
  - apply reach_init.
  - reflexivity.
Defined.

(** On the example the net balance is 500 at each of the thresholds 0.1 to
    0.5: the optimizer answers 0.1. *)
Example optimize_threshold_tie_example :
  ∃ m table s',
    optimize_threshold ticking_clock "profit"
      (DataService_init (Some example_file))
    = (Ok (OptFull (10 # 100) "profit" (PyFin 500) m table), s')
    ∧ map op_value table = [500; 500; 500; 500; 500; 300; 300; 0; 0].
Proof.
  do 3 eexists. split; vm_compute; reflexivity.
Qed.

(** Thresholds that round to the same two decimals share a cache entry:
    within the time to live, [get_metrics(0.5)] after [get_metrics(0.503)]
    hands out the snapshot computed at 0.503, where the record of score
    0.5 is rejected. *)
Example get_metrics_shares_rounded_cache_key :
  let s0 := DataService_init (Some example_file) in
  let s1 := (get_metrics ticking_clock (503 # 1000) s0).2 in
  ∃ m s2,
    get_metrics ticking_clock (1 # 2) s1 = (Ok m, s2)
    ∧ clientesAprovados m = 2%Z
    ∧ threshold m = 503 # 1000.
Proof.
  do 2 eexists. split; [vm_compute; reflexivity|]. split; reflexivity.
Qed.

Lemma empty_population_metrics_witness :
  let s := DataService_init None in
  reachable ticking_clock stable_argsort s
  ∧ (df_preprocessed s = None ∨ df_preprocessed s = Some [])
  ∧ ∃ m s',
      get_metrics ticking_clock (1 # 2) s = (Ok m, s')
      ∧ m = _get_empty_metrics
      ∧ totalClientes m = 0%Z
      ∧ clientesAprovados m = 0%Z
      ∧ clientesRejeitados m = 0%Z
      ∧ taxaAprovacao m = 0
      ∧ taxaInadimplencia m = 0
      ∧ receitaTotal m = 0
      ∧ perdasInadimplencia m = 0
      ∧ saldoLiquido m = 0
      ∧ oportunidadesPerdidas m = 0
      ∧ perdasEvitadas m = 0
      ∧ valorMedio m = PyFin 0.
Proof.
  cbv zeta.
  split; [apply reach_init|].
  split; [left; reflexivity|].
  apply (empty_population_metrics ticking_clock stable_argsort
           (DataService_init None) (1 # 2)).
  - apply reach_init.
  - left. reflexivity.
Defined.

(** C6, as stated, fails when the table is missing: the reply has the two
    fields [optimal_threshold] and [objective] only. *)
Lemma optimize_threshold_unavailable_reply :
  ∃ r s',
    optimize_threshold ticking_clock "profit" (DataService_init None)
      = (Ok r, s')
    ∧ keys r = ["optimal_threshold"; "objective"]
    ∧ ("best_value" ∉ keys r)
    ∧ ("metrics" ∉ keys r)
    ∧ ("all_results" ∉ keys r).
Proof.
  do 2 eexists. split; [reflexivity|]. cbn.
  split; [reflexivity|].
  repeat split; intros Hin;
    repeat (apply elem_of_cons in Hin as [Hin|Hin]; [discriminate|]);
    apply elem_of_nil in Hin; contradiction.
Qed.

Lemma optimize_threshold_reply_witness :
  let s := DataService_init (Some example_file) in
  reachable ticking_clock stable_argsort s
  ∧ ∃ r s',
      optimize_threshold ticking_clock "risk" s = (Ok r, s')
      ∧ objective r = "risk"
      ∧ keys r = ["optimal_threshold"; "objective"; "best_value";
                  "metrics"; "all_results"]
      ∧ ∃ bt v m table,
          optimal_threshold r = py_round bt 2
          ∧ best_value r = Some (PyFin v)
          ∧ metrics r = Some m
          ∧ metrics_result (Some example_population) bt m
          ∧ all_results r = Some table
          ∧ optimal_threshold r ∈ map op_threshold table
          ∧ Forall2 (entry_ok (Some example_population) "risk")
              (np_linspace (1 # 10) (9 # 10) 9) table.
Proof.
  cbv zeta.
  split; [apply reach_init|].
  exact (optimize_threshold_reply ticking_clock stable_argsort
           (DataService_init (Some example_file)) "risk"
           (reach_init ticking_clock stable_argsort (Some example_file))).
Defined.

Lemma classify_risk_bacen_never_H_witness :
  0 <= 1 ∧ 1 <= 1
  ∧ nivel_bacen (classify_risk_bacen 1)
    ∈ ["AA"; "A"; "B"; "C"; "D"; "E"; "F"; "G"]
  ∧ nivel_bacen (classify_risk_bacen 1) ≠ "H"
  ∧ ∀ q, nivel_bacen (classify_risk_bacen q) = "H" ↔ 100 < q * 100.
Proof.
  split; [discriminate|]. split; [discriminate|].
  apply (classify_risk_bacen_never_H 1); discriminate.
Defined.

(* ------------------------------------------------------------------ *)
(** * Further properties *)

(** ** The threshold policy *)

(** X1: [classify_risk_simple], [_get_recommendation] and the tiers of
    [classify_risk_bacen] cut the probabilities at the same places: the
    dashboard's "Aprovado" is the recommendation "Aprovar" and the tiers
    AA to C, "Atenção" is "Revisar" and tier D, "Reprovado" is "Negar"
    and the tiers E to H. *)
Theorem classify_risk_simple_agrees (p : Q) :
  (classify_risk_simple p = "Aprovado - Baixo Risco"
   ↔ _get_recommendation p = "Aprovar")
  ∧ (classify_risk_simple p = "Atenção - Risco Moderado"
     ↔ _get_recommendation p = "Revisar")
  ∧ (classify_risk_simple p = "Reprovado - Alto Risco"
     ↔ _get_recommendation p = "Negar")
  ∧ (classify_risk_simple p = "Aprovado - Baixo Risco"
     ↔ nivel_bacen (classify_risk_bacen p) ∈ ["AA"; "A"; "B"; "C"])
  ∧ (classify_risk_simple p = "Atenção - Risco Moderado"
     ↔ nivel_bacen (classify_risk_bacen p) = "D")
  ∧ (classify_risk_simple p = "Reprovado - Alto Risco"
     ↔ nivel_bacen (classify_risk_bacen p) ∈ ["E"; "F"; "G"; "H"]).
Proof.
  unfold classify_risk_simple, _get_recommendation, classify_risk_bacen.
  percent_tests p.
  split_tests; cbn [nivel_bacen]; try lra;
    repeat split; intros H; try reflexivity; try discriminate;
    try (repeat constructor; fail);
    repeat (apply elem_of_cons in H as [H|H]; [discriminate|]);
    apply elem_of_nil in H; contradiction.
Qed.

(** X2: the provisioning percentage of [classify_risk_bacen] never
    decreases when the probability increases: a riskier applicant is
    never put in a better tier. *)
Theorem provisao_monotone (p1 p2 : Q) :
  p1 <= p2 →
  provisao (classify_risk_bacen p1) <= provisao (classify_risk_bacen p2).
Proof.
  intros Hle. unfold classify_risk_bacen.
  split_tests; cbn [provisao]; lra.
Qed.

(** X3: the decision written in the dictionary of [classify_risk_bacen]
    is "Negar" exactly when [_get_recommendation] says "Negar" (above
    30 %), but it is "Aprovar" only up to 3 %: between 3 % and 10 % (tier
    C) the dictionary says "Revisar" while the recommendation is
    "Aprovar". *)
Theorem decisao_versus_recommendation (p : Q) :
  (decisao (classify_risk_bacen p) = "Negar" ↔ _get_recommendation p = "Negar")
  ∧ (decisao (classify_risk_bacen p) = "Aprovar" ↔ p <= 3 # 100)
  ∧ (decisao (classify_risk_bacen p) = "Aprovar"
     → _get_recommendation p = "Aprovar")
  ∧ (_get_recommendation p = "Aprovar"
     ∧ decisao (classify_risk_bacen p) = "Revisar"
     ↔ 3 # 100 < p ∧ p <= 10 # 100).
Proof.
  unfold _get_recommendation, classify_risk_bacen.
  percent_tests p.
  split_tests; cbn [decisao]; try lra;
    repeat split; intros;
    repeat match goal with H : _ ∧ _ |- _ => destruct H end;
    try lra; try reflexivity; try discriminate;
    split; (lra || reflexivity || discriminate).
Qed.

(** X4: [_calculate_confidence] is between 0.6 and 1 for every
    probability; it is at least 0.8 exactly outside the middle band
    (probability below 0.2 or above 0.5) and it is 1 from 0.7 up. *)
Theorem confidence_bounds (p : Q) :
  60 # 100 <= _calculate_confidence p
  ∧ _calculate_confidence p <= 1
  ∧ (80 # 100 <= _calculate_confidence p ↔ p < 20 # 100 ∨ 50 # 100 < p)
  ∧ (70 # 100 <= p → _calculate_confidence p == 1).
Proof.
  unfold _calculate_confidence, py_min.
  destruct (Qlt_le_dec p (20 # 100)) as [H1|H1].
  - destruct (Qlt_le_dec 1 _) as [H3|H3]; repeat split; intros; lra.
  - destruct (Qlt_le_dec (50 # 100) p) as [H2|H2].
    + destruct (Qlt_le_dec 1 _) as [H3|H3]; repeat split; intros; lra.
    + assert (Ha : 0 <= Qabs (p - (35 # 100))) by apply Qabs_nonneg.
      assert (Hb : Qabs (p - (35 # 100)) <= 15 # 100).
      { apply Qabs_Qle_condition. split; lra. }
      destruct (Qlt_le_dec 1 _) as [H3|H3]; repeat split; intros; lra.
Qed.

(** ** The figures of one snapshot *)

Lemma metrics_at_money (df : list Row) (t : Q) (m : Metrics) :
  df ≠ [] → metrics_at df t = Ok m →
  let aprovado_mask := col_ge (map score_normalizado df) t in
  let inad1 := col_eq (map inadimplente df) 1 in
  let inad0 := col_eq (map inadimplente df) 0 in
  receitaTotal m
  = (if (0 <? mask_sum aprovado_mask)%Z
     then sum_Q (loc aprovado_mask (map ticket df)) else 0)
  ∧ perdasInadimplencia m
    = sum_Q (loc (mask_and aprovado_mask inad1) (map ticket df))
  ∧ saldoLiquido m = receitaTotal m - perdasInadimplencia m
  ∧ oportunidadesPerdidas m
    = sum_Q (loc (mask_and (mask_not aprovado_mask) inad0) (map ticket df))
  ∧ perdasEvitadas m
    = sum_Q (loc (mask_and (mask_not aprovado_mask) inad1) (map ticket df))
  ∧ taxaInadimplencia m = py_round (default_rate df t) 1
  ∧ valorMedio m = mean (map ticket df).
Proof.
  intros Hne Hm. cbv zeta.
  unfold metrics_at, compute_metrics in Hm.
  pose proof (len_pos _ Hne) as Htot.
  assert (Hlt : (0 <? len df)%Z = true) by (apply Z.ltb_lt; assumption).
  rewrite Hlt, (truediv_ok _ _ (inject_Z_nonzero _ Htot)) in Hm.
  cbn [mbind result_bind mret result_ret] in Hm.
  unfold default_rate.
  destruct (0 <? mask_sum (col_ge (map score_normalizado df) t))%Z eqn:Hap.
  - apply Z.ltb_lt in Hap.
    rewrite (truediv_ok _ _ (inject_Z_nonzero _ Hap)) in Hm.
    cbn [mbind result_bind mret result_ret] in Hm.
    injection Hm as <-. cbn. repeat split; reflexivity.
  - cbn [mbind result_bind mret result_ret] in Hm.
    injection Hm as <-. cbn. repeat split; reflexivity.
Qed.

Lemma sum_Q_nonneg (l : list Q) : Forall (fun x => 0 <= x) l → 0 <= sum_Q l.
Proof. induction 1; cbn; lra. Qed.

Lemma mask_sum_nonneg (m : Mask) : (0 <= mask_sum m)%Z.
Proof.
  unfold mask_sum. induction m as [|b m IH]; cbn; [lia|]. destruct b; lia.
Qed.

Lemma mask_sum_le_len (m : Mask) : (mask_sum m <= len m)%Z.
Proof.
  unfold mask_sum, len. induction m as [|b m IH]; cbn [map sum_Z length]; [lia|].
  rewrite Nat2Z.inj_succ. destruct b; lia.
Qed.

Lemma col_ge_len (df : list Row) (t : Q) :
  len (col_ge (map score_normalizado df) t) = len df.
Proof. unfold len, col_ge. now rewrite !length_map. Qed.

(** With nobody approved, every sum over approved rows is empty. *)
Lemma no_approved_no_rows {A : Type} (m other : Mask) (col : list A) :
  mask_sum m = 0%Z → loc m col = [] ∧ loc (mask_and m other) col = [].
Proof.
  unfold mask_sum, mask_and.
  revert other col. induction m as [|b m IH]; intros other col H.
  - split; reflexivity.
  - cbn in H. pose proof (mask_sum_nonneg m) as Hm. unfold mask_sum in Hm.
    destruct b; [lia|].
    destruct col as [|x col]; [split; destruct other; reflexivity|].
    destruct (IH [] col ltac:(lia)) as [IH1 _].
    destruct other as [|o other]; cbn; [split; [exact IH1|reflexivity]|].
    destruct (IH other col ltac:(lia)) as [_ IH2]. split; assumption.
Qed.


(** Losses are part of the revenue. *)
Lemma losses_within_revenue (df : list Row) (t : Q) :
  nonneg_tickets df →
  let aprovado_mask := col_ge (map score_normalizado df) t in
  let inad1 := col_eq (map inadimplente df) 1 in
  0 <= sum_Q (loc (mask_and aprovado_mask inad1) (map ticket df))
  ∧ sum_Q (loc (mask_and aprovado_mask inad1) (map ticket df))
    <= sum_Q (loc aprovado_mask (map ticket df)).
Proof.
  intros Hpos. cbv zeta. unfold mask_and, col_ge, col_eq.
  induction Hpos as [|r df Hr _ IH]; [cbn; lra|].
  cbn [map zip_with loc sum_Q].
  destruct (Qle_bool t (score_normalizado r));
    destruct (inadimplente r =? 1)%Z; cbn [andb loc sum_Q]; lra.
Qed.

Lemma approved_defaulters_bounds (df : list Row) (t : Q) :
  binary_outcomes df →
  let aprovado_mask := col_ge (map score_normalizado df) t in
  (0 <= sum_Z (loc aprovado_mask (map inadimplente df)) <= mask_sum aprovado_mask)%Z.
Proof.
  intros Hbin. cbv zeta. unfold mask_sum, col_ge.
  induction Hbin as [|r df Hr _ IH]; [cbn; lia|].
  cbn [map loc sum_Z].
  destruct (Qle_bool t (score_normalizado r)); cbn [loc sum_Z]; [|lia].
  destruct Hr as [Hr|Hr]; rewrite Hr; lia.
Qed.

Lemma py_round_bounds (x lo hi : Q) (n : nat) :
  py_round lo n == lo → py_round hi n == hi →
  lo <= x → x <= hi → lo <= py_round x n ∧ py_round x n <= hi.
Proof.
  intros Hlo Hhi H1 H2.
  pose proof (py_round_mono lo x n H1).
  pose proof (py_round_mono x hi n H2).
  split; lra.
Qed.

Lemma approval_rate_bounds (df : list Row) (t : Q) :
  df ≠ [] →
  0 <= approval_rate df (len df) t ∧ approval_rate df (len df) t <= 100.
Proof.
  intros Hne. unfold approval_rate.
  pose proof (len_pos _ Hne) as Htot.
  pose proof (mask_sum_nonneg (col_ge (map score_normalizado df) t)) as H0.
  pose proof (mask_sum_le_len (col_ge (map score_normalizado df) t)) as H1.
  rewrite col_ge_len in H1.
  assert (Hd : 0 < inject_Z (len df)).
  { change 0 with (inject_Z 0). rewrite <- Zlt_Qlt. exact Htot. }
  rewrite Zle_Qle in H0, H1. change (inject_Z 0) with 0 in H0.
  set (a := inject_Z (mask_sum (col_ge (map score_normalizado df) t))) in *.
  set (d := inject_Z (len df)) in *.
  assert (Hq0 : 0 <= a / d).
  { apply Qle_shift_div_l; [exact Hd|lra]. }
  assert (Hq1 : a / d <= 1).
  { apply Qle_shift_div_r; [exact Hd|lra]. }
  split; lra.
Qed.

Lemma default_rate_bounds (df : list Row) (t : Q) :
  binary_outcomes df →
  0 <= default_rate df t ∧ default_rate df t <= 100.
Proof.
  intros Hbin. unfold default_rate.
  destruct (0 <? mask_sum (col_ge (map score_normalizado df) t))%Z eqn:Hap;
    [|split; lra].
  apply Z.ltb_lt in Hap.
  destruct (approved_defaulters_bounds df t Hbin) as [H0 H1].
  assert (Hd : 0 < inject_Z (mask_sum (col_ge (map score_normalizado df) t))).
  { change 0 with (inject_Z 0). rewrite <- Zlt_Qlt. exact Hap. }
  rewrite Zle_Qle in H0, H1. change (inject_Z 0) with 0 in H0.
  set (a := inject_Z (sum_Z _)) in *.
  set (d := inject_Z (mask_sum _)) in *.
  assert (Hq0 : 0 <= a / d).
  { apply Qle_shift_div_l; [exact Hd|lra]. }
  assert (Hq1 : a / d <= 1).
  { apply Qle_shift_div_r; [exact Hd|lra]. }
  split; lra.
Qed.

Section FurtherServiceProofs.

Variable time_time : nat → Q.
Variable np_argsort : list Q → list nat.

(** What [get_metrics] gives in a reachable state with the table loaded:
    the empty snapshot of an empty table, otherwise the computation at a
    threshold of the same cache key. *)
Lemma get_metrics_snapshot (s : DataService) (df : list Row) (t : Q) :
  reachable time_time np_argsort s →
  df_preprocessed s = Some df →
  ∃ m s',
    get_metrics time_time t s = (Ok m, s')
    ∧ ((df = [] ∧ m = _get_empty_metrics)
       ∨ (df ≠ [] ∧ ∃ t', round_key t' = round_key t ∧ metrics_at df t' = Ok m)).
Proof.
  intros Hreach Hdf.
  pose proof (reachable_Inv time_time np_argsort s Hreach) as HI.
  rewrite Hdf in HI.
  destruct (get_metrics_hoare time_time _ t s HI) as (m & s' & Hrun & _ & Hm).
  exists m, s'. split; [exact Hrun|].
  destruct df as [|r df]; [left; auto|].
  right. split; [discriminate|exact Hm].
Qed.


(** X6: with no negative ticket, default losses are part of the revenue
    of the approved, so the net balance [saldoLiquido] that [get_metrics]
    returns is never negative. *)
Theorem net_balance_nonneg (s : DataService) (df : list Row) (t : Q) :
  reachable time_time np_argsort s →
  df_preprocessed s = Some df →
  nonneg_tickets df →
  ∃ m s',
    get_metrics time_time t s = (Ok m, s')
    ∧ 0 <= perdasInadimplencia m
    ∧ perdasInadimplencia m <= receitaTotal m
    ∧ saldoLiquido m == receitaTotal m - perdasInadimplencia m
    ∧ 0 <= saldoLiquido m.
Proof.
  intros Hreach Hdf Hpos.
  destruct (get_metrics_snapshot s df t Hreach Hdf) as (m & s' & Hrun & Hm).
  exists m, s'. split; [exact Hrun|].
  destruct Hm as [[-> ->]|(Hne & t' & _ & Hm)].
  { cbn. repeat split; lra. }
  destruct (metrics_at_money df t' m Hne Hm) as (Hrec & Hper & -> & _).
  rewrite Hrec, Hper.
  destruct (losses_within_revenue df t' Hpos) as [H0 H1].
  destruct (0 <? mask_sum (col_ge (map score_normalizado df) t'))%Z eqn:Hap.
  - repeat split; lra.
  - apply Z.ltb_ge in Hap.
    pose proof (mask_sum_nonneg (col_ge (map score_normalizado df) t')) as Hn.
    destruct (no_approved_no_rows (col_ge (map score_normalizado df) t')
                (col_eq (map inadimplente df) 1) (map ticket df) ltac:(lia))
      as [_ Hnone].
    rewrite Hnone. cbn. repeat split; lra.
Qed.

(** X7: the rates of a snapshot are percentages: [taxaAprovacao] is
    between 0 and 100, and so is [taxaInadimplencia] when the outcomes
    are 0 or 1. *)
Theorem rates_are_percentages (s : DataService) (df : list Row) (t : Q) :
  reachable time_time np_argsort s →
  df_preprocessed s = Some df →
  ∃ m s',
    get_metrics time_time t s = (Ok m, s')
    ∧ 0 <= taxaAprovacao m ∧ taxaAprovacao m <= 100
    ∧ (binary_outcomes df →
       0 <= taxaInadimplencia m ∧ taxaInadimplencia m <= 100).
Proof.
  intros Hreach Hdf.
  destruct (get_metrics_snapshot s df t Hreach Hdf) as (m & s' & Hrun & Hm).
  exists m, s'. split; [exact Hrun|].
  destruct Hm as [[-> ->]|(Hne & t' & _ & Hm)].
  { cbn. repeat split; lra. }
  destruct (metrics_at_fields df t' m Hne Hm)
    as (_ & _ & _ & -> & _).
  destruct (metrics_at_money df t' m Hne Hm) as (_ & _ & _ & _ & _ & -> & _).
  destruct (approval_rate_bounds df t' Hne) as [A0 A1].
  destruct (py_round_bounds _ 0 100 1 ltac:(reflexivity) ltac:(reflexivity) A0 A1)
    as [B0 B1].
  split; [exact B0|]. split; [exact B1|].
  intros Hbin. destruct (default_rate_bounds df t' Hbin) as [D0 D1].
  apply (py_round_bounds _ 0 100 1); try reflexivity; assumption.
Qed.

(** Two calls of [get_metrics] from one state, at ordered thresholds, are
    answered by computations at ordered thresholds. *)
Lemma get_metrics_pair (s : DataService) (df : list Row) (t1 t2 : Q) :
  reachable time_time np_argsort s →
  df_preprocessed s = Some df → df ≠ [] → t1 <= t2 →
  ∃ m1 m2 s1 s2 t1' t2',
    get_metrics time_time t1 s = (Ok m1, s1)
    ∧ get_metrics time_time t2 s = (Ok m2, s2)
    ∧ metrics_at df t1' = Ok m1
    ∧ metrics_at df t2' = Ok m2
    ∧ t1' <= t2'.
Proof.
  intros Hreach Hdf Hne Ht.
  pose proof (reachable_Inv time_time np_argsort s Hreach) as HI.
  rewrite Hdf in HI.
  destruct (get_metrics_hoare time_time _ t1 s HI) as (m1 & s1 & Hrun1 & _ & Hm1).
  destruct (get_metrics_hoare time_time _ t2 s HI) as (m2 & s2 & Hrun2 & _ & Hm2).
  exists m1, m2, s1, s2.
  destruct df as [|r df]; [congruence|]. cbn in Hm1, Hm2.
  destruct Hm1 as (u1 & Hk1 & Hu1). destruct Hm2 as (u2 & Hk2 & Hu2).
  destruct (decide (round_key t1 = round_key t2)) as [Hk|Hk].
  - pose proof (get_metrics_eval time_time _ t1 s HI Hne) as E1.
    pose proof (get_metrics_eval time_time _ t2 s HI Hne) as E2.
    rewrite Hrun1 in E1. rewrite Hrun2 in E2. cbn [fst] in E1, E2.
    rewrite Hk in E1.
    destruct (live_entry time_time (metrics_cache s !! round_key t2) s) as [m|].
    + injection E1 as ->. injection E2 as ->.
      exists u1, u1. repeat split; auto. lra.
    + exists t1, t2. repeat split; auto.
  - exists u1, u2. repeat split; auto.
    destruct (Qlt_le_dec u2 u1) as [Hlt|Hle]; [exfalso|exact Hle].
    pose proof (round_key_mono t1 t2 Ht).
    pose proof (round_key_mono u2 u1 (Qlt_le_weak _ _ Hlt)).
    lia.
Qed.

Lemma approved_sum_anti (df : list Row) (t1 t2 : Q) :
  nonneg_tickets df → t1 <= t2 →
  sum_Q (loc (col_ge (map score_normalizado df) t2) (map ticket df))
  <= sum_Q (loc (col_ge (map score_normalizado df) t1) (map ticket df)).
Proof.
  intros Hpos Ht. unfold col_ge.
  induction Hpos as [|r df Hr _ IH]; [cbn; lra|].
  cbn [map loc].
  destruct (Qle_bool t2 (score_normalizado r)) eqn:H2.
  - apply Qle_bool_iff in H2.
    assert (H1 : Qle_bool t1 (score_normalizado r) = true)
      by (apply Qle_bool_iff; lra).
    rewrite H1. cbn [sum_Q]. lra.
  - destruct (Qle_bool t1 (score_normalizado r)); cbn [sum_Q]; lra.
Qed.

Lemma rejected_sum_mono (df : list Row) (t1 t2 : Q) (v : Z) :
  nonneg_tickets df → t1 <= t2 →
  let rejected t :=
    mask_and (mask_not (col_ge (map score_normalizado df) t))
             (col_eq (map inadimplente df) v) in
  sum_Q (loc (rejected t1) (map ticket df))
  <= sum_Q (loc (rejected t2) (map ticket df)).
Proof.
  intros Hpos Ht. cbv zeta. unfold mask_and, mask_not, col_ge, col_eq.
  induction Hpos as [|r df Hr _ IH]; [cbn; lra|].
  cbn [map zip_with loc].
  destruct (Qle_bool t2 (score_normalizado r)) eqn:H2.
  - apply Qle_bool_iff in H2.
    assert (H1 : Qle_bool t1 (score_normalizado r) = true)
      by (apply Qle_bool_iff; lra).
    rewrite H1. cbn [negb andb loc sum_Q]. lra.
  - destruct (Qle_bool t1 (score_normalizado r));
      destruct (inadimplente r =? v)%Z; cbn [negb andb loc sum_Q]; lra.
Qed.

Lemma revenue_anti (df : list Row) (t1 t2 : Q) (m1 m2 : Metrics) :
  df ≠ [] → nonneg_tickets df → t1 <= t2 →
  metrics_at df t1 = Ok m1 → metrics_at df t2 = Ok m2 →
  receitaTotal m2 <= receitaTotal m1.
Proof.
  intros Hne Hpos Ht H1 H2.
  destruct (metrics_at_money df t1 m1 Hne H1) as (-> & _).
  destruct (metrics_at_money df t2 m2 Hne H2) as (-> & _).
  pose proof (col_ge_anti (map score_normalizado df) t1 t2 Ht) as Hc.
  pose proof (approved_sum_anti df t1 t2 Hpos Ht) as Hs.
  destruct (0 <? mask_sum (col_ge (map score_normalizado df) t2))%Z eqn:E2.
  - apply Z.ltb_lt in E2.
    assert (E1 : (0 <? mask_sum (col_ge (map score_normalizado df) t1))%Z = true)
      by (apply Z.ltb_lt; lia).
    rewrite E1. exact Hs.
  - destruct (0 <? mask_sum (col_ge (map score_normalizado df) t1))%Z; [|lra].
    apply sum_Q_nonneg.
    clear -Hpos. unfold col_ge.
    induction Hpos as [|r df Hr _ IH]; [constructor|].
    cbn [map loc]. destruct (Qle_bool t1 (score_normalizado r)); auto.
Qed.

(** X8: from one state of the service, a higher threshold never approves
    more: [clientesAprovados] does not increase and [clientesRejeitados]
    does not decrease; with no negative ticket, [receitaTotal] does not
    increase and [perdasEvitadas] and [oportunidadesPerdidas] do not
    decrease. *)
Theorem stricter_threshold_approves_less (s : DataService) (df : list Row)
    (t1 t2 : Q) :
  reachable time_time np_argsort s →
  df_preprocessed s = Some df →
  t1 <= t2 →
  ∃ m1 m2 s1 s2,
    get_metrics time_time t1 s = (Ok m1, s1)
    ∧ get_metrics time_time t2 s = (Ok m2, s2)
    ∧ (clientesAprovados m2 <= clientesAprovados m1)%Z
    ∧ (clientesRejeitados m1 <= clientesRejeitados m2)%Z
    ∧ (nonneg_tickets df →
       receitaTotal m2 <= receitaTotal m1
       ∧ perdasEvitadas m1 <= perdasEvitadas m2
       ∧ oportunidadesPerdidas m1 <= oportunidadesPerdidas m2).
Proof.
  intros Hreach Hdf Ht.
  destruct (decide (df = [])) as [->|Hne].
  { destruct (get_metrics_snapshot s [] t1 Hreach Hdf) as (m1 & s1 & R1 & H1).
    destruct (get_metrics_snapshot s [] t2 Hreach Hdf) as (m2 & s2 & R2 & H2).
    exists m1, m2, s1, s2.
    destruct H1 as [[_ ->]|[H1 _]]; [|congruence].
    destruct H2 as [[_ ->]|[H2 _]]; [|congruence].
    cbn. repeat split; auto; try lia; lra. }
  destruct (get_metrics_pair s df t1 t2 Hreach Hdf Hne Ht)
    as (m1 & m2 & s1 & s2 & u1 & u2 & R1 & R2 & H1 & H2 & Hu).
  exists m1, m2, s1, s2. split; [exact R1|]. split; [exact R2|].
  destruct (metrics_at_fields df u1 m1 Hne H1) as (A1 & B1 & _).
  destruct (metrics_at_fields df u2 m2 Hne H2) as (A2 & B2 & _).
  pose proof (col_ge_anti (map score_normalizado df) u1 u2 Hu) as Hc.
  split; [rewrite A1, A2; exact Hc|].
  split; [rewrite B1, B2, A1, A2; lia|].
  intros Hpos.
  split; [exact (revenue_anti df u1 u2 m1 m2 Hne Hpos Hu H1 H2)|].
  destruct (metrics_at_money df u1 m1 Hne H1) as (_ & _ & _ & -> & -> & _).
  destruct (metrics_at_money df u2 m2 Hne H2) as (_ & _ & _ & -> & -> & _).
  split; [apply (rejected_sum_mono df u1 u2 1 Hpos Hu)
         |apply (rejected_sum_mono df u1 u2 0 Hpos Hu)].
Qed.

Lemma py_round_comp (x y : Q) (n : nat) : x == y → py_round x n = py_round y n.
Proof.
  intros Hxy. unfold py_round.
  rewrite (round_half_even_comp (x * pow10 n) (y * pow10 n)); [reflexivity|].
  now rewrite Hxy.
Qed.

Lemma all_approved (df : list Row) (t : Q) :
  Forall (fun r => t <= score_normalizado r) df →
  let aprovado_mask := col_ge (map score_normalizado df) t in
  mask_sum aprovado_mask = len df
  ∧ ∀ (other : Mask) (col : list Q),
      loc (mask_and (mask_not aprovado_mask) other) col = [].
Proof.
  intros Hall. cbv zeta. unfold mask_sum, mask_and, mask_not, col_ge, len.
  induction Hall as [|r df Hr _ [IH1 IH2]]; [split; [reflexivity|]|].
  - intros other col. destruct other; reflexivity.
  - apply Qle_bool_iff in Hr. cbn [map sum_Z length]. rewrite Hr.
    rewrite Nat2Z.inj_succ. split; [lia|].
    intros [|o other] [|x col]; cbn; auto.
Qed.

Lemma none_approved (df : list Row) (t : Q) :
  Forall (fun r => score_normalizado r < t) df →
  mask_sum (col_ge (map score_normalizado df) t) = 0%Z.
Proof.
  intros Hall. unfold mask_sum, col_ge.
  induction Hall as [|r df Hr _ IH]; [reflexivity|].
  cbn [map sum_Z].
  destruct (Qle_bool t (score_normalizado r)) eqn:E.
  - apply Qle_bool_iff in E. lra.
  - lia.
Qed.

(** X9: a call of [get_metrics] that is not answered from the cache, on a
    table with rows: at a threshold no score is below, every record is
    approved (approval rate 100, nothing missed, nothing avoided); at a
    threshold above every score, no record is approved and the rates,
    the revenue and the net balance are 0. *)
Theorem threshold_extremes (s : DataService) (df : list Row) (t : Q) :
  reachable time_time np_argsort s →
  df_preprocessed s = Some df →
  df ≠ [] →
  live_entry time_time (metrics_cache s !! round_key t) s = None →
  ∃ m s',
    get_metrics time_time t s = (Ok m, s')
    ∧ (Forall (fun r => t <= score_normalizado r) df →
       clientesAprovados m = len df
       ∧ clientesRejeitados m = 0%Z
       ∧ taxaAprovacao m == 100
       ∧ oportunidadesPerdidas m == 0
       ∧ perdasEvitadas m == 0)
    ∧ (Forall (fun r => score_normalizado r < t) df →
       clientesAprovados m = 0%Z
       ∧ clientesRejeitados m = len df
       ∧ taxaAprovacao m == 0
       ∧ taxaInadimplencia m == 0
       ∧ receitaTotal m == 0
       ∧ saldoLiquido m == 0).
Proof.
  intros Hreach Hdf Hne Hmiss.
  pose proof (reachable_Inv time_time np_argsort s Hreach) as HI.
  rewrite Hdf in HI.
  destruct (get_metrics_hoare time_time _ t s HI) as (m & s' & Hrun & _).
  exists m, s'. split; [exact Hrun|].
  pose proof (get_metrics_eval time_time _ t s HI Hne) as Heval.
  rewrite Hrun, Hmiss in Heval. cbn [fst] in Heval. symmetry in Heval.
  destruct (metrics_at_fields df t m Hne Heval) as (Hap & Hrej & _ & Hrate & _).
  destruct (metrics_at_money df t m Hne Heval)
    as (Hrec & Hper & Hsal & Hop & Hev & Hdef & _).
  pose proof (len_pos _ Hne) as Htot.
  split.
  - intros Hall. destruct (all_approved df t Hall) as [Hcount Hnone].
    rewrite Hrej, Hap, Hcount, Hrate, Hop, Hev, !Hnone.
    split; [reflexivity|]. split; [lia|].
    split; [|split; reflexivity].
    rewrite (py_round_comp _ 100); [reflexivity|].
    unfold approval_rate. rewrite Hcount. field.
    apply inject_Z_nonzero, Htot.
  - intros Hall. pose proof (none_approved df t Hall) as Hcount.
    destruct (no_approved_no_rows (col_ge (map score_normalizado df) t)
                (col_eq (map inadimplente df) 1) (map ticket df) Hcount)
      as [_ Hnone].
    rewrite Hrej, Hap, Hcount, Hrate, Hsal, Hrec, Hper, Hdef, Hnone.
    unfold default_rate, approval_rate. rewrite Hcount. cbn [Z.ltb Z.compare].
    split; [reflexivity|]. split; [lia|].
    split; [|repeat split; reflexivity].
    rewrite (py_round_comp _ 0); [reflexivity|].
    unfold Qdiv. change (inject_Z 0) with 0. ring.
Qed.

(** ** The cache of the service *)

Lemma get_metrics_compute_state (df : list Row) (t : Q) (s : DataService) :
  Inv (Some df) s → df ≠ [] →
  ∃ m,
    metrics_at df t = Ok m
    ∧ (total_clientes ← getattr_total_clientes;
       valor_medio ← getattr_valor_medio;
       result ← lift_result (compute_metrics df total_clientes valor_medio t);
       _save_to_cache_metrics time_time (round_key t) result;;
       mret result) s
      = (Ok m,
         set_metrics_cache
           (<[round_key t := (m, time_time (time_calls s))]> (metrics_cache s))
           (set_time_calls (S (time_calls s)) s)).
Proof.
  intros HI Hne.
  destruct (inv_attrs _ _ HI df eq_refl) as [Htot Hvm].
  destruct (metrics_at_ok df t Hne) as (m & Hm).
  exists m. split; [exact Hm|].
  unfold getattr_total_clientes, getattr_valor_medio,
    _save_to_cache_metrics, time_time_call, modify_self, lift_result.
  unfold mbind, M_bind, get_self, mret, M_ret.
  rewrite Htot. cbn. rewrite Hvm. cbn.
  unfold metrics_at in Hm. rewrite Hm. cbn. reflexivity.
Qed.

(** After a call on a table with rows, the snapshot returned is the one
    stored under the key of the threshold. *)
Lemma get_metrics_stores (df : list Row) (t : Q) (s s1 : DataService)
    (m : Metrics) :
  Inv (Some df) s → df ≠ [] →
  get_metrics time_time t s = (Ok m, s1) →
  ∃ ts, metrics_cache s1 !! round_key t = Some (m, ts).
Proof.
  intros HI Hne Hrun. unfold get_metrics in Hrun.
  destruct (get_from_cache_run time_time (metrics_cache s !! round_key t) s)
    as (s0 & Hget & Hs0).
  unfold mbind at 1, M_bind at 1, get_self in Hrun.
  rewrite (bind_run _ _ _ _ _ Hget) in Hrun.
  assert (HI0 : Inv (Some df) s0).
  { destruct Hs0; subst s0; [assumption|apply Inv_set_time_calls, HI]. }
  assert (Hcache : metrics_cache s0 = metrics_cache s).
  { destruct Hs0; subst s0; reflexivity. }
  destruct (live_entry time_time (metrics_cache s !! round_key t) s)
    as [m0|] eqn:Hlive.
  - injection Hrun as <- <-.
    destruct (live_entry_lookup time_time _ _ _ Hlive) as (ts & Hentry).
    exists ts. rewrite Hcache. exact Hentry.
  - rewrite (inv_df _ _ HI) in Hrun.
    destruct df as [|r df]; [congruence|]. rewrite len_eqb_cons in Hrun.
    destruct (get_metrics_compute_state (r :: df) t s0 HI0 Hne) as (m' & _ & Hc).
    rewrite Hc in Hrun. injection Hrun as <- <-.
    eexists. cbn. apply lookup_insert_eq.
Qed.

(** X10: on a table with rows, the snapshot [get_metrics] returns stays
    in the cache under the rounded threshold: a later call whose
    threshold rounds to the same two decimals gets that very snapshot
    while less than [_cache_ttl] = 300 seconds have passed since it was
    stored, and a fresh computation at its own threshold from then on. *)
Theorem metrics_cache_lifetime (s : DataService) (df : list Row) (t t' : Q) :
  reachable time_time np_argsort s →
  df_preprocessed s = Some df →
  df ≠ [] →
  round_key t' = round_key t →
  ∃ m s1 ts,
    get_metrics time_time t s = (Ok m, s1)
    ∧ metrics_cache s1 !! round_key t = Some (m, ts)
    ∧ (time_time (time_calls s1) - ts < _cache_ttl →
       (get_metrics time_time t' s1).1 = Ok m)
    ∧ (_cache_ttl <= time_time (time_calls s1) - ts →
       (get_metrics time_time t' s1).1 = metrics_at df t').
Proof.
  intros Hreach Hdf Hne Hk.
  pose proof (reachable_Inv time_time np_argsort s Hreach) as HI.
  rewrite Hdf in HI.
  destruct (get_metrics_hoare time_time _ t s HI) as (m & s1 & Hrun & HI1 & _).
  destruct (get_metrics_stores df t s s1 m HI Hne Hrun) as (ts & Hentry).
  exists m, s1, ts. split; [exact Hrun|]. split; [exact Hentry|].
  pose proof (get_metrics_eval time_time df t' s1 HI1 Hne) as Heval.
  rewrite Hk, Hentry in Heval. cbn [live_entry] in Heval.
  destruct (Qlt_le_dec (time_time (time_calls s1) - ts) _cache_ttl) as [Hl|Hl];
    split; intros H; try exact Heval; lra.
Qed.

Lemma get_confusion_matrix_eval (df : list Row) (t : Q) (s : DataService) :
  Inv (Some df) s →
  (get_confusion_matrix time_time t s).1 =
    match live_entry time_time (confusion_cache s !! round_key t) s with
    | Some c => Ok c
    | None => compute_confusion_matrix df t
    end.
Proof.
  intros HI. unfold get_confusion_matrix.
  destruct (get_from_cache_run time_time (confusion_cache s !! round_key t) s)
    as (s0 & Hget & Hs0).
  unfold mbind at 1, M_bind at 1, get_self.
  rewrite (bind_run _ _ _ _ _ Hget).
  destruct (live_entry time_time (confusion_cache s !! round_key t) s)
    as [c|]; [reflexivity|].
  rewrite (inv_df _ _ HI).
  destruct (compute_confusion_matrix_ok df t) as (c & Hc & _).
  unfold _save_to_cache_confusion, time_time_call, modify_self, lift_result.
  unfold mbind, M_bind, mret, M_ret. rewrite Hc. reflexivity.
Qed.

(** X11: after [clear_cache], the next [get_metrics] and the next
    [get_confusion_matrix] are computed at their own threshold, whatever
    was cached before. *)
Theorem clear_cache_forces_recomputation (s : DataService) (df : list Row)
    (t : Q) :
  reachable time_time np_argsort s →
  df_preprocessed s = Some df →
  df ≠ [] →
  (get_metrics time_time t (clear_cache s).2).1 = metrics_at df t
  ∧ (get_confusion_matrix time_time t (clear_cache s).2).1
    = compute_confusion_matrix df t
  ∧ ∃ m c, metrics_at df t = Ok m ∧ compute_confusion_matrix df t = Ok c.
Proof.
  intros Hreach Hdf Hne.
  pose proof (reachable_Inv time_time np_argsort s Hreach) as HI.
  rewrite Hdf in HI.
  pose proof (Inv_clear_cache _ _ HI) as HI'.
  split; [|split].
  - rewrite (get_metrics_eval time_time df t _ HI' Hne). cbn.
    rewrite lookup_empty. reflexivity.
  - rewrite (get_confusion_matrix_eval df t _ HI'). cbn.
    rewrite lookup_empty. reflexivity.
  - destruct (metrics_at_ok df t Hne) as (m & Hm).
    destruct (compute_confusion_matrix_ok df t) as (c & Hc & _).
    eauto.
Qed.

(** ** Attributes a method leaves alone *)

Lemma stable_ret {B A : Type} (proj : DataService → B) (a : A) :
  stable proj (mret a : M A).
Proof. intros s. reflexivity. Qed.

Lemma stable_lift {B A : Type} (proj : DataService → B) (r : Result A) :
  stable proj (lift_result r).
Proof. intros s. reflexivity. Qed.

Lemma stable_raise {B A : Type} (proj : DataService → B) (e : exn) :
  stable proj (raise e : M A).
Proof. intros s. reflexivity. Qed.

Lemma stable_get_self {B : Type} (proj : DataService → B) :
  stable proj get_self.
Proof. intros s. reflexivity. Qed.

Lemma stable_bind {B A C : Type} (proj : DataService → B) (m : M A)
    (f : A → M C) :
  stable proj m → (∀ a, stable proj (f a)) → stable proj (m ≫= f).
Proof.
  intros Hm Hf s. unfold mbind, M_bind.
  specialize (Hm s). destruct (m s) as [[a|e] s1]; cbn in Hm.
  - rewrite Hf. exact Hm.
  - exact Hm.
Qed.

Lemma stable_modify {B : Type} (proj : DataService → B)
    (f : DataService → DataService) :
  (∀ s, proj (f s) = proj s) → stable proj (modify_self f).
Proof. intros Hf s. apply Hf. Qed.

Lemma stable_time {B : Type} (proj : DataService → B) :
  (∀ n s, proj (set_time_calls n s) = proj s) →
  stable proj (time_time_call time_time).
Proof. intros H s. apply H. Qed.

Lemma stable_get_from_cache {B V : Type} (proj : DataService → B)
    (entry : option (V * Q)) :
  (∀ n s, proj (set_time_calls n s) = proj s) →
  stable proj (_get_from_cache time_time entry).
Proof.
  intros H. destruct entry as [[data ts]|]; cbn [_get_from_cache].
  - apply stable_bind; [apply stable_time, H|].
    intros now. destruct (Qlt_le_dec _ _); apply stable_ret.
  - apply stable_ret.
Qed.

Ltac stable_step :=
  first
    [ apply stable_ret
    | apply stable_lift
    | apply stable_raise
    | apply stable_get_self
    | apply stable_get_from_cache; intros; reflexivity
    | apply stable_time; intros; reflexivity
    | apply stable_modify; intros; reflexivity
    | apply stable_bind; [|intros ?]
    | match goal with
      | |- stable _ (match ?x with _ => _ end) => destruct x
      | |- stable _ (if ?x then _ else _) => destruct x
      | |- stable _ (let '(_, _) := ?x in _) => destruct x
      end ].

Lemma stable_get_metrics {B : Type} (proj : DataService → B) (t : Q) :
  (∀ n s, proj (set_time_calls n s) = proj s) →
  (∀ c s, proj (set_metrics_cache c s) = proj s) →
  stable proj (get_metrics time_time t).
Proof.
  intros H1 H2.
  assert (Htime : stable proj (time_time_call time_time))
    by (apply stable_time, H1).
  assert (Hget : ∀ V (e : option (V * Q)),
             stable proj (_get_from_cache time_time e))
    by (intros; apply stable_get_from_cache, H1).
  unfold get_metrics, getattr_total_clientes, getattr_valor_medio,
    _save_to_cache_metrics.
  repeat first
    [ apply Hget | apply Htime
    | apply stable_modify; intros; apply H2
    | stable_step ].
Qed.

Lemma stable_get_confusion_matrix {B : Type} (proj : DataService → B) (t : Q) :
  (∀ n s, proj (set_time_calls n s) = proj s) →
  (∀ c s, proj (set_confusion_cache c s) = proj s) →
  stable proj (get_confusion_matrix time_time t).
Proof.
  intros H1 H2.
  assert (Htime : stable proj (time_time_call time_time))
    by (apply stable_time, H1).
  assert (Hget : ∀ V (e : option (V * Q)),
             stable proj (_get_from_cache time_time e))
    by (intros; apply stable_get_from_cache, H1).
  unfold get_confusion_matrix, _save_to_cache_confusion.
  repeat first
    [ apply Hget | apply Htime
    | apply stable_modify; intros; apply H2
    | stable_step ].
Qed.

Lemma stable_sensitivity_loop {B : Type} (proj : DataService → B)
    (thresholds : list Q) :
  (∀ n s, proj (set_time_calls n s) = proj s) →
  (∀ c s, proj (set_metrics_cache c s) = proj s) →
  ∀ results, stable proj (sensitivity_loop time_time thresholds results).
Proof.
  intros H1 H2.
  induction thresholds as [|t rest IH]; intros results; cbn [sensitivity_loop].
  - apply stable_ret.
  - apply stable_bind; [apply stable_get_metrics; assumption|].
    intros m. apply IH.
Qed.

Lemma stable_get_threshold_sensitivity {B : Type} (proj : DataService → B) :
  (∀ n s, proj (set_time_calls n s) = proj s) →
  (∀ c s, proj (set_metrics_cache c s) = proj s) →
  (∀ c s, proj (set_sensitivity_cache c s) = proj s) →
  stable proj (get_threshold_sensitivity time_time).
Proof.
  intros H1 H2 H3.
  assert (Htime : stable proj (time_time_call time_time))
    by (apply stable_time, H1).
  assert (Hget : ∀ V (e : option (V * Q)),
             stable proj (_get_from_cache time_time e))
    by (intros; apply stable_get_from_cache, H1).
  unfold get_threshold_sensitivity, _save_to_cache_sensitivity.
  repeat first
    [ apply Hget | apply Htime
    | apply stable_sensitivity_loop; assumption
    | apply stable_modify; intros; apply H3
    | stable_step ].
Qed.

Lemma stable_optimize_loop {B : Type} (proj : DataService → B)
    (objective : string) (thresholds : list Q) :
  (∀ n s, proj (set_time_calls n s) = proj s) →
  (∀ c s, proj (set_metrics_cache c s) = proj s) →
  ∀ bt bv results,
    stable proj (optimize_loop time_time objective thresholds bt bv results).
Proof.
  intros H1 H2.
  induction thresholds as [|t rest IH]; intros bt bv results;
    cbn [optimize_loop].
  - apply stable_ret.
  - apply stable_bind; [apply stable_get_metrics; assumption|].
    intros m. cbv zeta. destruct (gt_pyfloat _ _); apply IH.
Qed.

Lemma stable_optimize_threshold {B : Type} (proj : DataService → B)
    (objective : string) :
  (∀ n s, proj (set_time_calls n s) = proj s) →
  (∀ c s, proj (set_metrics_cache c s) = proj s) →
  stable proj (optimize_threshold time_time objective).
Proof.
  intros H1 H2. unfold optimize_threshold.
  apply stable_bind; [apply stable_get_self|]. intros self.
  destruct (df_preprocessed self); [|apply stable_ret].
  apply stable_bind; [apply stable_optimize_loop; assumption|].
  intros [[bt bv] results].
  apply stable_bind; [apply stable_get_metrics; assumption|].
  intros m. apply stable_ret.
Qed.

(** ** The memo of the ROC curve *)

Lemma get_roc_curve_data_memo_hit (s : DataService) (r : RocCurve) :
  roc_lru s = Some r →
  get_roc_curve_data time_time np_argsort s = (Ok r, s).
Proof.
  intros H. unfold get_roc_curve_data.
  unfold mbind at 1, M_bind at 1, get_self. rewrite H. reflexivity.
Qed.

Lemma get_roc_curve_data_fills_memo (s s1 : DataService) (r : RocCurve) :
  get_roc_curve_data time_time np_argsort s = (Ok r, s1) →
  roc_lru s1 = Some r.
Proof.
  unfold get_roc_curve_data.
  unfold mbind at 1, M_bind at 1, get_self.
  destruct (roc_lru s) as [r0|] eqn:Hlru.
  - intros [= <- <-]. exact Hlru.
  - unfold mbind, M_bind.
    destruct (get_roc_curve_data_body time_time np_argsort s) as [[r'|e] s'].
    + cbn. intros [= <- <-]. reflexivity.
    + intros [=].
Qed.

Lemma roc_lru_run_call (c : Call) (s : DataService) (r : RocCurve) :
  roc_lru s = Some r → roc_lru (run_call time_time np_argsort c s) = Some r.
Proof.
  intros H. destruct c as [t|t| | |o|]; cbn [run_call].
  - rewrite (stable_get_metrics roc_lru t); auto.
  - rewrite (stable_get_confusion_matrix roc_lru t); auto.
  - rewrite (get_roc_curve_data_memo_hit s r H). exact H.
  - rewrite (stable_get_threshold_sensitivity roc_lru); auto.
  - rewrite (stable_optimize_threshold roc_lru o); auto.
  - exact H.
Qed.

Lemma roc_lru_run_calls (cs : list Call) (s : DataService) (r : RocCurve) :
  roc_lru s = Some r → roc_lru (run_calls time_time np_argsort cs s) = Some r.
Proof.
  revert s. induction cs as [|c cs IH]; intros s H; [exact H|].
  cbn. apply IH, roc_lru_run_call, H.
Qed.

(** X12: once [get_roc_curve_data] has returned a curve, every later
    call returns that same curve and changes nothing, whatever methods
    were called in between: neither [clear_cache] nor the expiry of the
    cache entry refreshes it ([lru_cache] keeps it). *)
Theorem roc_curve_memoised (s s1 : DataService) (r : RocCurve)
    (cs : list Call) :
  get_roc_curve_data time_time np_argsort s = (Ok r, s1) →
  let s2 := run_calls time_time np_argsort cs s1 in
  get_roc_curve_data time_time np_argsort s2 = (Ok r, s2).
Proof.
  intros Hrun. cbv zeta.
  apply get_roc_curve_data_memo_hit, roc_lru_run_calls.
  exact (get_roc_curve_data_fills_memo s s1 r Hrun).
Qed.

(** ** The ROC curve *)

Lemma mapM_result_ok {A B : Type} (f : A → Result B) (g : A → B) (l : list A) :
  (∀ x, f x = Ok (g x)) → mapM f l = Ok (map g l).
Proof.
  intros H. induction l as [|x l IH]; [reflexivity|].
  cbn. rewrite H. cbn. rewrite IH. reflexivity.
Qed.

Lemma mapM_result_inv {A B : Type} (f : A → Result B) (l : list A)
    (out : list B) :
  mapM f l = Ok out → Forall2 (fun x y => f x = Ok y) l out.
Proof.
  revert out. induction l as [|x l IH]; intros out H.
  - cbn in H. injection H as <-. constructor.
  - cbn in H. destruct (f x) as [y|e] eqn:Hx; [|discriminate].
    cbn in H. destruct (mapM f l) as [k|e]; [|discriminate].
    cbn in H. injection H as <-. constructor; [exact Hx|apply IH; reflexivity].
Qed.

Lemma roc_point_ok (df : list Row) (t : Q) :
  roc_point df (col_eq (map inadimplente df) 1) (col_eq (map inadimplente df) 0)
    (mask_sum (col_eq (map inadimplente df) 1))
    (mask_sum (col_eq (map inadimplente df) 0)) t
  = Ok (roc_pair df t).
Proof.
  unfold roc_point, roc_pair, roc_rate.
  destruct (roc_counts df _ _ t) as [tp fp]. cbn [fst snd].
  destruct (0 <? mask_sum (col_eq (map inadimplente df) 1))%Z eqn:E1.
  - apply Z.ltb_lt in E1. rewrite (truediv_ok _ _ (inject_Z_nonzero _ E1)).
    cbn [mbind result_bind].
    destruct (0 <? mask_sum (col_eq (map inadimplente df) 0))%Z eqn:E0.
    + apply Z.ltb_lt in E0. rewrite (truediv_ok _ _ (inject_Z_nonzero _ E0)).
      reflexivity.
    + reflexivity.
  - cbn [mbind result_bind mret result_ret].
    destruct (0 <? mask_sum (col_eq (map inadimplente df) 0))%Z eqn:E0.
    + apply Z.ltb_lt in E0. rewrite (truediv_ok _ _ (inject_Z_nonzero _ E0)).
      reflexivity.
    + reflexivity.
Qed.

(** The rejected records of one class: never more than the class, and
    more of them at a higher threshold. *)
Lemma rejected_count_bounds (df : list Row) (t : Q) (v : Z) :
  (0 <= mask_sum (mask_and (col_lt (map score_normalizado df) t)
                           (col_eq (map inadimplente df) v))
   <= mask_sum (col_eq (map inadimplente df) v))%Z.
Proof.
  unfold mask_sum, mask_and, col_lt, col_eq.
  induction df as [|r df IH]; [cbn; lia|].
  cbn [map zip_with sum_Z].
  destruct (Qlt_le_dec (score_normalizado r) t);
    destruct (inadimplente r =? v)%Z; cbn [andb]; lia.
Qed.

Lemma rejected_count_mono (df : list Row) (t1 t2 : Q) (v : Z) :
  t1 <= t2 →
  (mask_sum (mask_and (col_lt (map score_normalizado df) t1)
                      (col_eq (map inadimplente df) v))
   <= mask_sum (mask_and (col_lt (map score_normalizado df) t2)
                         (col_eq (map inadimplente df) v)))%Z.
Proof.
  intros Ht. unfold mask_sum, mask_and, col_lt, col_eq.
  induction df as [|r df IH]; [cbn; lia|].
  cbn [map zip_with sum_Z].
  destruct (Qlt_le_dec (score_normalizado r) t1) as [H1|H1];
    destruct (Qlt_le_dec (score_normalizado r) t2) as [H2|H2];
    destruct (inadimplente r =? v)%Z; cbn [andb]; try lia; lra.
Qed.

Lemma roc_rate_unit (count total : Z) :
  (0 <= count <= total)%Z → in_unit_interval (roc_rate count total).
Proof.
  intros [H0 H1]. unfold roc_rate, in_unit_interval.
  destruct (0 <? total)%Z eqn:E; [|split; lra].
  apply Z.ltb_lt in E.
  assert (Hd : 0 < inject_Z total).
  { change 0 with (inject_Z 0). rewrite <- Zlt_Qlt. exact E. }
  rewrite Zle_Qle in H0, H1. change (inject_Z 0) with 0 in H0.
  split.
  - apply Qle_shift_div_l; [exact Hd|lra].
  - apply Qle_shift_div_r; [exact Hd|lra].
Qed.

Lemma roc_rate_mono (c1 c2 total : Z) :
  (c1 <= c2)%Z → roc_rate c1 total <= roc_rate c2 total.
Proof.
  intros H. unfold roc_rate.
  destruct (0 <? total)%Z eqn:E; [|lra].
  apply Z.ltb_lt in E.
  apply Qmult_le_compat_r.
  - rewrite <- Zle_Qle. exact H.
  - apply Qlt_le_weak, Qinv_lt_0_compat.
    change 0 with (inject_Z 0). rewrite <- Zlt_Qlt. exact E.
Qed.

Lemma roc_pair_unit (df : list Row) (t : Q) :
  in_unit_interval (roc_pair df t).1 ∧ in_unit_interval (roc_pair df t).2.
Proof.
  unfold roc_pair, roc_counts. cbn [fst snd].
  split; apply roc_rate_unit, rejected_count_bounds.
Qed.

Lemma roc_pair_mono (df : list Row) (t1 t2 : Q) :
  t1 <= t2 →
  (roc_pair df t1).1 <= (roc_pair df t2).1
  ∧ (roc_pair df t1).2 <= (roc_pair df t2).2.
Proof.
  intros Ht. unfold roc_pair, roc_counts. cbn [fst snd].
  split; apply roc_rate_mono, rejected_count_mono, Ht.
Qed.

Lemma Sorted_map_mono (f : Q → Q) (l : list Q) :
  (∀ a b, a <= b → f a <= f b) → Sorted Qle l → Sorted Qle (map f l).
Proof.
  intros Hf. induction 1 as [|a l Hs IH Hhd]; [constructor|].
  cbn. constructor; [exact IH|].
  destruct Hhd; cbn; constructor. apply Hf. assumption.
Qed.

Lemma roc_grid_sorted : Sorted Qle (np_linspace 0 1 50).
Proof. vm_compute. repeat constructor; discriminate. Qed.

Lemma take_indices_inv (l : list Q) (indices : list nat) (out : list Q) :
  take_indices l indices = Ok out →
  Forall2 (fun i x => l !! i = Some x) indices out.
Proof.
  intros H. apply mapM_result_inv in H.
  induction H as [|i x ids xs Hi _ IH]; constructor; [|exact IH].
  destruct (l !! i); [injection Hi as ->; reflexivity|discriminate].
Qed.

Lemma take_indices_same_positions (l l' : list Q) (indices : list nat)
    (out : list Q) :
  length l' = length l →
  take_indices l indices = Ok out →
  ∃ out', take_indices l' indices = Ok out'
          ∧ Forall2 (fun i x => l' !! i = Some x) indices out'.
Proof.
  intros Hlen H. apply take_indices_inv in H.
  induction H as [|i x ids xs Hi _ (out' & IH1 & IH2)].
  - exists []. split; [reflexivity|constructor].
  - apply lookup_lt_Some in Hi. rewrite <- Hlen in Hi.
    destruct (lookup_lt_is_Some_2 l' i Hi) as [x' Hx'].
    exists (x' :: out'). split; [|constructor; assumption].
    unfold take_indices in *. cbn. rewrite Hx'. cbn. rewrite IH1. reflexivity.
Qed.

Lemma picked_elements (P : Q → Prop) (l : list Q) (indices : list nat)
    (out : list Q) :
  Forall P l →
  Forall2 (fun i x => l !! i = Some x) indices out →
  Forall P out.
Proof.
  intros Hl H. induction H as [|i x ids xs Hi _ IH]; constructor; [|exact IH].
  rewrite Forall_forall in Hl. apply Hl. eapply list_elem_of_lookup_2, Hi.
Qed.

(** The trapezoid sum over ascending abscissas and ordinates in [0, 1]
    lies between 0 and the width covered. *)
Lemma np_trapz_bounds (y x : list Q) :
  length y = length x → Sorted Qle x → Forall in_unit_interval y →
  0 <= np_trapz y x ∧ np_trapz y x <= List.last x 0 - hd 0 x.
Proof.
  revert y. induction x as [|x0 x IH]; intros y Hlen Hs Hy.
  - destruct y as [|y0 [|y1 y]]; cbn; split; lra.
  - destruct y as [|y0 y]; [discriminate|].
    destruct x as [|x1 x].
    + destruct y; [cbn; split; lra|discriminate].
    + destruct y as [|y1 y]; [discriminate|].
      apply Sorted_inv in Hs as [Hs Hhd]. apply HdRel_inv in Hhd.
      apply Forall_cons in Hy as [[Ha0 Ha1] Hy].
      pose proof Hy as Hy'. apply Forall_cons in Hy' as [[Hb0 Hb1] _].
      destruct (IH (y1 :: y) ltac:(cbn in *; lia) Hs Hy) as [I0 I1].
      change (np_trapz (y0 :: y1 :: y) (x0 :: x1 :: x))
        with ((x1 - x0) * (y0 + y1) / 2 + np_trapz (y1 :: y) (x1 :: x)).
      change (List.last (x0 :: x1 :: x) 0) with (List.last (x1 :: x) 0).
      cbn [hd] in *.
      assert (Hprod0 : 0 <= (x1 - x0) * (y0 + y1))
        by (apply Qmult_le_0_compat; lra).
      assert (Hprod1 : (x1 - x0) * (2 - (y0 + y1)) >= 0)
        by (apply Qmult_le_0_compat; lra).
      unfold Qdiv. change (/ 2) with (1 # 2).
      split; lra.
Qed.

Lemma unit_list_ends (x : list Q) :
  Forall in_unit_interval x → 0 <= hd 0 x ∧ List.last x 0 <= 1.
Proof.
  induction 1 as [|a x [Ha0 Ha1] Hx [IH0 IH1]]; [cbn; split; lra|].
  split; [exact Ha0|].
  destruct x as [|b x]; [exact Ha1|exact IH1].
Qed.

(** With an [argsort] that sorts, the computation of the curve succeeds;
    its lists are the rates of the fifty grid thresholds and its area is
    between 0 and 1. *)
Lemma roc_curve_at_ok (df : list Row) :
  argsort_sorts np_argsort →
  ∃ r,
    roc_curve_at np_argsort df = Ok r
    ∧ roc_fpr r = map fst (map (roc_pair df) (np_linspace 0 1 50))
    ∧ roc_tpr r = map snd (map (roc_pair df) (np_linspace 0 1 50))
    ∧ roc_thresholds r = np_linspace 0 1 50
    ∧ 0 <= roc_auc r ∧ roc_auc r <= 1.
Proof.
  intros Hsorts. unfold roc_curve_at.
  rewrite (mapM_result_ok _ (roc_pair df) _ (roc_point_ok df)).
  cbn [mbind result_bind].
  set (points := map (roc_pair df) (np_linspace 0 1 50)).
  destruct (Hsorts (map fst points)) as (fpr_sorted & Htake & Hlen & Hsorted).
  rewrite Htake. cbn [mbind result_bind].
  destruct (take_indices_same_positions (map fst points) (map snd points)
              _ _ ltac:(now rewrite !length_map) Htake)
    as (tpr_sorted & Htake' & Hpos').
  rewrite Htake'. cbn [mbind result_bind mret result_ret].
  eexists. split; [reflexivity|]. cbn.
  split; [reflexivity|]. split; [reflexivity|]. split; [reflexivity|].
  pose proof (take_indices_inv _ _ _ Htake) as Hpos.
  assert (Hunit : Forall in_unit_interval (map fst points)
                  ∧ Forall in_unit_interval (map snd points)).
  { subst points. split; rewrite map_map; apply Forall_map, Forall_forall;
      intros t _; apply roc_pair_unit. }
  destruct Hunit as [Hu1 Hu2].
  pose proof (picked_elements _ _ _ _ Hu1 Hpos) as Hx.
  pose proof (picked_elements _ _ _ _ Hu2 Hpos') as Hy.
  assert (Hlens : length tpr_sorted = length fpr_sorted).
  { apply Forall2_length in Hpos, Hpos'. congruence. }
  destruct (np_trapz_bounds tpr_sorted fpr_sorted Hlens Hsorted Hy) as [T0 T1].
  destruct (unit_list_ends fpr_sorted Hx) as [E0 E1].
  rewrite (Qabs_pos _ T0). split; lra.
Qed.

(** What one run of the body of [get_roc_curve_data] does to the memo and
    to the cache slot. *)
Lemma roc_body_spec (d : option (list Row)) (s : DataService) :
  Inv_roc np_argsort d s → df_preprocessed s = d →
  let run := get_roc_curve_data_body time_time np_argsort s in
  roc_lru run.2 = roc_lru s
  ∧ (∀ r ts, roc_cache run.2 = Some (r, ts) → roc_ok np_argsort d r)
  ∧ (∀ r, run.1 = Ok r → roc_ok np_argsort d r)
  ∧ (argsort_sorts np_argsort ∨ d = None → ∃ r, run.1 = Ok r).
Proof.
  intros [Hlru Hcache] Hdf.
  remember (get_roc_curve_data_body time_time np_argsort s) as run eqn:Hrun.
  cbv zeta. unfold get_roc_curve_data_body in Hrun.
  destruct (get_from_cache_run time_time (roc_cache s) s) as (s0 & Hget & Hs0).
  unfold mbind at 1, M_bind at 1, get_self in Hrun.
  rewrite (bind_run _ _ _ _ _ Hget) in Hrun.
  assert (Hlru0 : roc_lru s0 = roc_lru s) by (destruct Hs0; subst s0; reflexivity).
  assert (Hcache0 : ∀ r ts, roc_cache s0 = Some (r, ts) → roc_ok np_argsort d r).
  { intros r ts H. apply (Hcache r ts). destruct Hs0; subst s0; exact H. }
  destruct (live_entry time_time (roc_cache s) s) as [r0|] eqn:Hlive.
  - subst run. cbn.
    destruct (live_entry_lookup time_time _ _ _ Hlive) as (ts & Hentry).
    split; [exact Hlru0|]. split; [exact Hcache0|].
    split; [intros r [= <-]; eapply Hcache, Hentry|eauto].
  - rewrite Hdf in Hrun. destruct d as [df|].
    + pose proof (mapM_result_ok _ (roc_pair df) (np_linspace 0 1 50)
                    (roc_point_ok df)) as Hpoints.
      unfold lift_result, _save_to_cache_roc, time_time_call, modify_self in Hrun.
      unfold mbind, M_bind, mret, M_ret in Hrun.
      assert (Hat : roc_curve_at np_argsort df
                    = (fpr_sorted ← take_indices
                         (map fst (map (roc_pair df) (np_linspace 0 1 50)))
                         (np_argsort
                            (map fst (map (roc_pair df) (np_linspace 0 1 50))));
                       tpr_sorted ← take_indices
                         (map snd (map (roc_pair df) (np_linspace 0 1 50)))
                         (np_argsort
                            (map fst (map (roc_pair df) (np_linspace 0 1 50))));
                       mret {| roc_fpr :=
                                 map fst (map (roc_pair df) (np_linspace 0 1 50));
                               roc_tpr :=
                                 map snd (map (roc_pair df) (np_linspace 0 1 50));
                               roc_thresholds := np_linspace 0 1 50;
                               roc_auc := Qabs (np_trapz tpr_sorted fpr_sorted) |})).
      { unfold roc_curve_at. rewrite Hpoints. reflexivity. }
      rewrite Hpoints in Hrun.
      destruct (take_indices (map fst _) _) as [fs|e] eqn:Hf.
      * destruct (take_indices (map snd _) _) as [ts|e] eqn:Ht.
        -- cbn [mbind result_bind mret result_ret] in Hat. subst run. cbn.
           split; [exact Hlru0|]. split; [intros r ts' [= <- _]; exact Hat|].
           split; [intros r [= <-]; exact Hat|eauto].
        -- cbn [mbind result_bind mret result_ret] in Hat. subst run. cbn.
           split; [exact Hlru0|]. split; [exact Hcache0|].
           split; [intros r [=]|].
           intros [Hsorts|[=]].
           destruct (roc_curve_at_ok df Hsorts) as (r & Hr & _).
           congruence.
      * cbn [mbind result_bind mret result_ret] in Hat. subst run. cbn.
        split; [exact Hlru0|]. split; [exact Hcache0|].
        split; [intros r [=]|].
        intros [Hsorts|[=]].
        destruct (roc_curve_at_ok df Hsorts) as (r & Hr & _).
        congruence.
    + subst run. cbn. split; [exact Hlru0|]. split; [exact Hcache0|].
      split; [intros r [= <-]; reflexivity|eauto].
Qed.


Lemma Inv_roc_transfer (d : option (list Row)) (s s' : DataService) :
  Inv_roc np_argsort d s →
  roc_lru s' = roc_lru s → roc_cache s' = roc_cache s →
  Inv_roc np_argsort d s'.
Proof.
  intros [H1 H2] E1 E2. split.
  - intros r. rewrite E1. apply H1.
  - intros r ts. rewrite E2. apply H2.
Qed.

(** [get_roc_curve_data] from a state that satisfies the invariant. *)
Lemma get_roc_curve_data_spec (d : option (list Row)) (s : DataService) :
  Inv_roc np_argsort d s → df_preprocessed s = d →
  let run := get_roc_curve_data time_time np_argsort s in
  Inv_roc np_argsort d run.2
  ∧ (∀ r, run.1 = Ok r → roc_ok np_argsort d r)
  ∧ (argsort_sorts np_argsort ∨ d = None → ∃ r, run.1 = Ok r).
Proof.
  intros HI Hdf.
  remember (get_roc_curve_data time_time np_argsort s) as run eqn:Hrun.
  cbv zeta. unfold get_roc_curve_data in Hrun.
  unfold mbind at 1, M_bind at 1, get_self in Hrun.
  destruct (roc_lru s) as [r0|] eqn:Hlru.
  - subst run. cbn. split; [exact HI|].
    split; [intros r [= <-]; apply (proj1 HI), Hlru|eauto].
  - destruct (roc_body_spec d s HI Hdf) as (B1 & B2 & B3 & B4).
    unfold mbind, M_bind in Hrun.
    destruct (get_roc_curve_data_body time_time np_argsort s) as [[r|e] s1].
    + cbn in *. subst run. cbn.
      split; [|split; [intros r' [= <-]; apply B3; reflexivity|eauto]].
      split; cbn.
      * intros r' [= <-]. apply B3. reflexivity.
      * exact B2.
    + cbn in *. subst run. cbn.
      split; [|split; [intros r' [=]|exact B4]].
      split.
      * intros r'. rewrite B1, Hlru. intros [=].
      * exact B2.
Qed.

Lemma reachable_Inv_roc (s : DataService) :
  reachable time_time np_argsort s →
  Inv_roc np_argsort (df_preprocessed s) s.
Proof.
  induction 1 as [file|s t _ IH|s t _ IH|s _ IH|s _ IH|s o _ IH|s _ IH].
  - destruct file; split; cbn; intros; discriminate.
  - rewrite (stable_get_metrics df_preprocessed t); auto.
    apply (Inv_roc_transfer _ s); [exact IH| |].
    + apply (stable_get_metrics roc_lru t); auto.
    + apply (stable_get_metrics roc_cache t); auto.
  - rewrite (stable_get_confusion_matrix df_preprocessed t); auto.
    apply (Inv_roc_transfer _ s); [exact IH| |].
    + apply (stable_get_confusion_matrix roc_lru t); auto.
    + apply (stable_get_confusion_matrix roc_cache t); auto.
  - destruct (core_stable_roc time_time np_argsort s) as (Hdf & _).
    rewrite Hdf. apply (get_roc_curve_data_spec _ s IH eq_refl).
  - rewrite (stable_get_threshold_sensitivity df_preprocessed); auto.
    apply (Inv_roc_transfer _ s); [exact IH| |].
    + apply (stable_get_threshold_sensitivity roc_lru); auto.
    + apply (stable_get_threshold_sensitivity roc_cache); auto.
  - rewrite (stable_optimize_threshold df_preprocessed o); auto.
    apply (Inv_roc_transfer _ s); [exact IH| |].
    + apply (stable_optimize_threshold roc_lru o); auto.
    + apply (stable_optimize_threshold roc_cache o); auto.
  - destruct IH as [H1 H2]. split; cbn; [exact H1|intros; discriminate].
Qed.

Lemma get_roc_curve_data_result (s : DataService) (df : list Row) :
  reachable time_time np_argsort s →
  df_preprocessed s = Some df →
  argsort_sorts np_argsort →
  ∃ r s',
    get_roc_curve_data time_time np_argsort s = (Ok r, s')
    ∧ roc_curve_at np_argsort df = Ok r.
Proof.
  intros Hreach Hdf Hsorts.
  pose proof (reachable_Inv_roc s Hreach) as HI.
  destruct (get_roc_curve_data_spec _ s HI eq_refl) as (_ & Hok & Hret).
  destruct (Hret (or_introl Hsorts)) as (r & Hr).
  specialize (Hok r Hr). rewrite Hdf in Hok. cbn in Hok.
  destruct (get_roc_curve_data time_time np_argsort s) as [res s'].
  cbn in Hr. subst res. eauto.
Qed.

(** X13: with the table loaded and an [argsort] that sorts,
    [get_roc_curve_data] returns, in every reachable state, a curve over
    the fifty thresholds [linspace(0, 1, 50)]: fifty false-positive rates
    and fifty true-positive rates, all between 0 and 1, and both lists
    never decrease along the thresholds. *)
Theorem roc_curve_shape (s : DataService) (df : list Row) :
  reachable time_time np_argsort s →
  df_preprocessed s = Some df →
  argsort_sorts np_argsort →
  ∃ r s',
    get_roc_curve_data time_time np_argsort s = (Ok r, s')
    ∧ roc_thresholds r = np_linspace 0 1 50
    ∧ length (roc_thresholds r) = 50%nat
    ∧ length (roc_fpr r) = 50%nat
    ∧ length (roc_tpr r) = 50%nat
    ∧ Forall in_unit_interval (roc_fpr r)
    ∧ Forall in_unit_interval (roc_tpr r)
    ∧ Sorted Qle (roc_fpr r)
    ∧ Sorted Qle (roc_tpr r).
Proof.
  intros Hreach Hdf Hsorts.
  destruct (get_roc_curve_data_result s df Hreach Hdf Hsorts)
    as (r & s' & Hrun & Hat).
  exists r, s'. split; [exact Hrun|].
  destruct (roc_curve_at_ok df Hsorts) as (r' & Hat' & Hf & Ht & Hth & _).
  rewrite Hat in Hat'. injection Hat' as <-.
  rewrite Hf, Ht, Hth, !map_map.
  split; [reflexivity|]. split; [reflexivity|].
  split; [now rewrite length_map|]. split; [now rewrite length_map|].
  split; [apply Forall_map, Forall_forall; intros t _; apply roc_pair_unit|].
  split; [apply Forall_map, Forall_forall; intros t _; apply roc_pair_unit|].
  split; (apply Sorted_map_mono; [|exact roc_grid_sorted]);
    intros a b Hab; apply (roc_pair_mono df a b Hab).
Qed.

(** X14: under the same conditions the area [auc] that
    [get_roc_curve_data] reports is between 0 and 1. *)
Theorem roc_auc_bounds (s : DataService) (df : list Row) :
  reachable time_time np_argsort s →
  df_preprocessed s = Some df →
  argsort_sorts np_argsort →
  ∃ r s',
    get_roc_curve_data time_time np_argsort s = (Ok r, s')
    ∧ 0 <= roc_auc r ∧ roc_auc r <= 1.
Proof.
  intros Hreach Hdf Hsorts.
  destruct (get_roc_curve_data_result s df Hreach Hdf Hsorts)
    as (r & s' & Hrun & Hat).
  exists r, s'. split; [exact Hrun|].
  destruct (roc_curve_at_ok df Hsorts) as (r' & Hat' & _ & _ & _ & Hauc).
  rewrite Hat in Hat'. injection Hat' as <-. exact Hauc.
Qed.

(** ** The confusion matrix beside the snapshot *)

Lemma approved_cells (df : list Row) (t : Q) :
  binary_outcomes df →
  let aprovado_mask := col_ge (map score_normalizado df) t in
  let inad1 := col_eq (map inadimplente df) 1 in
  let inad0 := col_eq (map inadimplente df) 0 in
  (mask_sum (mask_and aprovado_mask inad0)
   + mask_sum (mask_and aprovado_mask inad1) = mask_sum aprovado_mask)%Z
  ∧ sum_Z (loc aprovado_mask (map inadimplente df))
    = mask_sum (mask_and aprovado_mask inad1).
Proof.
  intros Hbin. cbv zeta. unfold mask_sum, mask_and, col_ge, col_eq.
  induction Hbin as [|r df Hr _ [IH1 IH2]]; [split; reflexivity|].
  cbn [map zip_with loc sum_Z].
  destruct (Qle_bool t (score_normalizado r));
    destruct Hr as [Hr|Hr]; rewrite Hr;
    cbn [Z.eqb Pos.eqb andb loc sum_Z]; split; lia.
Qed.

(** X15: computed at the same threshold on a table with outcomes 0 or
    1, the confusion matrix and the snapshot tell the same story: the
    approved are [tn + fn], the rejected are [tp + fp], and
    [taxaInadimplencia] is [fn] over [tn + fn] as a percentage, rounded
    to one decimal. *)
Theorem confusion_matrix_matches_metrics (s : DataService) (df : list Row)
    (t : Q) :
  reachable time_time np_argsort s →
  df_preprocessed s = Some df →
  df ≠ [] →
  binary_outcomes df →
  live_entry time_time (metrics_cache s !! round_key t) s = None →
  live_entry time_time (confusion_cache s !! round_key t) s = None →
  ∃ m c s1 s2,
    get_metrics time_time t s = (Ok m, s1)
    ∧ get_confusion_matrix time_time t s = (Ok c, s2)
    ∧ (tn c + fn c)%Z = clientesAprovados m
    ∧ (tp c + fp c)%Z = clientesRejeitados m
    ∧ taxaInadimplencia m
      = py_round (if (0 <? tn c + fn c)%Z
                  then inject_Z (fn c) / inject_Z (tn c + fn c) * 100
                  else 0) 1.
Proof.
  intros Hreach Hdf Hne Hbin Hmiss1 Hmiss2.
  pose proof (reachable_Inv time_time np_argsort s Hreach) as HI.
  rewrite Hdf in HI.
  destruct (get_metrics_hoare time_time _ t s HI) as (m & s1 & Hrun1 & _).
  destruct (get_confusion_matrix_hoare time_time _ t s HI)
    as (c & s2 & Hrun2 & _).
  exists m, c, s1, s2. split; [exact Hrun1|]. split; [exact Hrun2|].
  pose proof (get_metrics_eval time_time _ t s HI Hne) as E1.
  rewrite Hrun1, Hmiss1 in E1. cbn [fst] in E1. symmetry in E1.
  pose proof (get_confusion_matrix_eval df t s HI) as E2.
  rewrite Hrun2, Hmiss2 in E2. cbn [fst] in E2. symmetry in E2.
  destruct (compute_confusion_matrix_ok df t) as (c' & Hc' & Htp & Hfp & Htn & Hfn).
  rewrite E2 in Hc'. injection Hc' as <-.
  destruct (metrics_at_fields df t m Hne E1) as (Hap & Hrej & _).
  destruct (metrics_at_money df t m Hne E1) as (_ & _ & _ & _ & _ & Hdef & _).
  destruct (approved_cells df t Hbin) as [Hsplit Hdefaulters].
  pose proof (confusion_cells_total df t Hbin) as Htotal. cbv zeta in Htotal.
  assert (Happroved : (tn c + fn c)%Z
                      = mask_sum (col_ge (map score_normalizado df) t))
    by (rewrite Htn, Hfn; exact Hsplit).
  split; [rewrite Hap; exact Happroved|].
  split; [rewrite Hrej, Hap, Htp, Hfp; lia|].
  rewrite Hdef. unfold default_rate.
  rewrite Happroved, Hdefaulters, Hfn. reflexivity.
Qed.

Lemma ratio_unit (a b : Z) :
  (0 <= a <= b)%Z →
  ∃ q, (if (0 <? b)%Z then truediv (inject_Z a) (inject_Z b) else mret 0) = Ok q
       ∧ in_unit_interval q.
Proof.
  intros [H0 H1]. destruct (0 <? b)%Z eqn:Hb.
  - apply Z.ltb_lt in Hb.
    rewrite (truediv_ok _ _ (inject_Z_nonzero _ Hb)). eexists. split; [reflexivity|].
    pose proof (roc_rate_unit a b (conj H0 H1)) as Hu. unfold roc_rate in Hu.
    apply Z.ltb_lt in Hb. rewrite Hb in Hu. exact Hu.
  - exists 0. split; [reflexivity|]. split; lra.
Qed.

Lemma percent_round_bounds (q : Q) :
  in_unit_interval q → 0 <= py_round (q * 100) 2 ∧ py_round (q * 100) 2 <= 100.
Proof.
  intros [H0 H1].
  apply (py_round_bounds _ 0 100 2); try reflexivity; lra.
Qed.

Lemma compute_confusion_matrix_rates (df : list Row) (t : Q) (c : Confusion) :
  compute_confusion_matrix df t = Ok c →
  (0 <= tp c)%Z ∧ (0 <= fp c)%Z ∧ (0 <= tn c)%Z ∧ (0 <= fn c)%Z
  ∧ ∃ rates,
      cm_rates c = Some rates
      ∧ cm_threshold rates = t
      ∧ (0 <= accuracy rates ∧ accuracy rates <= 100)
      ∧ (0 <= precision rates ∧ precision rates <= 100)
      ∧ (0 <= recall rates ∧ recall rates <= 100)
      ∧ (0 <= f1_score rates ∧ f1_score rates <= 100).
Proof.
  unfold compute_confusion_matrix. cbv zeta.
  set (TP := mask_sum (mask_and (mask_not _) (col_eq _ 1))).
  set (FP := mask_sum (mask_and (mask_not _) (col_eq _ 0))).
  set (TN := mask_sum (mask_and (col_ge _ _) (col_eq _ 0))).
  set (FN := mask_sum (mask_and (col_ge _ _) (col_eq _ 1))).
  pose proof (mask_sum_nonneg (mask_and (mask_not (col_ge (map score_normalizado df) t))
                                 (col_eq (map inadimplente df) 1))) as P1.
  pose proof (mask_sum_nonneg (mask_and (mask_not (col_ge (map score_normalizado df) t))
                                 (col_eq (map inadimplente df) 0))) as P2.
  pose proof (mask_sum_nonneg (mask_and (col_ge (map score_normalizado df) t)
                                 (col_eq (map inadimplente df) 0))) as P3.
  pose proof (mask_sum_nonneg (mask_and (col_ge (map score_normalizado df) t)
                                 (col_eq (map inadimplente df) 1))) as P4.
  fold TP in P1. fold FP in P2. fold TN in P3. fold FN in P4.
  destruct (ratio_unit (TP + TN) (TP + FP + TN + FN) ltac:(lia)) as (acc & -> & Hacc).
  destruct (ratio_unit TP (TP + FP) ltac:(lia)) as (prec & -> & Hprec).
  destruct (ratio_unit TP (TP + FN) ltac:(lia)) as (rec & -> & Hrec).
  cbn [mbind result_bind].
  destruct Hprec as [Hp0 Hp1]. destruct Hrec as [Hr0 Hr1].
  assert (Hpr : 0 <= prec * rec) by (apply Qmult_le_0_compat; assumption).
  assert (Hpr1 : 0 <= prec * (1 - rec)) by (apply Qmult_le_0_compat; lra).
  assert (Hpr2 : 0 <= rec * (1 - prec)) by (apply Qmult_le_0_compat; lra).
  destruct (Qlt_le_dec 0 (prec + rec)) as [Hpos|Hle].
  - rewrite truediv_ok by lra. cbn [mbind result_bind mret result_ret].
    intros [= <-]. cbn.
    repeat (split; [assumption|]).
    eexists. split; [reflexivity|]. cbn. split; [reflexivity|].
    split; [apply percent_round_bounds, Hacc|].
    split; [apply percent_round_bounds; split; assumption|].
    split; [apply percent_round_bounds; split; assumption|].
    apply percent_round_bounds. split.
    + apply Qle_shift_div_l; [exact Hpos|]. lra.
    + apply Qle_shift_div_r; [exact Hpos|]. lra.
  - cbn [mbind result_bind mret result_ret].
    intros [= <-]. cbn.
    repeat (split; [assumption|]).
    eexists. split; [reflexivity|]. cbn. split; [reflexivity|].
    split; [apply percent_round_bounds, Hacc|].
    split; [apply percent_round_bounds; split; assumption|].
    split; [apply percent_round_bounds; split; assumption|].
    apply percent_round_bounds. split; lra.
Qed.

(** X16: with the table loaded, [get_confusion_matrix] returns in every
    reachable state four cells that are not negative and the four rates
    accuracy, precision, recall and F1 as percentages between 0 and 100,
    whatever the threshold: no division by zero is met. *)
Theorem confusion_rates_are_percentages (s : DataService) (df : list Row)
    (t : Q) :
  reachable time_time np_argsort s →
  df_preprocessed s = Some df →
  ∃ c rates s',
    get_confusion_matrix time_time t s = (Ok c, s')
    ∧ cm_rates c = Some rates
    ∧ (0 <= tp c)%Z ∧ (0 <= fp c)%Z ∧ (0 <= tn c)%Z ∧ (0 <= fn c)%Z
    ∧ (0 <= accuracy rates ∧ accuracy rates <= 100)
    ∧ (0 <= precision rates ∧ precision rates <= 100)
    ∧ (0 <= recall rates ∧ recall rates <= 100)
    ∧ (0 <= f1_score rates ∧ f1_score rates <= 100).
Proof.
  intros Hreach Hdf.
  pose proof (reachable_Inv time_time np_argsort s Hreach) as HI.
  rewrite Hdf in HI.
  destruct (get_confusion_matrix_hoare time_time _ t s HI)
    as (c & s' & Hrun & _ & t' & _ & Hc).
  destruct (compute_confusion_matrix_rates df t' c Hc)
    as (C1 & C2 & C3 & C4 & rates & Hrates & _ & R1 & R2 & R3 & R4).
  exists c, rates, s'. repeat split; try assumption; tauto.
Qed.

(** ** The sensitivity table *)

Lemma sensitivity_loop_rows (d : option (list Row)) (thresholds : list Q) :
  ∀ results,
    hoare (Inv d) (sensitivity_loop time_time thresholds results)
      (fun out s' =>
         Inv d s'
         ∧ ∃ new, out = results ++ new
                  ∧ Forall2 (sens_row_ok d) thresholds new).
Proof.
  induction thresholds as [|t rest IH]; intros results; cbn [sensitivity_loop].
  - apply hoare_ret. intros s HI. split; [exact HI|].
    exists []. rewrite app_nil_r. split; [reflexivity|constructor].
  - intros s HI.
    destruct (get_metrics_hoare time_time d t s HI) as (m & s1 & Hrun & HI1 & Hm).
    rewrite (bind_run _ _ _ _ _ Hrun).
    set (row := {| sens_threshold := py_round t 2;
                   sens_taxaAprovacao := taxaAprovacao m;
                   sens_taxaInadimplencia := taxaInadimplencia m;
                   sens_saldoLiquido := saldoLiquido m;
                   sens_perdasEvitadas := perdasEvitadas m;
                   sens_oportunidadesPerdidas := oportunidadesPerdidas m |}).
    destruct (IH (results ++ [row]) s1 HI1)
      as (out & s2 & Hloop & HI2 & new & Hout & Hall).
    exists out, s2. split; [exact Hloop|]. split; [exact HI2|].
    exists (row :: new). split.
    + rewrite Hout, <- app_assoc. reflexivity.
    + constructor; [|exact Hall]. split; [reflexivity|].
      exists m. cbn. auto 10.
Qed.

Lemma get_threshold_sensitivity_spec (d : option (list Row)) (s : DataService) :
  Inv d s → Inv_sens d s →
  ∃ r s',
    get_threshold_sensitivity time_time s = (Ok r, s')
    ∧ Inv_sens d s' ∧ sens_ok d r.
Proof.
  intros HI HS. unfold get_threshold_sensitivity.
  destruct (get_from_cache_run time_time (sensitivity_cache s) s)
    as (s0 & Hget & Hs0).
  unfold mbind at 1, M_bind at 1, get_self.
  rewrite (bind_run _ _ _ _ _ Hget).
  assert (HI0 : Inv d s0).
  { destruct Hs0; subst s0; [assumption|apply Inv_set_time_calls, HI]. }
  assert (HS0 : Inv_sens d s0).
  { intros r ts H. apply (HS r ts). destruct Hs0; subst s0; exact H. }
  destruct (live_entry time_time (sensitivity_cache s) s) as [r0|] eqn:Hlive.
  - exists r0, s0. split; [reflexivity|]. split; [exact HS0|].
    destruct (live_entry_lookup time_time _ _ _ Hlive) as (ts & Hentry).
    apply (HS _ _ Hentry).
  - rewrite (inv_df _ _ HI). destruct d as [df|].
    + destruct (sensitivity_loop_rows (Some df) (np_linspace (1 # 10) (9 # 10) 9)
                  [] s0 HI0) as (rows & s1 & Hloop & _ & new & Hnew & Hall).
      cbn in Hnew. subst new.
      rewrite (bind_run _ _ _ _ _ Hloop).
      eexists. eexists. split.
      * unfold _save_to_cache_sensitivity, time_time_call, modify_self.
        unfold mbind, M_bind, mret, M_ret. reflexivity.
      * split.
        -- intros r ts. cbn. intros [= <- _]. cbn. eauto.
        -- cbn. eauto.
    + exists SensUnavailable, s0. split; [reflexivity|]. split; [exact HS0|].
      reflexivity.
Qed.

Lemma reachable_Inv_sens (s : DataService) :
  reachable time_time np_argsort s → Inv_sens (df_preprocessed s) s.
Proof.
  induction 1 as [file|s t Hr IH|s t Hr IH|s Hr IH|s Hr IH|s o Hr IH|s Hr IH].
  - destruct file; intros r ts; cbn; intros; discriminate.
  - rewrite (stable_get_metrics df_preprocessed t); auto.
    intros r ts.
    rewrite (stable_get_metrics sensitivity_cache t); auto. apply IH.
  - rewrite (stable_get_confusion_matrix df_preprocessed t); auto.
    intros r ts.
    rewrite (stable_get_confusion_matrix sensitivity_cache t); auto. apply IH.
  - destruct (core_stable_roc time_time np_argsort s) as (Hdf & _).
    rewrite Hdf. intros r ts.
    assert (Hst : stable sensitivity_cache
                    (get_roc_curve_data time_time np_argsort)).
    { unfold get_roc_curve_data, get_roc_curve_data_body, _save_to_cache_roc.
      repeat stable_step. }
    rewrite Hst. apply IH.
  - pose proof (reachable_Inv time_time np_argsort s Hr) as HI.
    destruct (get_threshold_sensitivity_spec _ s HI IH) as (r & s' & Hrun & HS & _).
    rewrite (stable_get_threshold_sensitivity df_preprocessed); auto.
    rewrite Hrun. exact HS.
  - rewrite (stable_optimize_threshold df_preprocessed o); auto.
    intros r ts.
    rewrite (stable_optimize_threshold sensitivity_cache o); auto. apply IH.
  - intros r ts. cbn. intros; discriminate.
Qed.

Lemma sorted_transfer {A B : Type} (P : A → B → Prop) (R1 : A → A → Prop)
    (R2 : B → B → Prop) (l1 : list A) (l2 : list B) :
  (∀ a b x y, R1 a b → P a x → P b y → R2 x y) →
  Forall2 P l1 l2 → StronglySorted R1 l1 → StronglySorted R2 l2.
Proof.
  intros Hstep H. induction H as [|a x l1 l2 Hax Hall IH]; intros Hs.
  - constructor.
  - apply StronglySorted_inv in Hs as [Hs Hhd]. constructor; [apply IH, Hs|].
    clear IH Hs. induction Hall as [|b y l1 l2 Hby _ IH]; constructor.
    + apply Forall_cons in Hhd as [Hab _]. eapply Hstep; eassumption.
    + apply IH. apply Forall_cons in Hhd as [_ Hhd]. exact Hhd.
Qed.

Lemma sensitivity_grid_keys :
  StronglySorted (fun a b => (round_key a < round_key b)%Z)
    (np_linspace (1 # 10) (9 # 10) 9).
Proof. vm_compute. repeat constructor. Qed.

Lemma snapshots_ordered (d : option (list Row)) (a b : Q) (m1 m2 : Metrics) :
  (round_key a < round_key b)%Z →
  metrics_result d a m1 → metrics_result d b m2 →
  taxaAprovacao m2 <= taxaAprovacao m1.
Proof.
  intros Hk H1 H2. destruct d as [[|r df]|]; cbn in H1, H2.
  - subst. cbn. lra.
  - destruct H1 as (u1 & K1 & H1). destruct H2 as (u2 & K2 & H2).
    assert (Hne : r :: df ≠ []) by discriminate.
    destruct (metrics_at_fields _ _ _ Hne H1) as (_ & _ & _ & -> & _).
    destruct (metrics_at_fields _ _ _ Hne H2) as (_ & _ & _ & -> & _).
    apply py_round_mono, approval_rate_anti; [apply len_pos, Hne|].
    destruct (Qlt_le_dec u2 u1) as [Hlt|Hle]; [exfalso|exact Hle].
    pose proof (round_key_mono u2 u1 (Qlt_le_weak _ _ Hlt)). lia.
  - subst. cbn. lra.
Qed.

(** X17: with the table loaded, [get_threshold_sensitivity] returns in
    every reachable state a table of nine rows at the thresholds 0.1,
    0.2, ..., 0.9, each row copied from a snapshot of [get_metrics], and
    the approval rate never increases down the table. *)
Theorem sensitivity_table_shape (s : DataService) (df : list Row) :
  reachable time_time np_argsort s →
  df_preprocessed s = Some df →
  ∃ rows s',
    get_threshold_sensitivity time_time s = (Ok (SensData rows), s')
    ∧ Forall2 Qeq (map sens_threshold rows)
        [1 # 10; 2 # 10; 3 # 10; 4 # 10; 5 # 10; 6 # 10; 7 # 10; 8 # 10; 9 # 10]
    ∧ Forall2 (sens_row_ok (Some df)) (np_linspace (1 # 10) (9 # 10) 9) rows
    ∧ StronglySorted
        (fun r1 r2 => sens_taxaAprovacao r2 <= sens_taxaAprovacao r1) rows.
Proof.
  intros Hreach Hdf.
  pose proof (reachable_Inv time_time np_argsort s Hreach) as HI.
  pose proof (reachable_Inv_sens s Hreach) as HS.
  rewrite Hdf in HI, HS.
  destruct (get_threshold_sensitivity_spec _ s HI HS)
    as (r & s' & Hrun & _ & rows & -> & Hrows).
  exists rows, s'. split; [exact Hrun|].
  split; [|split; [exact Hrows|]].
  - assert (Hth : map sens_threshold rows = optimizer_grid).
    { unfold optimizer_grid. clear -Hrows.
      induction Hrows as [|t row ts rows [Ht _] _ IH]; [reflexivity|].
      cbn. now rewrite Ht, IH. }
    rewrite Hth. apply optimizer_grid_values.
  - refine (sorted_transfer _ _ _ _ _ _ Hrows sensitivity_grid_keys).
    intros a b x y Hab Hx Hy. cbn in Hab.
    destruct Hx as (_ & m1 & Hm1 & -> & _).
    destruct Hy as (_ & m2 & Hm2 & -> & _).
    exact (snapshots_ordered _ a b m1 m2 Hab Hm1 Hm2).
Qed.

(** X18: with the population table missing, the other aggregate methods
    answer without raising, in every reachable state:
    [get_confusion_matrix] gives four zero cells and no rates,
    [get_roc_curve_data] gives empty lists with [auc] 0 and
    [get_threshold_sensitivity] gives its empty reply. *)
Theorem missing_table_replies (s : DataService) (t : Q) :
  reachable time_time np_argsort s →
  df_preprocessed s = None →
  (∃ s', get_confusion_matrix time_time t s
         = (Ok {| tp := 0; fp := 0; tn := 0; fn := 0; cm_rates := None |}, s'))
  ∧ (∃ s', get_roc_curve_data time_time np_argsort s = (Ok empty_curve, s'))
  ∧ (∃ s', get_threshold_sensitivity time_time s = (Ok SensUnavailable, s')).
Proof.
  intros Hreach Hdf.
  pose proof (reachable_Inv time_time np_argsort s Hreach) as HI.
  pose proof (reachable_Inv_roc s Hreach) as HR.
  pose proof (reachable_Inv_sens s Hreach) as HS.
  rewrite Hdf in HI, HR, HS.
  split; [|split].
  - destruct (get_confusion_matrix_hoare time_time _ t s HI)
      as (c & s' & Hrun & _ & Hc).
    cbn in Hc. subst c. eauto.
  - destruct (get_roc_curve_data_spec None s HR Hdf) as (_ & Hok & Hret).
    destruct (Hret (or_intror eq_refl)) as (r & Hr).
    specialize (Hok r Hr). cbn in Hok. subst r.
    destruct (get_roc_curve_data time_time np_argsort s) as [res s'].
    cbn in Hr. subst res. eauto.
  - destruct (get_threshold_sensitivity_spec None s HI HS)
      as (r & s' & Hrun & _ & Hr).
    cbn in Hr. subst r. eauto.
Qed.

(** ** The objectives of the optimizer *)

Lemma optimize_loop_ext (o1 o2 : string) (thresholds : list Q) :
  (∀ m, objective_value o1 m = objective_value o2 m) →
  ∀ bt bv results s,
    optimize_loop time_time o1 thresholds bt bv results s
    = optimize_loop time_time o2 thresholds bt bv results s.
Proof.
  intros Hext. induction thresholds as [|t rest IH]; intros bt bv results s;
    [reflexivity|].
  cbn [optimize_loop]. unfold mbind, M_bind.
  destruct (get_metrics time_time t s) as [[m|e] s1]; [|reflexivity].
  cbv zeta. rewrite Hext. destruct (gt_pyfloat _ _); apply IH.
Qed.

(** X19: an objective name other than "risk" and "balanced" is treated
    as "profit": [optimize_threshold] returns the reply it returns for
    "profit", with the name it was given, and leaves the same state. *)
Theorem unknown_objective_is_profit (objective' : string) (s : DataService) :
  objective' ≠ "risk" →
  objective' ≠ "balanced" →
  optimize_threshold time_time objective' s
  = (match (optimize_threshold time_time "profit" s).1 with
     | Ok r => Ok (with_objective objective' r)
     | Raise e => Raise e
     end,
     (optimize_threshold time_time "profit" s).2).
Proof.
  intros Hrisk Hbal.
  assert (Hext : ∀ m, objective_value objective' m = objective_value "profit" m).
  { intros m. unfold objective_value.
    apply String.eqb_neq in Hrisk, Hbal. rewrite Hrisk, Hbal.
    destruct (String.eqb objective' "profit"); reflexivity. }
  unfold optimize_threshold, mbind, M_bind, get_self, mret, M_ret.
  destruct (df_preprocessed s); [|reflexivity].
  rewrite (optimize_loop_ext _ _ _ Hext).
  destruct (optimize_loop time_time "profit" _ _ _ _ s) as [[[[bt bv] res]|e] s1];
    [|reflexivity].
  destruct (get_metrics time_time bt s1) as [[m|e] s2]; reflexivity.
Qed.

End FurtherServiceProofs.

(* ------------------------------------------------------------------ *)
(** ** The prediction service *)

Lemma load_model_keeps_settings (files : ModelFiles) (self : ModelService) :
  ms_threshold (load_model files self).2 = ms_threshold self
  ∧ model_version (load_model files self).2 = model_version self.
Proof.
  unfold load_model, _create_default_encoders.
  destruct (modelo_lgbm_pkl files) as [m|]; [|split; reflexivity].
  destruct (label_encoders_pkl files), (metricas_modelo_pkl files),
    (n_features_in_ m); cbn;
    repeat match goal with |- context [decide ?P] => destruct (decide P) end;
    split; reflexivity.
Qed.

(** What [load_model] leaves when it returns, and when it raises. *)
Lemma load_model_cases (files : ModelFiles) (self : ModelService) :
  let cols := default _get_default_features (feature_cols_pkl files) in
  let after := (load_model files self).2 in
  match modelo_lgbm_pkl files with
  | None => load_model files self = (Throw FileNotFoundError, self)
  | Some m =>
      model after = Some m
      ∧ label_encoders after
        = Some (default default_encoders (label_encoders_pkl files))
      ∧ feature_cols after = Some cols
      ∧ metricas after
        = match metricas_modelo_pkl files with
          | Some loaded => Some loaded
          | None => metricas self
          end
      ∧ ((∀ n, n_features_in_ m = Some n → length cols = n)
         ∧ (load_model files self).1 = Return ()
         ∧ model_loaded after = true
         ∨ (∃ n, n_features_in_ m = Some n ∧ length cols ≠ n)
           ∧ (load_model files self).1 = Throw ValueError
           ∧ model_loaded after = model_loaded self)
  end.
Proof.
  cbv zeta. unfold load_model, _create_default_encoders.
  destruct (modelo_lgbm_pkl files) as [m|]; [|reflexivity].
  destruct (label_encoders_pkl files), (feature_cols_pkl files),
    (metricas_modelo_pkl files), (n_features_in_ m) as [n|]; cbn;
    repeat match goal with |- context [decide ?P] => destruct (decide P) end;
    cbn; repeat (split; [reflexivity|]);
    first [ left; split; [intros ? [= <-]; assumption|split; reflexivity]
          | left; split; [intros ? [=]|split; reflexivity]
          | right; split; [eexists; split; [reflexivity|assumption]
                          |split; reflexivity] ].
Qed.

Lemma ms_reachable_threshold (self : ModelService) :
  ms_reachable self → ms_threshold self = 50 # 100.
Proof.
  induction 1 as [|files self Hreach IH]; [reflexivity|].
  destruct (load_model_keeps_settings files self) as [-> _]. exact IH.
Qed.

Section PredictProofs.

Variable FEATURE_EXPLAINABILITY : bool.
Variable utcnow : Z.

(** X20: in every state of the service, the threshold is 0.5 and the
    version is the one [__init__] set, and a service marked as loaded
    has a model, encoders and a list of feature columns: [predict]
    never meets a missing attribute there. *)
Theorem loaded_service_is_equipped (self : ModelService) :
  ms_reachable self →
  ms_threshold self = 50 # 100
  ∧ model_version self = "1.0.0-lgbm"
  ∧ (model_loaded self = true →
     ∃ m encoders cols,
       model self = Some m
       ∧ label_encoders self = Some encoders
       ∧ feature_cols self = Some cols).
Proof.
  induction 1 as [|files self Hreach (Ht & Hv & IH)].
  - repeat split; intros [=].
  - destruct (load_model_keeps_settings files self) as [-> ->].
    split; [exact Ht|]. split; [exact Hv|].
    intros Hloaded.
    pose proof (load_model_cases files self) as Hc. cbv zeta in Hc.
    destruct (modelo_lgbm_pkl files) as [m|].
    + destruct Hc as (Hm & He & Hf & _).
      exists m. eexists. eexists. split; [exact Hm|]. split; [exact He|exact Hf].
    + rewrite Hc in Hloaded |- *. cbn in *. auto.
Qed.

(** [predict] on a loaded service whose features and probability are
    known. *)
Lemma predict_loaded (self : ModelService) (m : Model)
    (request : PredictRequest) (f : list (string * Q)) (p : Q) :
  model_loaded self = true →
  model self = Some m →
  _prepare_features self request = Return f →
  predict_proba m f = Return p →
  predict FEATURE_EXPLAINABILITY utcnow self request
  = PredictResponse_new
      {| resp_cliente_id := cliente_id request;
         prediction := if Qleb (ms_threshold self) p then 1%Z else 0%Z;
         probability := py_round p 4;
         risk_score := py_round (_calculate_risk_score p) 2;
         recommendation := _get_recommendation p;
         confidence := py_round (_calculate_confidence p) 4;
         resp_threshold := ms_threshold self;
         resp_model_version := model_version self;
         timestamp := utcnow;
         explainability :=
           if FEATURE_EXPLAINABILITY
           then Some (_get_feature_importance self) else None |}.
Proof.
  intros Hl Hm Hf Hp. unfold predict. rewrite Hl, Hm, Hf. cbn.
  rewrite Hp. reflexivity.
Qed.

(** A response [predict] returned: where it comes from. *)
Lemma predict_returned (self : ModelService) (request : PredictRequest)
    (resp : PredictResponse) :
  predict FEATURE_EXPLAINABILITY utcnow self request = Return resp →
  ∃ m f p,
    model_loaded self = true
    ∧ model self = Some m
    ∧ _prepare_features self request = Return f
    ∧ predict_proba m f = Return p
    ∧ PredictResponse_errors resp = []
    ∧ prediction resp = (if Qleb (ms_threshold self) p then 1%Z else 0%Z)
    ∧ probability resp = py_round p 4
    ∧ risk_score resp = py_round (_calculate_risk_score p) 2
    ∧ recommendation resp = _get_recommendation p
    ∧ confidence resp = py_round (_calculate_confidence p) 4
    ∧ resp_threshold resp = ms_threshold self.
Proof.
  unfold predict.
  destruct (model_loaded self) eqn:Hl; [|discriminate].
  destruct (model self) as [m|] eqn:Hm; [|discriminate].
  destruct (_prepare_features self request) as [f|] eqn:Hf; [|discriminate].
  cbn. destruct (predict_proba m f) as [p|] eqn:Hp; [|discriminate].
  cbn. unfold PredictResponse_new.
  match goal with
  | |- context [PredictResponse_errors ?r] =>
      destruct (PredictResponse_errors r) eqn:He; [|discriminate]
  end.
  intros [= <-]. exists m, f, p.
  do 3 (split; [reflexivity|]).
  split; [exact Hp|]. split; [exact He|].
  cbn. repeat split; reflexivity.
Qed.

Lemma confidence_range (p : Q) :
  60 # 100 <= _calculate_confidence p ∧ _calculate_confidence p <= 1.
Proof.
  unfold _calculate_confidence, py_min.
  repeat match goal with
         | |- context [Qlt_le_dec ?a ?b] => destruct (Qlt_le_dec a b)
         end;
    try (split; lra).
  all: pose proof (Qabs_nonneg (p - (35 # 100))); split; lra.
Qed.

(** The fields of a response made from a probability between 0 and 1
    meet the constraints of the schema. *)
Lemma response_fields_valid (p : Q) :
  0 <= p → p <= 1 →
  (0 <= py_round p 4 ∧ py_round p 4 <= 1)
  ∧ (0 <= py_round (_calculate_risk_score p) 2
     ∧ py_round (_calculate_risk_score p) 2 <= 100)
  ∧ (60 # 100 <= py_round (_calculate_confidence p) 4
     ∧ py_round (_calculate_confidence p) 4 <= 1).
Proof.
  intros H0 H1. destruct (confidence_range p) as [Hc0 Hc1].
  split; [|split].
  - apply (py_round_bounds _ 0 1 4); try reflexivity; assumption.
  - unfold _calculate_risk_score.
    apply (py_round_bounds _ 0 100 2); try reflexivity; lra.
  - apply (py_round_bounds _ (60 # 100) 1 4); try reflexivity; assumption.
Qed.

Lemma PredictResponse_errors_nil (r : PredictResponse) :
  PredictResponse_errors r = []
  ↔ (0 <= probability r ∧ probability r <= 1)
    ∧ (0 <= risk_score r ∧ risk_score r <= 100)
    ∧ (0 <= confidence r ∧ confidence r <= 1).
Proof.
  unfold PredictResponse_errors.
  destruct (Qleb 0 (probability r)) eqn:E1, (Qleb (probability r) 1) eqn:E2,
    (Qleb 0 (risk_score r)) eqn:E3, (Qleb (risk_score r) 100) eqn:E4,
    (Qleb 0 (confidence r)) eqn:E5, (Qleb (confidence r) 1) eqn:E6; cbn;
    rewrite ?Qleb_true, ?Qleb_false in *;
    (split; [try discriminate; intros _; repeat split; assumption
            |intros ((? & ?) & (? & ?) & (? & ?)); try reflexivity; lra]).
Qed.


(** X22: [load_model] never clears the flag [model_loaded].  When a
    reload on a loaded service raises [ValueError] for a model whose
    number of features differs from the number of columns, the service
    stays marked as loaded with the rejected model installed, and
    [predict] answers with that model. *)
Theorem failed_reload_keeps_loaded_flag (files : ModelFiles)
    (self : ModelService) (m : Model) (n : nat) :
  model_loaded self = true →
  modelo_lgbm_pkl files = Some m →
  n_features_in_ m = Some n →
  length (default _get_default_features (feature_cols_pkl files)) ≠ n →
  let after := (load_model files self).2 in
  (load_model files self).1 = Throw ValueError
  ∧ model_loaded after = true
  ∧ model after = Some m
  ∧ ∀ request f p,
      _prepare_features after request = Return f →
      predict_proba m f = Return p →
      0 <= p → p <= 1 →
      ∃ resp,
        predict FEATURE_EXPLAINABILITY utcnow after request = Return resp
        ∧ probability resp = py_round p 4.
Proof.
  intros Hl Hfile Hn Hlen. cbv zeta.
  pose proof (load_model_cases files self) as Hc. cbv zeta in Hc.
  rewrite Hfile in Hc.
  destruct Hc as (Hm & He & Hf & _ & [(Hn' & _)|(_ & Hr & Hl')]).
  { exfalso. apply Hlen, Hn', Hn. }
  rewrite Hl in Hl'.
  split; [exact Hr|]. split; [exact Hl'|]. split; [exact Hm|].
  intros request f p Hfe Hp H0 H1.
  rewrite (predict_loaded _ m request f p Hl' Hm Hfe Hp).
  unfold PredictResponse_new.
  match goal with
  | |- context [PredictResponse_errors ?r] =>
      assert (Hok : PredictResponse_errors r = [])
  end.
  { apply PredictResponse_errors_nil. cbn.
    destruct (response_fields_valid p H0 H1) as (Ha & Hb & Hc0 & Hc1).
    split; [exact Ha|]. split; [exact Hb|]. split; lra. }
  rewrite Hok. eexists. split; reflexivity.
Qed.

(** X23: in a response of [predict] the prediction and the
    recommendation never contradict each other: the prediction is 0 or
    1; prediction 1 (probability at least the threshold 0.5) comes with
    the recommendation "Negar", and "Aprovar" or "Revisar" come with
    prediction 0.  The rounded probability is on the same side of 0.5
    as the prediction, and the confidence is between 0.6 and 1. *)
Theorem predict_decision_consistency (self : ModelService)
    (request : PredictRequest) (resp : PredictResponse) :
  ms_reachable self →
  predict FEATURE_EXPLAINABILITY utcnow self request = Return resp →
  (prediction resp = 0%Z ∨ prediction resp = 1%Z)
  ∧ (recommendation resp = "Aprovar" ∨ recommendation resp = "Revisar"
     ∨ recommendation resp = "Negar")
  ∧ (prediction resp = 1%Z →
     recommendation resp = "Negar" ∧ 50 # 100 <= probability resp)
  ∧ (recommendation resp = "Aprovar" ∨ recommendation resp = "Revisar" →
     prediction resp = 0%Z ∧ probability resp <= 30 # 100)
  ∧ (prediction resp = 0%Z → probability resp <= 50 # 100)
  ∧ resp_threshold resp = 50 # 100
  ∧ (60 # 100 <= confidence resp ∧ confidence resp <= 1).
Proof.
  intros Hreach Hret.
  pose proof (ms_reachable_threshold self Hreach) as Ht.
  destruct (predict_returned self request resp Hret)
    as (m & f & p & _ & _ & _ & _ & Herr & Hpred & Hprob & _ & Hrec & Hconf
        & Hthr).
  rewrite Ht in Hpred, Hthr.
  apply PredictResponse_errors_nil in Herr.
  destruct Herr as (_ & _ & Hc0 & Hc1).
  assert (Hhalf : py_round (50 # 100) 4 == 50 # 100) by reflexivity.
  assert (H30 : py_round (30 # 100) 4 == 30 # 100) by reflexivity.
  assert (Hconf' : 60 # 100 <= confidence resp).
  { rewrite Hconf.
    apply (py_round_bounds _ (60 # 100) 1 4); try reflexivity;
      apply confidence_range. }
  assert (Hrecs : _get_recommendation p = "Aprovar" ∧ p <= 30 # 100
                  ∨ _get_recommendation p = "Revisar" ∧ p <= 30 # 100
                  ∨ _get_recommendation p = "Negar" ∧ 30 # 100 < p).
  { unfold _get_recommendation.
    destruct (Qleb p (10 # 100)) eqn:E10;
      destruct (Qleb p (30 # 100)) eqn:E30;
      rewrite ?Qleb_true, ?Qleb_false in *; auto.
    left. split; [reflexivity|lra]. }
  rewrite Hpred, Hrec, Hprob.
  split.
  { destruct (Qleb (50 # 100) p); auto. }
  split.
  { destruct Hrecs as [[-> _]|[[-> _]|[-> _]]]; auto. }
  split.
  { destruct (Qleb (50 # 100) p) eqn:E50; [|discriminate]. intros _.
    apply Qleb_true in E50.
    pose proof (py_round_mono (50 # 100) p 4 E50).
    split; [|lra].
    destruct Hrecs as [[_ Hle]|[[_ Hle]|[-> _]]]; [lra|lra|reflexivity]. }
  split.
  { intros Hr.
    assert (Hle : p <= 30 # 100).
    { destruct Hrecs as [[_ Hle]|[[_ Hle]|[Hn _]]]; [exact Hle|exact Hle|].
      rewrite Hn in Hr. destruct Hr; discriminate. }
    pose proof (py_round_mono p (30 # 100) 4 Hle).
    split; [|lra].
    destruct (Qleb (50 # 100) p) eqn:E50; [|reflexivity].
    apply Qleb_true in E50. lra. }
  split.
  { destruct (Qleb (50 # 100) p) eqn:E50; [discriminate|]. intros _.
    apply Qleb_false in E50.
    pose proof (py_round_mono p (50 # 100) 4 (Qlt_le_weak _ _ E50)). lra. }
  split; [exact Hthr|].
  split; [exact Hconf'|exact Hc1].
Qed.

(** X24: for a probability between 0 and 1, the response [predict]
    builds always passes the validation of [PredictResponse]: the risk
    score is between 0 and 100 and the confidence between 0.6 and 1, so
    [predict] returns.  A probability that rounds outside 0 to 1 makes
    the construction raise a validation error that names
    [probability]. *)
Theorem predict_response_valid (self : ModelService) (m : Model)
    (request : PredictRequest) (f : list (string * Q)) (p : Q) :
  model_loaded self = true →
  model self = Some m →
  _prepare_features self request = Return f →
  predict_proba m f = Return p →
  (0 <= p ∧ p <= 1 →
   ∃ resp,
     predict FEATURE_EXPLAINABILITY utcnow self request = Return resp
     ∧ resp_cliente_id resp = cliente_id request
     ∧ timestamp resp = utcnow
     ∧ probability resp = py_round p 4
     ∧ (0 <= probability resp ∧ probability resp <= 1)
     ∧ (0 <= risk_score resp ∧ risk_score resp <= 100)
     ∧ (60 # 100 <= confidence resp ∧ confidence resp <= 1))
  ∧ (py_round p 4 < 0 ∨ 1 < py_round p 4 →
     ∃ fields,
       predict FEATURE_EXPLAINABILITY utcnow self request
       = Throw (ValidationError fields)
       ∧ "probability" ∈ fields).
Proof.
  intros Hl Hm Hf Hp.
  rewrite (predict_loaded self m request f p Hl Hm Hf Hp).
  unfold PredictResponse_new. split.
  - intros [H0 H1].
    destruct (response_fields_valid p H0 H1) as (Ha & Hb & Hc0 & Hc1).
    match goal with
    | |- context [PredictResponse_errors ?r] =>
        assert (Hok : PredictResponse_errors r = [])
    end.
    { apply PredictResponse_errors_nil. cbn.
      split; [exact Ha|]. split; [exact Hb|]. split; lra. }
    rewrite Hok. eexists. split; [reflexivity|]. cbn.
    repeat split; try reflexivity; tauto.
  - intros Hout.
    match goal with
    | |- context [PredictResponse_errors ?r] =>
        assert (Hin : "probability" ∈ PredictResponse_errors r)
    end.
    { unfold PredictResponse_errors. cbn.
      assert (Hb : Qleb 0 (py_round p 4) && Qleb (py_round p 4) 1 = false).
      { apply andb_false_iff.
        destruct Hout; [left|right]; apply Qleb_false; assumption. }
      rewrite Hb. cbn. apply elem_of_cons. left. reflexivity. }
    match goal with
    | |- context [PredictResponse_errors ?r] =>
        destruct (PredictResponse_errors r) as [|x l] eqn:E
    end.
    + apply elem_of_nil in Hin. contradiction.
    + eexists. split; [reflexivity|]. exact Hin.
Qed.

(** *** Encoders *)

Lemma str_replace_pair (a b c : Ascii.ascii) (s : string) :
  str_replace (String a (String b "")) (String c "") s
  = match s with
    | String x (String y t) =>
        if Ascii.eqb x a && Ascii.eqb y b
        then String c (str_replace (String a (String b "")) (String c "") t)
        else String x (str_replace (String a (String b "")) (String c "")
                         (String y t))
    | _ => s
    end.
Proof.
  assert (Hp : ∀ t, String.prefix "" t = true) by (intros []; reflexivity).
  unfold str_replace.
  destruct s as [|x [|y t]]; [reflexivity| |].
  - cbn. destruct (Ascii.ascii_dec a x); reflexivity.
  - cbn [replace_from String.prefix String.length Nat.sub]. rewrite Hp.
    destruct (Ascii.ascii_dec a x) as [<-|Hax].
    + rewrite Ascii.eqb_refl.
      destruct (Ascii.ascii_dec b y) as [<-|Hby].
      * rewrite Ascii.eqb_refl. reflexivity.
      * assert (Ascii.eqb y b = false) as ->
          by (apply Ascii.eqb_neq; congruence).
        reflexivity.
    + assert (Ascii.eqb x a = false) as ->
        by (apply Ascii.eqb_neq; congruence).
      reflexivity.
Qed.

Lemma has_pair_cons (a b x y : Ascii.ascii) (t : string) :
  has_pair a b (String x (String y t))
  = Ascii.eqb x a && Ascii.eqb y b || has_pair a b (String y t).
Proof. reflexivity. Qed.

Lemma has_pair_tail (a b x : Ascii.ascii) (s : string) :
  has_pair a b (String x s) = false → has_pair a b s = false.
Proof.
  cbn. destruct s; [reflexivity|]. intros H.
  apply orb_false_iff in H. tauto.
Qed.

(** A replacement that spares the pair removes it when it is its own
    pattern, and does not bring it in otherwise. *)
Lemma has_pair_replace (a b a' b' c' : Ascii.ascii) (s : string) :
  Ascii.eqb c' a = false → Ascii.eqb c' b = false →
  (a' = a ∧ b' = b) ∨ has_pair a b s = false →
  has_pair a b (str_replace (String a' (String b' "")) (String c' "") s)
  = false.
Proof.
  intros Hca Hcb.
  set (R := str_replace (String a' (String b' "")) (String c' "")).
  assert (HQ : ∀ t,
    ((a' = a ∧ b' = b) ∨ has_pair a b t = false → has_pair a b (R t) = false)
    ∧ ∀ y, (a' = a ∧ b' = b) ∨ has_pair a b (String y t) = false →
           has_pair a b (R (String y t)) = false).
  { induction t as [|z t [IHt IHzt]].
    - split; intros; unfold R; rewrite str_replace_pair; reflexivity.
    - split; [apply IHzt|].
      intros y Hpre. unfold R. rewrite str_replace_pair. fold R.
      destruct (Ascii.eqb y a' && Ascii.eqb z b') eqn:Epre.
      + assert (Ht : has_pair a b (R t) = false).
        { apply IHt. destruct Hpre as [Hpre|Hpre]; [left; exact Hpre|].
          right. eapply has_pair_tail, has_pair_tail, Hpre. }
        destruct (R t) as [|w r] eqn:ERt; [reflexivity|].
        rewrite has_pair_cons, Ht, Hca. reflexivity.
      + assert (Hzt : has_pair a b (R (String z t)) = false).
        { apply IHzt. destruct Hpre as [Hpre|Hpre]; [left; exact Hpre|].
          right. eapply has_pair_tail, Hpre. }
        assert (Hhead : ∃ r, R (String z t) = String c' r
                             ∨ R (String z t) = String z r).
        { unfold R. rewrite str_replace_pair. fold R.
          destruct t as [|w t]; [exists ""; right; reflexivity|].
          destruct (Ascii.eqb z a' && Ascii.eqb w b');
            eexists; [left|right]; reflexivity. }
        destruct Hhead as (r & [Hr|Hr]); rewrite Hr in Hzt |- *.
        * rewrite has_pair_cons, Hzt, Hcb, andb_false_r. reflexivity.
        * rewrite has_pair_cons, Hzt, orb_false_r.
          destruct Hpre as [[-> ->]|Hpre]; [exact Epre|].
          rewrite has_pair_cons in Hpre.
          apply orb_false_iff in Hpre. tauto. }
  intros Hpre. apply HQ, Hpre.
Qed.

Lemma spares_pair_replace (a b : Ascii.ascii) (r : string * string) (s : string) :
  spares_pair a b r = true →
  r.1 = String a (String b "") ∨ has_pair a b s = false →
  has_pair a b (str_replace r.1 r.2 s) = false.
Proof.
  destruct r as [[|a' [|b' [|? ?]]] [|c' [|? ?]]]; try discriminate.
  cbn. intros Hs Hpre.
  apply andb_true_iff in Hs. destruct Hs as [Hca Hcb].
  apply negb_true_iff in Hca, Hcb.
  apply has_pair_replace; [exact Hca|exact Hcb|].
  destruct Hpre as [[= -> ->]|Hpre]; auto.
Qed.

Lemma replacements_keep_out (a b : Ascii.ascii) (table : list (string * string))
    (s : string) :
  forallb (spares_pair a b) table = true →
  has_pair a b s = false →
  has_pair a b (fold_left (fun value r => str_replace r.1 r.2 value) table s)
  = false.
Proof.
  revert s. induction table as [|r table IH]; intros s Hall Hs; [exact Hs|].
  cbn in Hall. apply andb_true_iff in Hall. destruct Hall as [Hr Hall].
  cbn. apply IH; [exact Hall|].
  apply spares_pair_replace; auto.
Qed.

Lemma replacements_remove (a b : Ascii.ascii) (new : string)
    (table : list (string * string)) (s : string) :
  forallb (spares_pair a b) table = true →
  (String a (String b ""), new) ∈ table →
  has_pair a b (fold_left (fun value r => str_replace r.1 r.2 value) table s)
  = false.
Proof.
  revert s. induction table as [|r table IH]; intros s Hall Hin.
  - apply elem_of_nil in Hin. contradiction.
  - cbn in Hall. apply andb_true_iff in Hall. destruct Hall as [Hr Hall].
    cbn. apply elem_of_cons in Hin. destruct Hin as [<-|Hin].
    + apply replacements_keep_out; [exact Hall|].
      apply (spares_pair_replace a b (String a (String b ""), new));
        [exact Hr|left; reflexivity].
    + apply IH; assumption.
Qed.

Lemma has_pair_contains (a b : Ascii.ascii) (s : string) :
  str_contains (String a (String b "")) s → has_pair a b s = true.
Proof.
  intros (u & w & ->). induction u as [|x u IH].
  - change (has_pair a b (String a (String b w)) = true).
    rewrite has_pair_cons, !Ascii.eqb_refl. reflexivity.
  - change (has_pair a b
              (String x (u +:+ String a (String b "") +:+ w)) = true).
    destruct (u +:+ String a (String b "") +:+ w) eqn:E; [discriminate|].
    rewrite has_pair_cons, IH. apply orb_true_r.
Qed.

(** No letter of the table is left in a normalized value. *)
Lemma normalize_accents_clean (old new value : string) :
  (old, new) ∈ accent_replacements →
  ¬ str_contains old (normalize_accents value).
Proof.
  intros Hin Hc. unfold normalize_accents in Hc.
  assert (∃ a b, old = String a (String b "")
                 ∧ forallb (spares_pair a b) accent_replacements = true)
    as (a & b & -> & Hall).
  { unfold accent_replacements in Hin.
    repeat (apply elem_of_cons in Hin; destruct Hin as [[= -> ->]|Hin];
            [eexists; eexists; split; [reflexivity|vm_compute; reflexivity]|]).
    apply elem_of_nil in Hin. contradiction. }
  apply has_pair_contains in Hc.
  rewrite (replacements_remove a b new accent_replacements value Hall Hin)
    in Hc.
  discriminate.
Qed.

(** X25: a dictionary encoder is looked up with the value stripped of
    its accents, so an entry whose key holds one of the twenty accented
    letters of [_encode_categorical] is never used: the result is the
    same without that entry. *)
Theorem accented_key_never_matches (d : gmap string Z) (key old new : string)
    (value : pyvalue) :
  (old, new) ∈ accent_replacements →
  str_contains old key →
  _encode_categorical (DictEncoder d) value
  = _encode_categorical (DictEncoder (delete key d)) value.
Proof.
  intros Hin Hkey. unfold _encode_categorical.
  set (v := normalize_accents _).
  assert (Hne : key ≠ v).
  { intros ->. exact (normalize_accents_clean old new _ Hin Hkey). }
  rewrite (lookup_delete_ne d key v Hne). reflexivity.
Qed.

(** X26: with the default encoders of [_create_default_encoders], the
    codes of the categories of a request.  The three genders and the
    five regions get the codes of the dictionary, but every category
    whose name is accented in the dictionary gets code 0, the code of
    the first category: "Viúvo" is encoded as "Solteiro", "Médio" and
    "Pós-Graduação" as "Fundamental", "Médio" and "Metrópole" as
    "Pequeno", and "Imobiliario" and "Cartao" as "CDC". *)
Theorem default_encoders_codes (self : ModelService) :
  label_encoders self = Some default_encoders →
  (∀ e, encoded_with self "genero" (PyEnum (Genero_value e))
        = Return match e with
                 | Genero_MASCULINO => 0%Z
                 | Genero_FEMININO => 1%Z
                 | Genero_OUTRO => 2%Z
                 end)
  ∧ (∀ e, encoded_with self "regiao" (PyEnum (Regiao_value e))
          = Return match e with
                   | Regiao_SUDESTE => 0%Z
                   | Regiao_SUL => 1%Z
                   | Regiao_NORDESTE => 2%Z
                   | Regiao_CENTRO_OESTE => 3%Z
                   | Regiao_NORTE => 4%Z
                   end)
  ∧ (∀ e, encoded_with self "estado_civil" (PyEnum (EstadoCivil_value e))
          = Return match e with
                   | EstadoCivil_SOLTEIRO => 0%Z
                   | EstadoCivil_CASADO => 1%Z
                   | EstadoCivil_DIVORCIADO => 2%Z
                   | EstadoCivil_VIUVO => 0%Z
                   end)
  ∧ (∀ e, encoded_with self "escolaridade" (PyEnum (Escolaridade_value e))
          = Return match e with
                   | Escolaridade_FUNDAMENTAL => 0%Z
                   | Escolaridade_MEDIO => 0%Z
                   | Escolaridade_SUPERIOR => 2%Z
                   | Escolaridade_POS_GRADUACAO => 0%Z
                   end)
  ∧ (∀ e, encoded_with self "porte_municipio"
            (PyEnum (PorteMunicipio_value e))
          = Return match e with
                   | PorteMunicipio_PEQUENO => 0%Z
                   | PorteMunicipio_MEDIO => 0%Z
                   | PorteMunicipio_GRANDE => 2%Z
                   | PorteMunicipio_METROPOLE => 0%Z
                   end)
  ∧ (∀ e, encoded_with self "tipo_credito" (PyEnum (TipoProduto_value e))
          = Return match e with
                   | TipoProduto_CDC => 0%Z
                   | TipoProduto_IMOBILIARIO => 0%Z
                   | TipoProduto_CARTAO => 0%Z
                   | TipoProduto_PESSOAL => 3%Z
                   end).
Proof.
  intros He. unfold encoded_with, getitem_label_encoders. rewrite He.
  repeat split; intros []; vm_compute; reflexivity.
Qed.

(** *** Derived features *)








Lemma derived_features_returned (request : PredictRequest) (d : Derived) :
  _calculate_derived_features request = Return d →
  fator_risco d = inject_Z (950 - req_score request) / 650
  ∧ faixa_etaria d
    = (if (idade request <=? 25)%Z then "18-25"
       else if (idade request <=? 35)%Z then "26-35"
       else if (idade request <=? 45)%Z then "36-45"
       else if (idade request <=? 55)%Z then "46-55"
       else if (idade request <=? 65)%Z then "56-65"
       else "66+").
Proof.
  unfold _calculate_derived_features.
  match goal with
  | |- context [mbind _ ?first] => destruct first as [parcela|e]
  end; [|discriminate].
  cbn. destruct (truediv parcela (renda request)); [|discriminate].
  cbn. intros [= <-]. split; reflexivity.
Qed.


(** X30: with the default encoders, the code of the age band is the
    number of the bounds 25, 35, 45, 55 and 65 that the age exceeds:
    it runs from 0 to 5 and never decreases with the age. *)
Theorem age_band_codes (self : ModelService) (request : PredictRequest)
    (d : Derived) :
  label_encoders self = Some default_encoders →
  _calculate_derived_features request = Return d →
  encoded_with self "faixa_etaria" (PyStr (faixa_etaria d))
  = Return (Z.of_nat (length (filter (fun bound => (bound <? idade request)%Z)
                                [25; 35; 45; 55; 65]%Z))).
Proof.
  intros He Hd.
  destruct (derived_features_returned request d Hd) as [_ ->].
  unfold encoded_with, getitem_label_encoders. rewrite He.
  cbn [filter list_filter].
  repeat match goal with
         | |- context [decide ?P] => destruct (decide P)
         end;
    repeat match goal with
           | H : Is_true (_ <? _)%Z |- _ =>
               apply Is_true_true, Z.ltb_lt in H
           | H : ¬ Is_true (_ <? _)%Z |- _ =>
               apply Is_true_false, Z.ltb_ge in H
           end;
    repeat match goal with
           | |- context [(?a <=? ?b)%Z] =>
               destruct (Z.leb_spec a b); try lia
           end;
    vm_compute; reflexivity.
Qed.

End PredictProofs.

(** ** The further properties on concrete inputs *)

Lemma provisao_monotone_witness :
  2 # 100 <= 40 # 100
  ∧ provisao (classify_risk_bacen (2 # 100))
    <= provisao (classify_risk_bacen (40 # 100)).
Proof.
  split; [discriminate|].
  apply (provisao_monotone (2 # 100) (40 # 100)). discriminate.
Defined.


(** [stable_argsort] is an [argsort] that sorts. *)
Lemma zip_seq_positions (l : list Q) (k : nat) :
  Forall (fun p : Q * nat => (k <= p.2)%nat ∧ l !! (p.2 - k)%nat = Some p.1)
    (zip l (seq k (length l))).
Proof.
  revert k. induction l as [|x l IH]; intros k; [constructor|].
  cbn. constructor.
  - cbn. split; [lia|]. now rewrite Nat.sub_diag.
  - eapply Forall_impl; [apply (IH (S k))|].
    intros [v i] [Hle Hi]. cbn in *. split; [lia|].
    replace (i - k)%nat with (S (i - S k)) by lia. exact Hi.
Qed.

Lemma stable_argsort_sorts : argsort_sorts stable_argsort.
Proof.
  intros l. unfold stable_argsort.
  set (R := fun a b : Q * nat => a.1 <= b.1).
  set (ps := merge_sort R (zip l (seq 0 (length l)))).
  assert (Htotal : Total R).
  { intros a b. unfold R. destruct (Qlt_le_dec b.1 a.1) as [H|H].
    - right. apply Qlt_le_weak, H.
    - left. exact H. }
  pose proof (merge_sort_Permutation R (zip l (seq 0 (length l)))) as Hperm.
  fold ps in Hperm.
  assert (Hpos : Forall (fun p : Q * nat => l !! p.2 = Some p.1) ps).
  { rewrite Hperm. eapply Forall_impl; [apply (zip_seq_positions l 0)|].
    intros [v i] [_ Hi]. cbn in *. now rewrite Nat.sub_0_r in Hi. }
  exists (map fst ps). split; [|split].
  - clear -Hpos. unfold take_indices.
    induction Hpos as [|[v i] ps Hp _ IH]; [reflexivity|].
    cbn in *. rewrite Hp. cbn. rewrite IH. reflexivity.
  - rewrite length_map, Hperm, length_zip_with, length_seq. lia.
  - pose proof (Sorted_merge_sort R (zip l (seq 0 (length l)))) as Hs.
    fold ps in Hs. clear -Hs.
    induction Hs as [|p ps Hs IH Hhd]; [constructor|].
    cbn. constructor; [exact IH|].
    destruct Hhd; constructor. assumption.
Qed.

Lemma example_tickets_nonneg : nonneg_tickets example_population.
Proof. repeat constructor; discriminate. Defined.


Lemma net_balance_nonneg_witness :
  let s := (get_threshold_sensitivity ticking_clock
              (DataService_init (Some example_file))).2 in
  reachable ticking_clock stable_argsort s
  ∧ df_preprocessed s = Some example_population
  ∧ nonneg_tickets example_population
  ∧ ∃ m s',
      get_metrics ticking_clock (7 # 10) s = (Ok m, s')
      ∧ 0 <= perdasInadimplencia m
      ∧ perdasInadimplencia m <= receitaTotal m
      ∧ saldoLiquido m == receitaTotal m - perdasInadimplencia m
      ∧ 0 <= saldoLiquido m.
Proof.
  cbv zeta.
  split; [apply reach_get_threshold_sensitivity, reach_init|].
  split; [vm_compute; reflexivity|].
  split; [exact example_tickets_nonneg|].
  apply (net_balance_nonneg ticking_clock stable_argsort
           (get_threshold_sensitivity ticking_clock
              (DataService_init (Some example_file))).2
           example_population (7 # 10)).
  - apply reach_get_threshold_sensitivity, reach_init.
  - vm_compute; reflexivity.
  - exact example_tickets_nonneg.
Defined.

Lemma rates_are_percentages_witness :
  let s := DataService_init (Some example_file) in
  reachable ticking_clock stable_argsort s
  ∧ df_preprocessed s = Some example_population
  ∧ ∃ m s',
      get_metrics ticking_clock (6 # 10) s = (Ok m, s')
      ∧ 0 <= taxaAprovacao m ∧ taxaAprovacao m <= 100
      ∧ (binary_outcomes example_population →
         0 <= taxaInadimplencia m ∧ taxaInadimplencia m <= 100).
Proof.
  cbv zeta.
  split; [apply reach_init|].
  split; [reflexivity|].
  apply (rates_are_percentages ticking_clock stable_argsort
           (DataService_init (Some example_file)) example_population (6 # 10)).
  - apply reach_init.
  - reflexivity.
Defined.

Lemma stricter_threshold_approves_less_witness :
  let s := DataService_init (Some example_file) in
  reachable ticking_clock stable_argsort s
  ∧ df_preprocessed s = Some example_population
  ∧ 3 # 10 <= 8 # 10
  ∧ ∃ m1 m2 s1 s2,
      get_metrics ticking_clock (3 # 10) s = (Ok m1, s1)
      ∧ get_metrics ticking_clock (8 # 10) s = (Ok m2, s2)
      ∧ (clientesAprovados m2 <= clientesAprovados m1)%Z
      ∧ (clientesRejeitados m1 <= clientesRejeitados m2)%Z
      ∧ (nonneg_tickets example_population →
         receitaTotal m2 <= receitaTotal m1
         ∧ perdasEvitadas m1 <= perdasEvitadas m2
         ∧ oportunidadesPerdidas m1 <= oportunidadesPerdidas m2).
Proof.
  cbv zeta.
  split; [apply reach_init|].
  split; [reflexivity|].
  split; [discriminate|].
  apply (stricter_threshold_approves_less ticking_clock stable_argsort
           (DataService_init (Some example_file)) example_population
           (3 # 10) (8 # 10)).
  - apply reach_init.
  - reflexivity.
  - discriminate.
Defined.

Lemma threshold_extremes_witness :
  let s := DataService_init (Some example_file) in
  reachable ticking_clock stable_argsort s
  ∧ df_preprocessed s = Some example_population
  ∧ example_population ≠ []
  ∧ live_entry ticking_clock (metrics_cache s !! round_key (1 # 10)) s = None
  ∧ ∃ m s',
      get_metrics ticking_clock (1 # 10) s = (Ok m, s')
      ∧ (Forall (fun r => 1 # 10 <= score_normalizado r) example_population →
         clientesAprovados m = len example_population
         ∧ clientesRejeitados m = 0%Z
         ∧ taxaAprovacao m == 100
         ∧ oportunidadesPerdidas m == 0
         ∧ perdasEvitadas m == 0)
      ∧ (Forall (fun r => score_normalizado r < 1 # 10) example_population →
         clientesAprovados m = 0%Z
         ∧ clientesRejeitados m = len example_population
         ∧ taxaAprovacao m == 0
         ∧ taxaInadimplencia m == 0
         ∧ receitaTotal m == 0
         ∧ saldoLiquido m == 0).
Proof.
  cbv zeta.
  split; [apply reach_init|].
  split; [reflexivity|].
  split; [discriminate|].
  split; [reflexivity|].
  apply (threshold_extremes ticking_clock stable_argsort
           (DataService_init (Some example_file)) example_population (1 # 10)).
  - apply reach_init.
  - reflexivity.
  - discriminate.
  - reflexivity.
Defined.

Lemma metrics_cache_lifetime_witness :
  let s := DataService_init (Some example_file) in
  reachable ticking_clock stable_argsort s
  ∧ df_preprocessed s = Some example_population
  ∧ example_population ≠ []
  ∧ round_key (501 # 1000) = round_key (1 # 2)
  ∧ ∃ m s1 ts,
      get_metrics ticking_clock (1 # 2) s = (Ok m, s1)
      ∧ metrics_cache s1 !! round_key (1 # 2) = Some (m, ts)
      ∧ (ticking_clock (time_calls s1) - ts < _cache_ttl →
         (get_metrics ticking_clock (501 # 1000) s1).1 = Ok m)
      ∧ (_cache_ttl <= ticking_clock (time_calls s1) - ts →
         (get_metrics ticking_clock (501 # 1000) s1).1
         = metrics_at example_population (501 # 1000)).
Proof.
  cbv zeta.
  split; [apply reach_init|].
  split; [reflexivity|].
  split; [discriminate|].
  split; [vm_compute; reflexivity|].
  apply (metrics_cache_lifetime ticking_clock stable_argsort
           (DataService_init (Some example_file)) example_population
           (1 # 2) (501 # 1000)).
  - apply reach_init.
  - reflexivity.
  - discriminate.
  - vm_compute; reflexivity.
Defined.

Lemma clear_cache_forces_recomputation_witness :
  let s := (get_metrics ticking_clock (1 # 2)
              (DataService_init (Some example_file))).2 in
  reachable ticking_clock stable_argsort s
  ∧ df_preprocessed s = Some example_population
  ∧ example_population ≠ []
  ∧ (get_metrics ticking_clock (1 # 2) (clear_cache s).2).1
    = metrics_at example_population (1 # 2)
  ∧ (get_confusion_matrix ticking_clock (1 # 2) (clear_cache s).2).1
    = compute_confusion_matrix example_population (1 # 2)
  ∧ ∃ m c, metrics_at example_population (1 # 2) = Ok m
           ∧ compute_confusion_matrix example_population (1 # 2) = Ok c.
Proof.
  cbv zeta.
  split; [apply reach_get_metrics, reach_init|].
  split; [vm_compute; reflexivity|].
  split; [discriminate|].
  apply (clear_cache_forces_recomputation ticking_clock stable_argsort
           (get_metrics ticking_clock (1 # 2)
              (DataService_init (Some example_file))).2
           example_population (1 # 2)).
  - apply reach_get_metrics, reach_init.
  - vm_compute; reflexivity.
  - discriminate.
Defined.

Lemma roc_curve_memoised_witness :
  let s := DataService_init (Some example_file) in
  let s1 := (get_roc_curve_data ticking_clock stable_argsort s).2 in
  ∃ r,
    get_roc_curve_data ticking_clock stable_argsort s = (Ok r, s1)
    ∧ let s2 := run_calls ticking_clock stable_argsort
                  [CallClearCache; CallGetMetrics (1 # 2)] s1 in
      get_roc_curve_data ticking_clock stable_argsort s2 = (Ok r, s2).
Proof.
  cbv zeta.
  eexists. split; [vm_compute; reflexivity|].
  apply (roc_curve_memoised ticking_clock stable_argsort
           (DataService_init (Some example_file))
           (get_roc_curve_data ticking_clock stable_argsort
              (DataService_init (Some example_file))).2
           _ [CallClearCache; CallGetMetrics (1 # 2)]).
  vm_compute; reflexivity.
Defined.

Lemma roc_curve_shape_witness :
  let s := DataService_init (Some example_file) in
  reachable ticking_clock stable_argsort s
  ∧ df_preprocessed s = Some example_population
  ∧ argsort_sorts stable_argsort
  ∧ ∃ r s',
      get_roc_curve_data ticking_clock stable_argsort s = (Ok r, s')
      ∧ roc_thresholds r = np_linspace 0 1 50
      ∧ length (roc_thresholds r) = 50%nat
      ∧ length (roc_fpr r) = 50%nat
      ∧ length (roc_tpr r) = 50%nat
      ∧ Forall in_unit_interval (roc_fpr r)
      ∧ Forall in_unit_interval (roc_tpr r)
      ∧ Sorted Qle (roc_fpr r)
      ∧ Sorted Qle (roc_tpr r).
Proof.
  cbv zeta.
  split; [apply reach_init|].
  split; [reflexivity|].
  split; [exact stable_argsort_sorts|].
  apply (roc_curve_shape ticking_clock stable_argsort
           (DataService_init (Some example_file)) example_population).
  - apply reach_init.
  - reflexivity.
  - exact stable_argsort_sorts.
Defined.

Lemma roc_auc_bounds_witness :
  let s := (clear_cache (DataService_init (Some example_file))).2 in
  reachable ticking_clock stable_argsort s
  ∧ df_preprocessed s = Some example_population
  ∧ argsort_sorts stable_argsort
  ∧ ∃ r s',
      get_roc_curve_data ticking_clock stable_argsort s = (Ok r, s')
      ∧ 0 <= roc_auc r ∧ roc_auc r <= 1.
Proof.
  cbv zeta.
  split; [apply reach_clear_cache, reach_init|].
  split; [reflexivity|].
  split; [exact stable_argsort_sorts|].
  apply (roc_auc_bounds ticking_clock stable_argsort
           (clear_cache (DataService_init (Some example_file))).2
           example_population).
  - apply reach_clear_cache, reach_init.
  - reflexivity.
  - exact stable_argsort_sorts.
Defined.

Lemma confusion_matrix_matches_metrics_witness :
  let s := DataService_init (Some example_file) in
  reachable ticking_clock stable_argsort s
  ∧ df_preprocessed s = Some example_population
  ∧ example_population ≠ []
  ∧ binary_outcomes example_population
  ∧ live_entry ticking_clock (metrics_cache s !! round_key (1 # 2)) s = None
  ∧ live_entry ticking_clock (confusion_cache s !! round_key (1 # 2)) s = None
  ∧ ∃ m c s1 s2,
      get_metrics ticking_clock (1 # 2) s = (Ok m, s1)
      ∧ get_confusion_matrix ticking_clock (1 # 2) s = (Ok c, s2)
      ∧ (tn c + fn c)%Z = clientesAprovados m
      ∧ (tp c + fp c)%Z = clientesRejeitados m
      ∧ taxaInadimplencia m
        = py_round (if (0 <? tn c + fn c)%Z
                    then inject_Z (fn c) / inject_Z (tn c + fn c) * 100
                    else 0) 1.
Proof.
  cbv zeta.
  split; [apply reach_init|].
  split; [reflexivity|].
  split; [discriminate|].
  split; [exact example_outcomes_binary|].
  split; [reflexivity|].
  split; [reflexivity|].
  apply (confusion_matrix_matches_metrics ticking_clock stable_argsort
           (DataService_init (Some example_file)) example_population (1 # 2)).
  - apply reach_init.
  - reflexivity.
  - discriminate.
  - exact example_outcomes_binary.
  - reflexivity.
  - reflexivity.
Defined.

Lemma confusion_rates_are_percentages_witness :
  let s := DataService_init (Some example_file) in
  reachable ticking_clock stable_argsort s
  ∧ df_preprocessed s = Some example_population
  ∧ ∃ c rates s',
      get_confusion_matrix ticking_clock (1 # 2) s = (Ok c, s')
      ∧ cm_rates c = Some rates
      ∧ (0 <= tp c)%Z ∧ (0 <= fp c)%Z ∧ (0 <= tn c)%Z ∧ (0 <= fn c)%Z
      ∧ (0 <= accuracy rates ∧ accuracy rates <= 100)
      ∧ (0 <= precision rates ∧ precision rates <= 100)
      ∧ (0 <= recall rates ∧ recall rates <= 100)
      ∧ (0 <= f1_score rates ∧ f1_score rates <= 100).
Proof.
  cbv zeta.
  split; [apply reach_init|].
  split; [reflexivity|].
  apply (confusion_rates_are_percentages ticking_clock stable_argsort
           (DataService_init (Some example_file)) example_population (1 # 2)).
  - apply reach_init.
  - reflexivity.
Defined.

Lemma sensitivity_table_shape_witness :
  let s := DataService_init (Some example_file) in
  reachable ticking_clock stable_argsort s
  ∧ df_preprocessed s = Some example_population
  ∧ ∃ rows s',
      get_threshold_sensitivity ticking_clock s = (Ok (SensData rows), s')
      ∧ Forall2 Qeq (map sens_threshold rows)
          [1 # 10; 2 # 10; 3 # 10; 4 # 10; 5 # 10; 6 # 10; 7 # 10; 8 # 10; 9 # 10]
      ∧ Forall2 (sens_row_ok (Some example_population))
          (np_linspace (1 # 10) (9 # 10) 9) rows
      ∧ StronglySorted
          (fun r1 r2 => sens_taxaAprovacao r2 <= sens_taxaAprovacao r1) rows.
Proof.
  cbv zeta.
  split; [apply reach_init|].
  split; [reflexivity|].
  apply (sensitivity_table_shape ticking_clock stable_argsort
           (DataService_init (Some example_file)) example_population).
  - apply reach_init.
  - reflexivity.
Defined.

Lemma missing_table_replies_witness :
  let s := DataService_init None in
  reachable ticking_clock stable_argsort s
  ∧ df_preprocessed s = None
  ∧ (∃ s', get_confusion_matrix ticking_clock (1 # 2) s
           = (Ok {| tp := 0; fp := 0; tn := 0; fn := 0; cm_rates := None |}, s'))
  ∧ (∃ s', get_roc_curve_data ticking_clock stable_argsort s
           = (Ok empty_curve, s'))
  ∧ (∃ s', get_threshold_sensitivity ticking_clock s
           = (Ok SensUnavailable, s')).
Proof.
  cbv zeta.
  split; [apply reach_init|].
  split; [reflexivity|].
  apply (missing_table_replies ticking_clock stable_argsort
           (DataService_init None) (1 # 2)).
  - apply reach_init.
  - reflexivity.
Defined.

Lemma unknown_objective_is_profit_witness :
  let s := DataService_init (Some example_file) in
  "growth" ≠ "risk"
  ∧ "growth" ≠ "balanced"
  ∧ optimize_threshold ticking_clock "growth" s
    = (match (optimize_threshold ticking_clock "profit" s).1 with
       | Ok r => Ok (with_objective "growth" r)
       | Raise e => Raise e
       end,
       (optimize_threshold ticking_clock "profit" s).2).
Proof.
  cbv zeta.
  split; [discriminate|].
  split; [discriminate|].
  apply (unknown_objective_is_profit ticking_clock "growth"
           (DataService_init (Some example_file))); discriminate.
Defined.

(** ** The prediction service on a worked example *)

Lemma loaded_service_is_equipped_witness :
  let self := (load_model (model_only (constant_model (12 # 100)))
                 ModelService_init).2 in
  ms_reachable self
  ∧ ms_threshold self = 50 # 100
  ∧ model_version self = "1.0.0-lgbm"
  ∧ (model_loaded self = true →
     ∃ m encoders cols,
       model self = Some m
       ∧ label_encoders self = Some encoders
       ∧ feature_cols self = Some cols).
Proof.
  cbv zeta.
  split; [apply ms_reach_load_model, ms_reach_init|].
  apply (loaded_service_is_equipped
           (load_model (model_only (constant_model (12 # 100)))
              ModelService_init).2).
  apply ms_reach_load_model, ms_reach_init.
Defined.

Lemma failed_reload_keeps_loaded_flag_witness :
  let self := (load_model (model_only (constant_model (12 # 100)))
                 ModelService_init).2 in
  let m := {| predict_proba := fun _ => Return (80 # 100);
              n_features_in_ := Some 20%nat |} in
  let files := model_only m in
  model_loaded self = true
  ∧ modelo_lgbm_pkl files = Some m
  ∧ n_features_in_ m = Some 20%nat
  ∧ length (default _get_default_features (feature_cols_pkl files)) ≠ 20%nat
  ∧ let after := (load_model files self).2 in
    (load_model files self).1 = Throw ValueError
    ∧ model_loaded after = true
    ∧ model after = Some m
    ∧ ∀ request f p,
        _prepare_features after request = Return f →
        predict_proba m f = Return p →
        0 <= p → p <= 1 →
        ∃ resp,
          predict true 0 after request = Return resp
          ∧ probability resp = py_round p 4.
Proof.
  cbv zeta.
  split; [reflexivity|]. split; [reflexivity|]. split; [reflexivity|].
  split; [discriminate|].
  apply (failed_reload_keeps_loaded_flag true 0
           (model_only {| predict_proba := fun _ => Return (80 # 100);
                          n_features_in_ := Some 20%nat |})
           (load_model (model_only (constant_model (12 # 100)))
              ModelService_init).2
           {| predict_proba := fun _ => Return (80 # 100);
              n_features_in_ := Some 20%nat |} 20%nat).
  - reflexivity.
  - reflexivity.
  - reflexivity.
  - discriminate.
Defined.

Lemma predict_decision_consistency_witness :
  let self := (load_model (model_only (constant_model (62 # 100)))
                 ModelService_init).2 in
  ms_reachable self
  ∧ ∃ resp,
      predict true 0 self example_request = Return resp
      ∧ (prediction resp = 0%Z ∨ prediction resp = 1%Z)
      ∧ (recommendation resp = "Aprovar" ∨ recommendation resp = "Revisar"
         ∨ recommendation resp = "Negar")
      ∧ (prediction resp = 1%Z →
         recommendation resp = "Negar" ∧ 50 # 100 <= probability resp)
      ∧ (recommendation resp = "Aprovar" ∨ recommendation resp = "Revisar" →
         prediction resp = 0%Z ∧ probability resp <= 30 # 100)
      ∧ (prediction resp = 0%Z → probability resp <= 50 # 100)
      ∧ resp_threshold resp = 50 # 100
      ∧ (60 # 100 <= confidence resp ∧ confidence resp <= 1).
Proof.
  cbv zeta.
  split; [apply ms_reach_load_model, ms_reach_init|].
  eexists. split; [vm_compute; reflexivity|].
  apply (predict_decision_consistency true 0
           (load_model (model_only (constant_model (62 # 100)))
              ModelService_init).2
           example_request).
  - apply ms_reach_load_model, ms_reach_init.
  - vm_compute; reflexivity.
Defined.

Lemma predict_response_valid_witness :
  let m := constant_model (12 # 100) in
  let self := (load_model (model_only m) ModelService_init).2 in
  ∃ f,
    model_loaded self = true
    ∧ model self = Some m
    ∧ _prepare_features self example_request = Return f
    ∧ predict_proba m f = Return (12 # 100)
    ∧ (0 <= 12 # 100 ∧ 12 # 100 <= 1 →
       ∃ resp,
         predict true 0 self example_request = Return resp
         ∧ resp_cliente_id resp = cliente_id example_request
         ∧ timestamp resp = 0%Z
         ∧ probability resp = py_round (12 # 100) 4
         ∧ (0 <= probability resp ∧ probability resp <= 1)
         ∧ (0 <= risk_score resp ∧ risk_score resp <= 100)
         ∧ (60 # 100 <= confidence resp ∧ confidence resp <= 1))
    ∧ (py_round (12 # 100) 4 < 0 ∨ 1 < py_round (12 # 100) 4 →
       ∃ fields,
         predict true 0 self example_request
         = Throw (ValidationError fields)
         ∧ "probability" ∈ fields).
Proof.
  cbv zeta.
  eexists.
  split; [reflexivity|]. split; [reflexivity|].
  split; [vm_compute; reflexivity|]. split; [reflexivity|].
  eapply (predict_response_valid true 0
            (load_model (model_only (constant_model (12 # 100)))
               ModelService_init).2
            (constant_model (12 # 100)) example_request).
  - reflexivity.
  - reflexivity.
  - vm_compute; reflexivity.
  - reflexivity.
Defined.

Lemma accented_key_never_matches_witness :
  let d : gmap string Z :=
    list_to_map [ ("Fundamental", 0%Z); ("Médio", 1%Z); ("Superior", 2%Z);
                  ("Pós-Graduação", 3%Z) ] in
  ("é", "e") ∈ accent_replacements
  ∧ str_contains "é" "Médio"
  ∧ _encode_categorical (DictEncoder d) (PyEnum "Médio")
    = _encode_categorical (DictEncoder (delete "Médio" d)) (PyEnum "Médio").
Proof.
  cbv zeta.
  split; [do 3 (apply elem_of_cons; right); apply elem_of_cons; left;
          reflexivity|].
  split; [exists "M", "dio"; reflexivity|].
  apply (accented_key_never_matches _ "Médio" "é" "e").
  - do 3 (apply elem_of_cons; right). apply elem_of_cons. left. reflexivity.
  - exists "M", "dio". reflexivity.
Defined.

Lemma default_encoders_codes_witness :
  let self := (load_model (model_only (constant_model (12 # 100)))
                 ModelService_init).2 in
  label_encoders self = Some default_encoders
  ∧ ((∀ e, encoded_with self "genero" (PyEnum (Genero_value e))
        = Return match e with
                 | Genero_MASCULINO => 0%Z
                 | Genero_FEMININO => 1%Z
                 | Genero_OUTRO => 2%Z
                 end)
  ∧ (∀ e, encoded_with self "regiao" (PyEnum (Regiao_value e))
          = Return match e with
                   | Regiao_SUDESTE => 0%Z
                   | Regiao_SUL => 1%Z
                   | Regiao_NORDESTE => 2%Z
                   | Regiao_CENTRO_OESTE => 3%Z
                   | Regiao_NORTE => 4%Z
                   end)
  ∧ (∀ e, encoded_with self "estado_civil" (PyEnum (EstadoCivil_value e))
          = Return match e with
                   | EstadoCivil_SOLTEIRO => 0%Z
                   | EstadoCivil_CASADO => 1%Z
                   | EstadoCivil_DIVORCIADO => 2%Z
                   | EstadoCivil_VIUVO => 0%Z
                   end)
  ∧ (∀ e, encoded_with self "escolaridade" (PyEnum (Escolaridade_value e))
          = Return match e with
                   | Escolaridade_FUNDAMENTAL => 0%Z
                   | Escolaridade_MEDIO => 0%Z
                   | Escolaridade_SUPERIOR => 2%Z
                   | Escolaridade_POS_GRADUACAO => 0%Z
                   end)
  ∧ (∀ e, encoded_with self "porte_municipio"
            (PyEnum (PorteMunicipio_value e))
          = Return match e with
                   | PorteMunicipio_PEQUENO => 0%Z
                   | PorteMunicipio_MEDIO => 0%Z
                   | PorteMunicipio_GRANDE => 2%Z
                   | PorteMunicipio_METROPOLE => 0%Z
                   end)
  ∧ (∀ e, encoded_with self "tipo_credito" (PyEnum (TipoProduto_value e))
          = Return match e with
                   | TipoProduto_CDC => 0%Z
                   | TipoProduto_IMOBILIARIO => 0%Z
                   | TipoProduto_CARTAO => 0%Z
                   | TipoProduto_PESSOAL => 3%Z
                   end)).
Proof.
  cbv zeta. split; [reflexivity|].
  apply (default_encoders_codes
           (load_model (model_only (constant_model (12 # 100)))
              ModelService_init).2).
  reflexivity.
Defined.




Lemma age_band_codes_witness :
  let self := (load_model (model_only (constant_model (12 # 100)))
                 ModelService_init).2 in
  ∃ d,
    label_encoders self = Some default_encoders
    ∧ _calculate_derived_features example_request = Return d
    ∧ encoded_with self "faixa_etaria" (PyStr (faixa_etaria d))
      = Return (Z.of_nat (length (filter
                  (fun bound => (bound <? idade example_request)%Z)
                  [25; 35; 45; 55; 65]%Z))).
Proof.
  cbv zeta. eexists.
  split; [reflexivity|]. split; [vm_compute; reflexivity|].
  apply (age_band_codes
           (load_model (model_only (constant_model (12 # 100)))
              ModelService_init).2 example_request).
  - reflexivity.
  - vm_compute; reflexivity.
Defined.
